(** * Listner.jsx: connection lifecycle, reconnection and audio track handling

    A shallow embedding of the handlers of [src/components/Listner.jsx].

    The component is a React function component.  Every handler is a closure
    created during one render: the state variables it mentions ([isConnected],
    [reconnectCount], ...) are the constants of that render, while the setters
    ([setIsConnected], ...) and the refs ([isComponentMountedRef.current], ...)
    act on the live component.  The embedding keeps the two apart:

    - [RState] is the tuple of [useState] values;
    - a handler takes the [RState] of the render it was created in (its
      closure, called [env] throughout) and transforms the [World], which
      holds the live [RState], the refs, the pending timers, the suspended
      rejoin callbacks, the debounce slot and the SDK track objects.

    A [useCallback] whose dependency list names every state variable its
    body reads behaves like the callback of the latest render; this holds
    for [attemptReconnection], [handleDisconnection], [toggleMute] and
    [handleVolumeChange].  Handlers registered once (the transport event
    handlers, the interval callback, the timer callbacks) keep the render
    they were created in.

    Which closure React hands to which event is modelled by [App] and
    [appStep]: the render captured by the client effect in place (its
    transport handlers, its [joinChannel] and its cleanup), the render of
    the current [checkBroadcasterStatus], the re-run of the client effect
    when [isMuted] or [volume] change, and the [disabled] attributes of the
    controls.  Updates made by one handler run are taken to be applied
    together, followed by one render.

    Not modelled: the audio-context effect, toasts, console output and the
    JSX tree beyond the status, the controls and the error screen. *)

From Stdlib Require Import QArith Qminmax Lqa Qpower.
From stdpp Require Import gmap strings list pretty.

Local Open Scope string_scope.

(** ** Data model *)

(** The [useState] cells the handlers read or write.  [client] and the track
    cells hold object identities ([null]/[undefined] is [None]). *)
Record RState := MkRState {
  isConnected : bool;
  isLive : bool;
  listenerCount : nat;
  volume : Z;
  isMuted : bool;
  isPlaying : bool;
  connectionError : option string;
  client : option nat;
  remoteAudioTrack : option nat;
  remoteMediaStreamTrack : option nat;
  isReconnecting : bool;
  reconnectCount : nat;
  wasPlayingBeforeDisconnect : bool;
  broadcasterOnline : bool
}.

(** The values of the first render (the [useState] initialisers). *)
Definition initialRState : RState :=
  MkRState false false 0 75 false false None None None None false 0 false false.

(** A remote audio track object of the SDK: what [setVolume], [play] and
    [stop] change. *)
Record Track := MkTrack {
  trackVolume : Z;
  trackPlaying : bool
}.

(** A pending [setTimeout] of [attemptReconnection]: its delay and the render
    its callback closes over. *)
Record Timer := MkTimer {
  timerDelay : Q;
  timerEnv : RState
}.

(** The last call recorded by the debounced volume setter: its three
    arguments [(newVolume, audioTrack, muted)]. *)
Record VolumeCall := MkVolumeCall {
  vcVolume : Z;
  vcTrack : option nat;
  vcMuted : bool
}.

Record World := MkWorld {
  rstate : RState;
  isComponentMountedRef : bool;
  reconnectTimeoutRef : option nat;
  (** the running [setInterval], with the [checkBroadcasterStatus] closure
      that was handed to it *)
  heartbeatIntervalRef : option RState;
  (** pending reconnection timers, by timer id *)
  timers : list (nat * Timer);
  nextTimerId : nat;
  (** reconnection callbacks suspended at [await client.join(...)] *)
  joining : list (nat * RState);
  tracks : gmap nat Track;
  debouncedVolumeChange : option VolumeCall;
  (** [APP_ID && CHANNEL_NAME] of the build environment *)
  configured : bool
}.

Definition maxReconnectAttempts : nat := 20.
Definition heartbeatInterval : Q := 1500.

(** ** Setters *)

Definition setIsConnected (v : bool) (s : RState) : RState :=
  match s with MkRState _ b c d e f g h i j k l m n => MkRState v b c d e f g h i j k l m n end.
Definition setIsLive (v : bool) (s : RState) : RState :=
  match s with MkRState a _ c d e f g h i j k l m n => MkRState a v c d e f g h i j k l m n end.
Definition setListenerCount (v : nat) (s : RState) : RState :=
  match s with MkRState a b _ d e f g h i j k l m n => MkRState a b v d e f g h i j k l m n end.
Definition setVolume (v : Z) (s : RState) : RState :=
  match s with MkRState a b c _ e f g h i j k l m n => MkRState a b c v e f g h i j k l m n end.
Definition setIsMuted (v : bool) (s : RState) : RState :=
  match s with MkRState a b c d _ f g h i j k l m n => MkRState a b c d v f g h i j k l m n end.
Definition setIsPlaying (v : bool) (s : RState) : RState :=
  match s with MkRState a b c d e _ g h i j k l m n => MkRState a b c d e v g h i j k l m n end.
Definition setConnectionError (v : option string) (s : RState) : RState :=
  match s with MkRState a b c d e f _ h i j k l m n => MkRState a b c d e f v h i j k l m n end.
Definition setClient (v : option nat) (s : RState) : RState :=
  match s with MkRState a b c d e f g _ i j k l m n => MkRState a b c d e f g v i j k l m n end.
Definition setRemoteAudioTrack (v : option nat) (s : RState) : RState :=
  match s with MkRState a b c d e f g h _ j k l m n => MkRState a b c d e f g h v j k l m n end.
Definition setRemoteMediaStreamTrack (v : option nat) (s : RState) : RState :=
  match s with MkRState a b c d e f g h i _ k l m n => MkRState a b c d e f g h i v k l m n end.
Definition setIsReconnecting (v : bool) (s : RState) : RState :=
  match s with MkRState a b c d e f g h i j _ l m n => MkRState a b c d e f g h i j v l m n end.
(** [setReconnectCount] is used both with a value and with an updater
    ([prev => prev + 1]); the updater form covers both. *)
Definition setReconnectCount (f : nat -> nat) (s : RState) : RState :=
  match s with MkRState a b c d e g h i j k l x m n => MkRState a b c d e g h i j k l (f x) m n end.
Definition setWasPlayingBeforeDisconnect (v : bool) (s : RState) : RState :=
  match s with MkRState a b c d e f g h i j k l _ n => MkRState a b c d e f g h i j k l v n end.
Definition setBroadcasterOnline (v : bool) (s : RState) : RState :=
  match s with MkRState a b c d e f g h i j k l m _ => MkRState a b c d e f g h i j k l m v end.

(** An action of a handler on the live component. *)
Definition Act : Type := World -> World.

Definition skip : Act := fun w => w.
Definition andThen (a b : Act) : Act := fun w => b (a w).
Notation "a >>> b" := (andThen a b) (at level 66, right associativity).

(** A state setter called from a handler. *)
Definition set (f : RState -> RState) : Act := fun w =>
  match w with
  | MkWorld r mo rt hb ts nx js tr db cf => MkWorld (f r) mo rt hb ts nx js tr db cf
  end.

Definition setMounted (v : bool) : Act := fun w =>
  match w with
  | MkWorld r _ rt hb ts nx js tr db cf => MkWorld r v rt hb ts nx js tr db cf
  end.
Definition setHeartbeatRef (v : option RState) : Act := fun w =>
  match w with
  | MkWorld r mo rt _ ts nx js tr db cf => MkWorld r mo rt v ts nx js tr db cf
  end.
Definition setTimers (v : list (nat * Timer)) : Act := fun w =>
  match w with
  | MkWorld r mo rt hb _ nx js tr db cf => MkWorld r mo rt hb v nx js tr db cf
  end.
Definition setJoining (v : list (nat * RState)) : Act := fun w =>
  match w with
  | MkWorld r mo rt hb ts nx _ tr db cf => MkWorld r mo rt hb ts nx v tr db cf
  end.
Definition setTracks (v : gmap nat Track) : Act := fun w =>
  match w with
  | MkWorld r mo rt hb ts nx js _ db cf => MkWorld r mo rt hb ts nx js v db cf
  end.
Definition setDebounced (v : option VolumeCall) : Act := fun w =>
  match w with
  | MkWorld r mo rt hb ts nx js tr _ cf => MkWorld r mo rt hb ts nx js tr v cf
  end.

(** [if (isComponentMountedRef.current) ...] *)
Definition ifMounted (a : Act) : Act := fun w =>
  if isComponentMountedRef w then a w else w.

Definition when (c : bool) (a : Act) : Act := if c then a else skip.

(** ** Timers *)

(** [reconnectTimeoutRef.current = setTimeout(callback, delay)]: the callback
    is queued with the closure [env] of the [attemptReconnection] that
    created it, and the ref remembers the new timer id. *)
Definition setTimeout (env : RState) (delay : Q) : Act := fun w =>
  match w with
  | MkWorld r mo _ hb ts nx js tr db cf =>
      MkWorld r mo (Some nx) hb (ts ++ [(nx, MkTimer delay env)]) (S nx) js tr db cf
  end.

Definition removeId {A : Type} (id : nat) (l : list (nat * A)) : list (nat * A) :=
  List.filter (fun p => negb (Nat.eqb (fst p) id)) l.

Fixpoint findId {A : Type} (id : nat) (l : list (nat * A)) : option A :=
  match l with
  | [] => None
  | (i, x) :: l' => if Nat.eqb i id then Some x else findId id l'
  end.

Definition clearTimeout (id : nat) : Act := fun w =>
  setTimers (removeId id (timers w)) w.

(** ** Track objects *)

Definition track_setVolume (t : nat) (v : Z) : Act := fun w =>
  setTracks (alter (fun tr => MkTrack v (trackPlaying tr)) t (tracks w)) w.
Definition track_play (t : nat) : Act := fun w =>
  setTracks (alter (fun tr => MkTrack (trackVolume tr) true) t (tracks w)) w.
Definition track_stop (t : nat) : Act := fun w =>
  setTracks (alter (fun tr => MkTrack (trackVolume tr) false) t (tracks w)) w.

(** ** Backoff delay *)

(** [Math.pow(base, n)] for a count [n], over exact rationals. *)
Fixpoint Math_pow (base : Q) (n : nat) : Q :=
  match n with
  | O => 1
  | S n' => base * Math_pow base n'
  end.

(** [Math.min(500 * Math.pow(1.2, reconnectCount), 3000)] *)
Definition reconnectDelay (reconnectCount : nat) : Q :=
  Qmin (500 * Math_pow (12 # 10) reconnectCount) 3000.

(** ** attemptReconnection *)

Definition isSome {A : Type} (o : option A) : bool :=
  match o with Some _ => true | None => false end.

(** The body of [attemptReconnection] up to and including [setTimeout]; the
    timer callback is [reconnectTimerFired] and [reconnectSettled] below. *)
Definition attemptReconnection (env : RState) : Act := fun w =>
  if negb (isSome (client env)) || negb (isComponentMountedRef w)
     || (maxReconnectAttempts <=? reconnectCount env)%nat
  then w
  else
    (set (setIsReconnecting true) >>>
     set (setReconnectCount (fun prev => prev + 1)%nat) >>>
     set (setConnectionError None) >>>
     setTimeout env (reconnectDelay (reconnectCount env))) w.

(** The result of [leave] (ignored), [setClientRole] and [join]. *)
Inductive JoinOutcome :=
| Joined
| JoinError (message : string).

(** The [catch] block of the timer callback.  [reconnectCount] and
    [attemptReconnection] are those of the enclosing closure: the retry runs
    the same closure [env] again. *)
Definition reconnectFailed (env : RState) (message : string) : Act :=
  set (setConnectionError (Some ("Reconnection failed: " ++ message))) >>>
  (if (reconnectCount env <? maxReconnectAttempts - 1)%nat
   then attemptReconnection env
   else
     set (setIsReconnecting false) >>>
     set (setConnectionError
            (Some "Connection failed after maximum attempts. Please refresh the page."))).

(** The timer [id] fires: the callback starts, and either returns (component
    unmounted), throws at once (missing configuration) or suspends at the
    first [await]. *)
Definition reconnectTimerFired (id : nat) : Act := fun w =>
  match findId id (timers w) with
  | None => w
  | Some tm =>
      let w1 := setTimers (removeId id (timers w)) w in
      if negb (isComponentMountedRef w1) then w1
      else if negb (configured w1)
           then reconnectFailed (timerEnv tm) "Missing Agora configuration" w1
           else setJoining (joining w1 ++ [(id, timerEnv tm)]) w1
  end.

(** The awaited calls of callback [id] settle; the rest of the [try] block or
    the [catch] block runs. *)
Definition reconnectSettled (id : nat) (o : JoinOutcome) : Act := fun w =>
  match findId id (joining w) with
  | None => w
  | Some env =>
      let w1 := setJoining (removeId id (joining w)) w in
      match o with
      | Joined =>
          (set (setIsConnected true) >>>
           set (setIsReconnecting false) >>>
           set (setReconnectCount (fun _ => 0%nat)) >>>
           set (setConnectionError None)) w1
      | JoinError message => reconnectFailed env message w1
      end
  end.

(** ** handleDisconnection *)

(** [attemptReconnection] is a dependency of this callback, so the one it
    calls was created from the same [client] and [reconnectCount]. *)
Definition handleDisconnection (env : RState) : Act :=
  ifMounted
    (set (setWasPlayingBeforeDisconnect (isPlaying env)) >>>
     set (setIsConnected false) >>>
     set (setIsLive false) >>>
     set (setIsPlaying false) >>>
     set (setConnectionError (Some "Connection lost - attempting to reconnect...")) >>>
     match remoteAudioTrack env with
     | Some t => track_stop t >>> set (setRemoteAudioTrack None)
     | None => skip
     end >>>
     set (setRemoteMediaStreamTrack None) >>>
     when (negb (isReconnecting env)
           && (reconnectCount env <? maxReconnectAttempts)%nat)
          (attemptReconnection env)).

(** ** checkBroadcasterStatus *)

(** [res.data?.data]: the two fields the handler reads.  [host_online] is
    [Some true] exactly when the field is the boolean [true]. *)
Record BroadcastInfo := MkBroadcastInfo {
  audience_total : option nat;
  host_online : option bool
}.

Inductive PollResult :=
| PollThrows (message : string)
| PollNoData
| PollData (data : BroadcastInfo).

(** Truthiness of a string-or-null cell. *)
Definition truthy (o : option string) : bool :=
  match o with
  | Some s => negb (String.eqb s "")
  | None => false
  end.

(** [res] is the outcome of [await getBroadcastInfoRequest()].  The
    [attemptReconnection] the callback names is the one of its own render. *)
Definition checkBroadcasterStatus (env : RState) (res : PollResult) : Act :=
  match res with
  | PollThrows _ =>
      when (negb (isReconnecting env))
           (set (setConnectionError (Some "Unable to check broadcaster status")))
  | PollNoData => skip
  | PollData data =>
      let currentListeners := default 0%nat (audience_total data) in
      let hostOnline := bool_decide (host_online data = Some true) in
      set (setListenerCount currentListeners) >>>
      set (setBroadcasterOnline hostOnline) >>>
      when (hostOnline && isConnected env && negb (isLive env)
            && negb (isSome (remoteAudioTrack env)))
           (set (setConnectionError
                   (Some "Broadcaster detected but audio not received - reconnecting...")) >>>
            when (negb (isReconnecting env)
                  && (reconnectCount env <? maxReconnectAttempts)%nat)
                 (attemptReconnection env)) >>>
      when (hostOnline && truthy (connectionError env))
           (set (setConnectionError None))
  end.

(** ** Heartbeat *)

Definition startHeartbeat (env : RState) : Act := fun w =>
  match heartbeatIntervalRef w with
  | Some _ => w
  | None => setHeartbeatRef (Some env) w
  end.

Definition stopHeartbeat : Act := fun w =>
  match heartbeatIntervalRef w with
  | Some _ => setHeartbeatRef None w
  | None => w
  end.

(** One firing of the interval: the closure given to [setInterval] runs. *)
Definition heartbeatTick (res : PollResult) : Act := fun w =>
  match heartbeatIntervalRef w with
  | Some env => checkBroadcasterStatus env res w
  | None => w
  end.

(** ** Transport events *)

Inductive MediaType := audio | video.

Inductive SubscribeOutcome :=
| Subscribed (audioTrack : nat)
| SubscribeError (message : string).

Definition isAudio (m : MediaType) : bool :=
  match m with audio => true | video => false end.

(** ['user-published'].  [sub] is the outcome of the calls up to and
    including [audioTrack.setVolume]; [playOk] tells whether
    [audioTrack.play()] resolves. *)
Definition user_published (env : RState) (mediaType : MediaType)
    (sub : SubscribeOutcome) (playOk : bool) : Act := fun w =>
  if isAudio mediaType && isComponentMountedRef w then
    match sub with
    | Subscribed t =>
        (track_setVolume t (if isMuted env then 0 else volume env) >>>
         set (setRemoteMediaStreamTrack (Some t)) >>>
         set (setRemoteAudioTrack (Some t)) >>>
         set (setIsLive true) >>>
         set (setConnectionError None) >>>
         when (wasPlayingBeforeDisconnect env)
              (if playOk
               then track_play t >>>
                    set (setIsPlaying true) >>>
                    set (setWasPlayingBeforeDisconnect false)
               else skip)) w
    | SubscribeError message =>
        set (setConnectionError (Some ("Failed to connect to audio: " ++ message))) w
    end
  else w.

(** ['user-unpublished'] *)
Definition user_unpublished (mediaType : MediaType) : Act := fun w =>
  if isAudio mediaType && isComponentMountedRef w
  then (set (setIsLive false) >>> set (setIsPlaying false)) w
  else w.

Inductive ConnectionStateName :=
| CONNECTED | DISCONNECTED | FAILED | RECONNECTING | CONNECTING | DISCONNECTING.

(** ['connection-state-changed'] *)
Definition connection_state_changed (env : RState)
    (curState : ConnectionStateName) (reason : string) : Act :=
  match curState with
  | CONNECTED => set (setConnectionError None) >>> set (setIsConnected true)
  | DISCONNECTED =>
      when (isConnected env && negb (isReconnecting env)) (handleDisconnection env)
  | FAILED =>
      set (setConnectionError (Some ("Connection failed: " ++ reason))) >>>
      handleDisconnection env
  | RECONNECTING =>
      set (setConnectionError (Some "Connection unstable, reconnecting..."))
  | CONNECTING | DISCONNECTING => skip
  end.

(** [x || fallback] on a string that may be missing. *)
Definition orString (o : option string) (fallback : string) : string :=
  match o with
  | Some s => if String.eqb s "" then fallback else s
  | None => fallback
  end.

(** ['exception'] *)
Definition exception (env : RState) (code : string) (msg : option string) : Act :=
  set (setConnectionError
         (Some ("Stream error: " ++ code ++ " - " ++ orString msg "Unknown error"))) >>>
  when ((String.eqb code "NETWORK_ERROR" || String.eqb code "UNEXPECTED_ERROR")
        && isConnected env && negb (isReconnecting env))
       (handleDisconnection env).

(** ** Teardown *)

(** The cleanup of the client effect.  Timer ids of the host are positive,
    so [if (reconnectTimeoutRef.current)] asks whether a timer was ever set;
    [removeAllListeners] and [leave] act on the transport only. *)
Definition cleanupClient (env : RState) : Act :=
  setMounted false >>>
  (fun w => match reconnectTimeoutRef w with
            | Some id => clearTimeout id w
            | None => w
            end) >>>
  stopHeartbeat >>>
  match remoteAudioTrack env with
  | Some t => track_stop t
  | None => skip
  end.

(** The cleanup of the last effect: [debouncedVolumeChange.cancel()] and
    [stopHeartbeat()]. *)
Definition cleanupComponent : Act :=
  setDebounced None >>> stopHeartbeat.

(** ** Volume, mute and playback *)

(** The debounced function is called: its arguments replace the recorded
    ones and the 100 ms wait restarts. *)
Definition debouncedVolumeChange_call (newVolume : Z) (audioTrack : option nat)
    (muted : bool) : Act :=
  setDebounced (Some (MkVolumeCall newVolume audioTrack muted)).

(** The wait elapses: the wrapped function runs on the recorded arguments.
    [ok] tells whether [audioTrack.setVolume] returns normally; its error is
    only logged. *)
Definition debouncedVolumeChange_flush (ok : bool) : Act := fun w =>
  match debouncedVolumeChange w with
  | None => w
  | Some c =>
      let w1 := setDebounced None w in
      match vcTrack c with
      | Some t => if negb (vcMuted c) && ok then track_setVolume t (vcVolume c) w1 else w1
      | None => w1
      end
  end.

Definition handleVolumeChange (env : RState) (newVolume : Z) : Act :=
  set (setVolume newVolume) >>>
  when (negb (isMuted env))
       (debouncedVolumeChange_call newVolume (remoteAudioTrack env) false).

(** [err] is the error thrown by the SDK call of the handler, if any. *)
Definition handlePlayPauseStream (env : RState) (err : option string) : Act :=
  match remoteAudioTrack env with
  | None => set (setConnectionError (Some "No audio stream available"))
  | Some t =>
      match err with
      | Some message => set (setConnectionError (Some ("Playback error: " ++ message)))
      | None =>
          if isPlaying env
          then track_stop t >>>
               set (setIsPlaying false) >>>
               set (setWasPlayingBeforeDisconnect false)
          else track_play t >>>
               set (setIsPlaying true) >>>
               set (setWasPlayingBeforeDisconnect true) >>>
               set (setConnectionError None)
      end
  end.

Definition toggleMute (env : RState) (err : option string) : Act :=
  match remoteAudioTrack env with
  | None => skip
  | Some t =>
      match err with
      | Some message => set (setConnectionError (Some ("Mute error: " ++ message)))
      | None =>
          let newMutedState := negb (isMuted env) in
          (if newMutedState
           then track_setVolume t 0
           else track_setVolume t (volume env)) >>>
          set (setIsMuted newMutedState)
      end
  end.

(** ** The component as a transition system *)

(** What can happen to a mounted component.  An event that runs a handler
    registered earlier carries the render [env] that handler closes over; the
    interval and the reconnection timers carry their own. *)
Inductive Event :=
| EvUserPublished (env : RState) (mediaType : MediaType)
    (sub : SubscribeOutcome) (playOk : bool)
| EvUserUnpublished (mediaType : MediaType)
| EvConnectionStateChanged (env : RState) (curState : ConnectionStateName)
    (reason : string)
| EvException (env : RState) (code : string) (msg : option string)
| EvStartHeartbeat (env : RState)
| EvHeartbeatTick (res : PollResult)
| EvCheckBroadcasterStatus (env : RState) (res : PollResult)
| EvReconnectTimer (id : nat)
| EvReconnectSettled (id : nat) (o : JoinOutcome)
| EvVolumeChange (env : RState) (newVolume : Z)
| EvVolumeFlush (ok : bool)
| EvToggleMute (env : RState) (err : option string)
| EvPlayPause (env : RState) (err : option string)
| EvCleanup (env : RState).

Definition step (e : Event) : Act :=
  match e with
  | EvUserPublished env mediaType sub playOk => user_published env mediaType sub playOk
  | EvUserUnpublished mediaType => user_unpublished mediaType
  | EvConnectionStateChanged env curState reason =>
      connection_state_changed env curState reason
  | EvException env code msg => exception env code msg
  | EvStartHeartbeat env => startHeartbeat env
  | EvHeartbeatTick res => heartbeatTick res
  | EvCheckBroadcasterStatus env res => checkBroadcasterStatus env res
  | EvReconnectTimer id => reconnectTimerFired id
  | EvReconnectSettled id o => reconnectSettled id o
  | EvVolumeChange env newVolume => handleVolumeChange env newVolume
  | EvVolumeFlush ok => debouncedVolumeChange_flush ok
  | EvToggleMute env err => toggleMute env err
  | EvPlayPause env err => handlePlayPauseStream env err
  | EvCleanup env => cleanupClient env >>> cleanupComponent
  end.

Fixpoint run (es : list Event) (w : World) : World :=
  match es with
  | [] => w
  | e :: es' => run es' (step e w)
  end.

(** The number of reconnection attempts that are under way: scheduled and
    not yet fired, or fired and waiting for the rejoin to settle. *)
Definition pendingAttempts (w : World) : nat :=
  length (timers w) + length (joining w).

(** The guard of [attemptReconnection], read positively. *)
Definition canAttempt (env : RState) (w : World) : bool :=
  isSome (client env) && isComponentMountedRef w
  && (reconnectCount env <? maxReconnectAttempts)%nat.

(** The attempt scheduled last fires and its rejoin fails. *)
Definition failOnce (message : string) : Act := fun w =>
  match reconnectTimeoutRef w with
  | Some id => (reconnectTimerFired id >>> reconnectSettled id (JoinError message)) w
  | None => w
  end.

(** The attempt scheduled last fires and its rejoin succeeds. *)
Definition succeedOnce : Act := fun w =>
  match reconnectTimeoutRef w with
  | Some id => (reconnectTimerFired id >>> reconnectSettled id Joined) w
  | None => w
  end.

Definition isNil {A : Type} (l : list A) : bool :=
  match l with [] => true | _ :: _ => false end.

(** A mounted, configured component with no attempt under way, seen from a
    render [env] that has the client and is not on its last attempt. *)
Definition chainReady (env : RState) (w : World) : bool :=
  isSome (client env) && (reconnectCount env <? maxReconnectAttempts - 1)%nat
  && isComponentMountedRef w && configured w
  && isNil (timers w) && isNil (joining w).

(** ** Reconnection attempts under way *)

(** A handler left the attempts, the reconnecting flag and the attempt
    counter as they were. *)
Definition attemptsUntouched (w w' : World) : Prop :=
  timers w' = timers w /\ joining w' = joining w /\
  isReconnecting (rstate w') = isReconnecting (rstate w) /\
  reconnectCount (rstate w') = reconnectCount (rstate w) /\
  nextTimerId w' = nextTimerId w.

(** A handler queued exactly one more attempt, counting it. *)
Definition attemptScheduled (w w' : World) : Prop :=
  (exists tm, timers w' = (timers w ++ [(nextTimerId w, tm)])%list) /\
  joining w' = joining w /\
  isReconnecting (rstate w') = true /\
  reconnectCount (rstate w') = S (reconnectCount (rstate w)) /\
  nextTimerId w' = S (nextTimerId w).

(** The events whose handlers never reach [attemptReconnection] nor a
    reconnection timer. *)
Definition quietEvent (e : Event) : bool :=
  match e with
  | EvUserPublished _ _ _ _ | EvUserUnpublished _ | EvStartHeartbeat _
  | EvVolumeChange _ _ | EvVolumeFlush _ | EvToggleMute _ _ | EvPlayPause _ _ => true
  | _ => false
  end.

(** ** The attempt counter across one event *)

Definition counterKept (w w' : World) : Prop :=
  reconnectCount (rstate w') = reconnectCount (rstate w) /\
  nextTimerId w' = nextTimerId w.

(** The counter went up by one and a rejoin timer was queued in the same
    handler run. *)
Definition counterBumped (w w' : World) : Prop :=
  reconnectCount (rstate w') = S (reconnectCount (rstate w)) /\
  nextTimerId w' = S (nextTimerId w) /\
  exists tm, last (timers w') = Some (nextTimerId w, tm).

(** The counter was cleared by the success branch of a rejoin callback. *)
Definition counterReset (e : Event) (w w' : World) : Prop :=
  exists id env, e = EvReconnectSettled id Joined /\
    findId id (joining w) = Some env /\
    reconnectCount (rstate w') = 0%nat /\
    nextTimerId w' = nextTimerId w.

(** ** Sample components *)

(** Joined, broadcaster not publishing. *)
Definition connectedRender : RState :=
  MkRState true false 0 75 false false None (Some 0%nat) None None false 0 false true.

(** Joined, playing track 7. *)
Definition liveRender : RState :=
  MkRState true true 3 75 false true None (Some 0%nat) (Some 7%nat) (Some 7%nat)
    false 0 false true.

(** A mounted component in state [r], no timer, no heartbeat; the SDK holds
    track 7, playing, and track 8, not yet played. *)
Definition mountedWorld (r : RState) : World :=
  MkWorld r true None None [] 1 []
    (<[ 8%nat := MkTrack 100 false ]> {[ 7%nat := MkTrack 100 true ]}) None true.

(** Rejoined after a disconnection that interrupted playback, muted at
    volume 40. *)
Definition resumeRender : RState :=
  MkRState true false 3 40 true false None (Some 0%nat) None None false 0 true true.

(** Rejoining after a disconnection: the first attempt is scheduled. *)
Definition reconnectingRender : RState :=
  MkRState false false 3 75 false false None (Some 0%nat) None None true 1 true true.

(** A disconnection, a second failure report handled by a handler that sees
    the reconnection, one failed rejoin and one successful rejoin. *)
Definition sampleTrace : list Event :=
  [ EvConnectionStateChanged liveRender DISCONNECTED "NETWORK_ERROR";
    EvConnectionStateChanged reconnectingRender FAILED "NETWORK_ERROR";
    EvHeartbeatTick (PollThrows "timeout");
    EvReconnectTimer 1;
    EvReconnectSettled 1 (JoinError "timeout");
    EvReconnectTimer 2;
    EvReconnectSettled 2 Joined ].

(** The component is mounted and configured, reconnecting with attempt
    counter [c], and its only attempt under way is the timer scheduled last,
    whose callback closes over [env]. *)
Definition Retrying (env : RState) (c : nat) (w : World) : Prop :=
  exists r hb tr db id d nx,
    w = MkWorld r true (Some id) hb [(id, MkTimer d env)] nx [] tr db true /\
    isReconnecting r = true /\ reconnectCount r = c.

(** A render on its twentieth attempt. *)
Definition lastAttemptRender : RState :=
  MkRState false false 3 75 false false None (Some 0%nat) None None false 19 true true.

(** ** Status shown to the listener *)

Inductive StreamStatusName :=
| StLoading | StError | StReconnecting | StDisconnected | StWaiting | StLive | StOffline.

#[global] Instance StreamStatusName_eq_dec : EqDecision StreamStatusName.
Proof. solve_decision. Defined.

Record StreamStatus := MkStreamStatus {
  status : StreamStatusName;
  message : string
}.

(** [getStreamStatus], from the values of one render; [isSDKLoading] is the
    loading cell of the page. *)
Definition getStreamStatus (isSDKLoading : bool) (r : RState) : StreamStatus :=
  if isSDKLoading then MkStreamStatus StLoading "Loading audio system..."
  else if truthy (connectionError r)
  then MkStreamStatus StError (default "" (connectionError r))
  else if isReconnecting r
  then MkStreamStatus StReconnecting
         ("Reconnecting... (" ++ pretty (reconnectCount r) ++ "/"
          ++ pretty maxReconnectAttempts ++ ")")
  else if negb (isConnected r)
  then MkStreamStatus StDisconnected "Connecting to service..."
  else if broadcasterOnline r && negb (isLive r)
  then MkStreamStatus StWaiting "Broadcaster online, establishing audio..."
  else if isLive r then MkStreamStatus StLive "Live stream active"
  else MkStreamStatus StOffline "Waiting for broadcaster...".

Definition statusIs (s : StreamStatusName) (isSDKLoading : bool) (r : RState) : bool :=
  bool_decide (status (getStreamStatus isSDKLoading r) = s).

(** The play/pause button is rendered under [streamStatus.status === 'live']
    and carries [disabled={streamStatus.status === 'reconnecting'}]. *)
Definition playButtonShown (isSDKLoading : bool) (r : RState) : bool :=
  statusIs StLive isSDKLoading r.
Definition playButtonDisabled (isSDKLoading : bool) (r : RState) : bool :=
  statusIs StReconnecting isSDKLoading r.

(** The [disabled] attribute of the mute button and of the volume slider,
    and the slider's [value]. *)
Definition muteButtonDisabled (isSDKLoading : bool) (r : RState) : bool :=
  negb (isConnected r) || statusIs StReconnecting isSDKLoading r || isSDKLoading.
Definition volumeSliderDisabled (isSDKLoading : bool) (r : RState) : bool :=
  isMuted r || negb (isConnected r) || statusIs StReconnecting isSDKLoading r
  || isSDKLoading.
Definition volumeSliderValue (r : RState) : Z :=
  if isMuted r then 0 else volume r.

(** The "Refresh Page" recovery button of the player card. *)
Definition refreshShown (isSDKLoading : bool) (r : RState) : bool :=
  statusIs StError isSDKLoading r || (maxReconnectAttempts <=? reconnectCount r)%nat.

(** ** What a heartbeat tick sees *)

(** What the rule of [checkBroadcasterStatus] tests in its render, together
    with the guard of [attemptReconnection] on that render. *)
Definition stuckView (env : RState) : bool :=
  isConnected env && negb (isLive env) && negb (isSome (remoteAudioTrack env))
  && negb (isReconnecting env)
  && (reconnectCount env <? maxReconnectAttempts)%nat
  && isSome (client env).

Definition reportsOnline (res : PollResult) : bool :=
  match res with
  | PollData data => bool_decide (host_online data = Some true)
  | _ => false
  end.

Definition isCleanup (e : Event) : bool :=
  match e with EvCleanup _ => true | _ => false end.

(** A component that is live holds an audio track handle. *)
Definition LiveHasHandle (w : World) : Prop :=
  isLive (rstate w) = true -> isSome (remoteAudioTrack (rstate w)) = true.


(** The render state of a component that is reconnecting on attempt [c]
    with no error shown, otherwise as [r]. *)
Definition withAttempt (c : nat) (r : RState) : RState :=
  setConnectionError None (setReconnectCount (fun _ => c) (setIsReconnecting true r)).

(** What [handleDisconnection] does before it decides on a reconnection. *)
Definition markDisconnected (env : RState) : Act :=
  set (setWasPlayingBeforeDisconnect (isPlaying env)) >>>
  set (setIsConnected false) >>>
  set (setIsLive false) >>>
  set (setIsPlaying false) >>>
  set (setConnectionError (Some "Connection lost - attempting to reconnect...")) >>>
  match remoteAudioTrack env with
  | Some t => track_stop t >>> set (setRemoteAudioTrack None)
  | None => skip
  end >>>
  set (setRemoteMediaStreamTrack None).

(** ** The page: SDK loading, first join, visibility *)

(** The cells and refs of the component that the reconnection handlers do
    not touch, around the [World] they act on.  A join retry timer holds the
    two renders its [joinChannel] closes over (see [joinChannel]); a resume
    timer holds the render of the [handlePlayPauseStream] it will call. *)
Record Page := MkPage {
  world : World;
  isSDKLoading : bool;
  sdkError : option string;
  AgoraRTC : option nat;
  hasShownConnectedToastRef : bool;
  joinRetryTimers : list (RState * RState);
  resumeTimers : list RState
}.

Definition initialPage (configured : bool) : Page :=
  MkPage (MkWorld initialRState true None None [] 1 [] ∅ None configured)
    true None None false [] [].

Definition onWorld (a : Act) (p : Page) : Page :=
  match p with
  | MkPage w l se sdk hs jr rs => MkPage (a w) l se sdk hs jr rs
  end.

(** The outcome of the dynamic import of the SDK. *)
Inductive LoadOutcome :=
| SdkLoaded (sdk : nat)
| SdkFailed (message : string).

(** [loadAgoraSDK]: [agoraSDKPromise] is the module-level cell; the promise
    is identified with the outcome it settles to.  The result is the
    returned promise and the new content of the cell. *)
Definition loadAgoraSDK (hasWindow : bool) (imported : LoadOutcome)
    (agoraSDKPromise : option LoadOutcome) : option LoadOutcome * option LoadOutcome :=
  let cell :=
    match agoraSDKPromise with
    | None => if hasWindow then Some imported else None
    | Some _ => agoraSDKPromise
    end in
  (cell, cell).

(** Successive calls of [loadAgoraSDK]; [imports] gives what each import
    would settle to if it were made.  The results of the calls, and the
    cell at the end. *)
Fixpoint loadAgoraSDK_calls (hasWindow : bool) (imports : list LoadOutcome)
    (agoraSDKPromise : option LoadOutcome)
    : list (option LoadOutcome) * option LoadOutcome :=
  match imports with
  | [] => ([], agoraSDKPromise)
  | i :: imports' =>
      let '(res, cell) := loadAgoraSDK hasWindow i agoraSDKPromise in
      let '(rest, cell') := loadAgoraSDK_calls hasWindow imports' cell in
      (res :: rest, cell')
  end.

(** [initializeSDK] up to its [await]. *)
Definition initializeSDK_start : Page -> Page :=
  onWorld (set (setConnectionError None)).

(** [initializeSDK] after [await loadAgoraSDK()]: [loaded] is the settled
    promise ([None] when [loadAgoraSDK] returned [null]), [isMounted] the
    flag of the effect. *)
Definition initializeSDK_settled (isMounted : bool) (loaded : option LoadOutcome)
    (p : Page) : Page :=
  if isMounted then
    match p, loaded with
    | MkPage w _ se _ hs jr rs, Some (SdkLoaded sdk) =>
        MkPage w false se (Some sdk) hs jr rs
    | MkPage w _ se _ hs jr rs, None =>
        MkPage w false se None hs jr rs
    | MkPage w _ _ sdk hs jr rs, Some (SdkFailed message) =>
        MkPage (set (setConnectionError (Some "Failed to load streaming system")) w)
          false (Some message) sdk hs jr rs
    end
  else p.

(** The first lines of the client effect: nothing happens until the SDK is
    there; then the client is created and stored. *)
Definition clientEffect (agoraClient : nat) (p : Page) : Page :=
  if negb (isSome (AgoraRTC p)) || isSDKLoading p then p
  else onWorld (set (setClient (Some agoraClient))) p.

(** [joinChannel] once its awaited calls have settled with [o].  [env] is
    the render of the effect that defines it (the retry test reads its
    [isConnected]) and [hbEnv] the render of the [checkBroadcasterStatus]
    that the effect's [startHeartbeat] hands to [setInterval].  A missing
    configuration throws before any call is made. *)
Definition joinChannel (env hbEnv : RState) (o : JoinOutcome) (p : Page) : Page :=
  let o' :=
    if configured (world p) then o
    else JoinError "Missing required Agora configuration (APP_ID or CHANNEL_NAME)" in
  match o' with
  | Joined =>
      if isComponentMountedRef (world p) && negb (hasShownConnectedToastRef p) then
        match p with
        | MkPage w l se sdk _ jr rs =>
            MkPage ((set (setIsConnected true) >>>
                     set (setConnectionError None) >>>
                     startHeartbeat hbEnv) w)
              l se sdk true jr rs
        end
      else p
  | JoinError message =>
      if isComponentMountedRef (world p) then
        match p with
        | MkPage w l se sdk hs jr rs =>
            MkPage (set (setConnectionError (Some ("Failed to join: " ++ message))) w)
              l se sdk hs (jr ++ [(env, hbEnv)]) rs
        end
      else p
  end.

(** The oldest join retry timer fires (they all wait 2000 ms); [o] is the
    outcome of the join it may make. *)
Definition joinRetryFired (o : JoinOutcome) (p : Page) : Page :=
  match p with
  | MkPage w l se sdk hs [] rs => p
  | MkPage w l se sdk hs ((env, hbEnv) :: jr) rs =>
      let p1 := MkPage w l se sdk hs jr rs in
      if isComponentMountedRef w && negb (isConnected env)
      then joinChannel env hbEnv o p1
      else p1
  end.

(** [handleVisibilityChange].  [env] is the render of the effect that
    registered it, [cbEnv] the render of its [checkBroadcasterStatus] and of
    the one inside its [startHeartbeat]; [res] is the outcome of the poll
    made when the page is seen disconnected. *)
Definition handleVisibilityChange (env cbEnv : RState) (visible : bool)
    (res : PollResult) (p : Page) : Page :=
  if visible then
    let p1 :=
      if isLive env && isSome (remoteAudioTrack env)
         && wasPlayingBeforeDisconnect env && negb (isPlaying env)
      then match p with
           | MkPage w l se sdk hs jr rs => MkPage w l se sdk hs jr (rs ++ [env])
           end
      else p in
    if isConnected env
    then onWorld (startHeartbeat cbEnv) p1
    else onWorld (checkBroadcasterStatus cbEnv res) p1
  else p.

(** The oldest resume timer fires: [handlePlayPauseStream] of its render
    runs; [err] is the error of its SDK call, if any. *)
Definition resumeTimerFired (err : option string) (p : Page) : Page :=
  match p with
  | MkPage w l se sdk hs jr [] => p
  | MkPage w l se sdk hs jr (env :: rs) =>
      MkPage (handlePlayPauseStream env err w) l se sdk hs jr rs
  end.

(** Successive join attempts: the first call of [joinChannel], then the
    retries, with the outcome of each. *)
Fixpoint joinAttempts (env hbEnv : RState) (os : list JoinOutcome) (first : bool)
    (p : Page) : Page :=
  match os with
  | [] => p
  | o :: os' =>
      joinAttempts env hbEnv os' false
        (if first then joinChannel env hbEnv o p else joinRetryFired o p)
  end.

Definition isJoinError (o : JoinOutcome) : bool :=
  match o with Joined => false | JoinError _ => true end.

(** The text of the error a failing join leaves. *)
Definition joinErrorText (configured : bool) (o : JoinOutcome) : string :=
  if configured then
    match o with
    | JoinError m => m
    | Joined => ""
    end
  else "Missing required Agora configuration (APP_ID or CHANNEL_NAME)".

(** A join that cannot succeed: the configuration is missing or the
    transport refuses. *)
Definition joinFails (configured : bool) (o : JoinOutcome) : bool :=
  negb configured || isJoinError o.

(** The text of the last error of a run of failed joins. *)
Definition lastJoinError (configured : bool) (os : list JoinOutcome) (o : JoinOutcome)
    : string :=
  joinErrorText configured (List.last os o).

(** The page from the first render to the moment the client effect has
    created its client: the SDK has loaded as [sdk]. *)
Definition startedPage (configured : bool) (sdk agoraClient : nat) : Page :=
  clientEffect agoraClient
    (initializeSDK_settled true (Some (SdkLoaded sdk))
       (initializeSDK_start (initialPage configured))).

(** ** Session id *)

(** [sessionStorage] as the effect meets it: usable, usable for reading
    only ([setItem] throws), absent ([undefined]) or throwing on access. *)
Inductive SessionStorage :=
| StorageOk (items : gmap string string)
| StorageReadOnly (items : gmap string string)
| StorageUndefined
| StorageThrows.

Definition sessionKey : string := "listener-session-id".

(** [`listener-${Date.now()}-${Math.random().toString(36).substr(2, 9)}`],
    from the renderings of the two draws. *)
Definition freshSessionId (draw : string * string) : string :=
  "listener-" ++ fst draw ++ "-" ++ snd draw.

(** [generateSessionId]: the id given to [setSessionId] and the storage it
    leaves.  [draw1] is the clock and random draw of the [try] block,
    [draw2] that of the [catch] block. *)
Definition generateSessionId (st : SessionStorage) (draw1 draw2 : string * string)
    : string * SessionStorage :=
  match st with
  | StorageOk items =>
      if truthy (items !! sessionKey)
      then (default "" (items !! sessionKey), st)
      else (freshSessionId draw1, StorageOk (<[sessionKey := freshSessionId draw1]> items))
  | StorageReadOnly items =>
      if truthy (items !! sessionKey)
      then (default "" (items !! sessionKey), st)
      else (freshSessionId draw2, st)
  | StorageUndefined => (freshSessionId draw1, st)
  | StorageThrows => (freshSessionId draw2, st)
  end.

(** ** The component under React *)

(** Which closure runs when is decided by React.  Updates made by one
    handler run are applied together and followed by one render.  A
    [useCallback] keeps the function of the render in which one of its
    dependencies last changed; an effect runs again, after the cleanup its
    previous run returned, when one of its dependencies has changed.

    - [checkBroadcasterStatus] (and the [startHeartbeat] around it) is
      recreated when one of the six cells of
      [checkBroadcasterStatus_deps] changes.  Its [attemptReconnection]
      is the one of that same render.
    - The client effect depends on [AgoraRTC], [isSDKLoading], [isMuted] and
      [volume].  The transport handlers, [joinChannel] and the cleanup it
      returns close over the render of the run that created them; the
      [startHeartbeat] of that render is the one [joinChannel] calls.
    - [handleVolumeChange], [toggleMute], [handlePlayPauseStream] and the
      visibility handler list every cell they read, so the user always
      reaches those of the latest render. *)

Definition checkBroadcasterStatus_deps (r : RState)
    : bool * bool * option nat * bool * nat * option string :=
  (isConnected r, isLive r, remoteAudioTrack r, isReconnecting r, reconnectCount r,
   connectionError r).

Definition clientEffect_deps (p : Page) : option nat * bool * bool * Z :=
  (AgoraRTC p, isSDKLoading p, isMuted (rstate (world p)), volume (rstate (world p))).

Record App := MkApp {
  page : Page;
  (** the client effect in place: the render its handlers, its
      [joinChannel] and its cleanup close over, and the render of the
      [checkBroadcasterStatus] inside its [startHeartbeat]; [None] when the
      effect has not run past its first line *)
  clientEffectEnv : option (RState * RState);
  (** the render in which the current [checkBroadcasterStatus] was created *)
  cbEnv : RState;
  (** calls of [joinChannel] waiting at [await agoraClient.join(...)] *)
  joinsPending : list (RState * RState);
  isIOS : bool;
  (** React has unmounted the component *)
  unmounted : bool
}.

(** The first render and the effects that follow it: [initializeSDK] is
    waiting for the import, the client effect has returned at its first
    line. *)
Definition appInit (configured isIOS : bool) : App :=
  MkApp (initializeSDK_start (initialPage configured)) None initialRState [] isIOS false.

(** The values of the latest render. *)
Definition live (a : App) : RState := rstate (world (page a)).

Definition onPage (f : Page -> Page) (a : App) : App :=
  match a with MkApp p ef cb jp ios um => MkApp (f p) ef cb jp ios um end.
Definition setClientEffectEnv (v : option (RState * RState)) (a : App) : App :=
  match a with MkApp p _ cb jp ios um => MkApp p v cb jp ios um end.
Definition setCbEnv (v : RState) (a : App) : App :=
  match a with MkApp p ef _ jp ios um => MkApp p ef v jp ios um end.
Definition setJoinsPending (v : list (RState * RState)) (a : App) : App :=
  match a with MkApp p ef cb _ ios um => MkApp p ef cb v ios um end.
Definition setUnmounted (v : bool) (a : App) : App :=
  match a with MkApp p ef cb jp ios _ => MkApp p ef cb jp ios v end.
Definition setJoinRetryTimers (v : list (RState * RState)) (p : Page) : Page :=
  match p with MkPage w l se sdk hs _ rs => MkPage w l se sdk hs v rs end.

(** A render: [useCallback] hands out a new [checkBroadcasterStatus] when
    its dependencies differ from those of the render before. *)
Definition render (a : App) : App :=
  if bool_decide (checkBroadcasterStatus_deps (live a)
                  = checkBroadcasterStatus_deps (cbEnv a))
  then a
  else setCbEnv (live a) a.

(** [joinChannel()] is called: a missing configuration throws at once and
    the [catch] block runs ([joinChannel] does not read its outcome argument
    then), else the call waits for the transport. *)
Definition joinChannel_call (env hbEnv : RState) (a : App) : App :=
  if configured (world (page a))
  then setJoinsPending (joinsPending a ++ [(env, hbEnv)]) a
  else onPage (joinChannel env hbEnv Joined) a.

(** The client effect runs again: the cleanup of the previous run, then the
    body, which creates [agoraClient], registers the handlers of this
    render and calls [joinChannel]. *)
Definition runClientEffect (agoraClient : nat) (a : App) : App :=
  let a1 :=
    match clientEffectEnv a with
    | Some (env, _) => onPage (onWorld (cleanupClient env)) a
    | None => a
    end in
  if negb (isSome (AgoraRTC (page a1))) || isSDKLoading (page a1)
  then setClientEffectEnv None a1
  else
    let env := live a1 in
    let hbEnv := cbEnv a1 in
    joinChannel_call env hbEnv
      (setClientEffectEnv (Some (env, hbEnv)) (onPage (clientEffect agoraClient) a1)).

(** What follows a handler run that may have changed a dependency of the
    client effect: the render, the effect if its dependencies differ from
    those of [before], and the render caused by the updates of the effect.
    [agoraClient] is the client the effect would create. *)
Definition commit (before : App) (agoraClient : nat) (a : App) : App :=
  let a1 := render a in
  if bool_decide (clientEffect_deps (page a1) = clientEffect_deps (page before))
  then a1
  else render (runClientEffect agoraClient a1).

(** The player is on screen: with [sdkError] set the component returns the
    "Service Unavailable" screen instead. *)
Definition playerShown (p : Page) : bool := negb (truthy (sdkError p)).

(** The controls that can deliver an event. *)
Definition canToggleMute (a : App) : bool :=
  negb (unmounted a) && playerShown (page a)
  && negb (muteButtonDisabled (isSDKLoading (page a)) (live a)).
Definition canMoveSlider (a : App) : bool :=
  negb (unmounted a) && playerShown (page a) && negb (isIOS a)
  && negb (volumeSliderDisabled (isSDKLoading (page a)) (live a)).
Definition canPressPlay (a : App) : bool :=
  negb (unmounted a) && playerShown (page a)
  && playButtonShown (isSDKLoading (page a)) (live a)
  && negb (playButtonDisabled (isSDKLoading (page a)) (live a)).

(** [await agoraClient.subscribe(user, mediaType)] in the publish handler:
    the SDK hands out the track object [user.audioTrack]; one it has not
    handed out before starts at the SDK's volume 100 and is not playing. *)
Definition agoraClient_subscribe (mediaType : MediaType) (sub : SubscribeOutcome) : Act :=
  fun w =>
    if isAudio mediaType && isComponentMountedRef w then
      match sub with
      | Subscribed t =>
          match tracks w !! t with
          | Some _ => w
          | None => setTracks (<[t := MkTrack 100 false]> (tracks w)) w
          end
      | SubscribeError _ => w
      end
    else w.

(** What can happen to the component.  The closures are not part of an
    event: React has fixed them.  [agoraClient] is the client the effect
    creates if the event makes it run. *)
Inductive AppEvent :=
| ASdkSettled (loaded : option LoadOutcome) (agoraClient : nat)
| AJoinSettled (i : nat) (o : JoinOutcome)
| AJoinRetry
| APublished (mediaType : MediaType) (sub : SubscribeOutcome) (playOk : bool)
| AUnpublished (mediaType : MediaType)
| AConnectionState (curState : ConnectionStateName) (reason : string)
| AException (code : string) (msg : option string)
| ATick (res : PollResult)
| AReconnectTimer (id : nat)
| AReconnectSettled (id : nat) (o : JoinOutcome)
| AVolumeChange (newVolume : Z) (agoraClient : nat)
| AVolumeFlush (ok : bool)
| AToggleMute (err : option string) (agoraClient : nat)
| APlayPause (err : option string)
| AVisibility (visible : bool) (res : PollResult)
| AResumeTimer (err : option string)
| AUnmount.

Definition appStep (ev : AppEvent) (a : App) : App :=
  match ev with
  | ASdkSettled loaded agoraClient =>
      if isSDKLoading (page a) && negb (unmounted a)
      then commit a agoraClient (onPage (initializeSDK_settled true loaded) a)
      else a
  | AJoinSettled i o =>
      match joinsPending a !! i with
      | Some (env, hbEnv) =>
          render (onPage (joinChannel env hbEnv o)
                    (setJoinsPending (delete i (joinsPending a)) a))
      | None => a
      end
  | AJoinRetry =>
      match joinRetryTimers (page a) with
      | [] => a
      | (env, hbEnv) :: jr =>
          let a1 := onPage (setJoinRetryTimers jr) a in
          if isComponentMountedRef (world (page a)) && negb (isConnected env)
          then render (joinChannel_call env hbEnv a1)
          else a1
      end
  | APublished mediaType sub playOk =>
      match clientEffectEnv a with
      | Some (env, _) =>
          render (onPage (onWorld (agoraClient_subscribe mediaType sub >>>
                                   user_published env mediaType sub playOk)) a)
      | None => a
      end
  | AUnpublished mediaType =>
      match clientEffectEnv a with
      | Some _ => render (onPage (onWorld (user_unpublished mediaType)) a)
      | None => a
      end
  | AConnectionState curState reason =>
      match clientEffectEnv a with
      | Some (env, _) =>
          render (onPage (onWorld (connection_state_changed env curState reason)) a)
      | None => a
      end
  | AException code msg =>
      match clientEffectEnv a with
      | Some (env, _) => render (onPage (onWorld (exception env code msg)) a)
      | None => a
      end
  | ATick res => render (onPage (onWorld (heartbeatTick res)) a)
  | AReconnectTimer id => render (onPage (onWorld (reconnectTimerFired id)) a)
  | AReconnectSettled id o => render (onPage (onWorld (reconnectSettled id o)) a)
  | AVolumeChange newVolume agoraClient =>
      if canMoveSlider a
      then commit a agoraClient (onPage (onWorld (handleVolumeChange (live a) newVolume)) a)
      else a
  | AVolumeFlush ok => render (onPage (onWorld (debouncedVolumeChange_flush ok)) a)
  | AToggleMute err agoraClient =>
      if canToggleMute a
      then commit a agoraClient (onPage (onWorld (toggleMute (live a) err)) a)
      else a
  | APlayPause err =>
      if canPressPlay a
      then render (onPage (onWorld (handlePlayPauseStream (live a) err)) a)
      else a
  | AVisibility visible res =>
      if unmounted a then a
      else render (onPage (handleVisibilityChange (live a) (cbEnv a) visible res) a)
  | AResumeTimer err => render (onPage (resumeTimerFired err) a)
  | AUnmount =>
      if unmounted a then a
      else
        setUnmounted true
          (setClientEffectEnv None
             (onPage
                (onWorld
                   (match clientEffectEnv a with
                    | Some (env, _) => cleanupClient env
                    | None => skip
                    end >>> cleanupComponent))
                a))
  end.

Fixpoint appRun (es : list AppEvent) (a : App) : App :=
  match es with
  | [] => a
  | e :: es' => appRun es' (appStep e a)
  end.

(** The states the component can be in. *)
Definition Reachable (a : App) : Prop :=
  exists configured ios es, a = appRun es (appInit configured ios).

(** The cells of a render in which nothing has happened yet on the
    transport or at the controls. *)
Definition Pristine (r : RState) : Prop :=
  isConnected r = false /\ isLive r = false /\ isPlaying r = false /\
  wasPlayingBeforeDisconnect r = false /\ remoteAudioTrack r = None /\
  isReconnecting r = false /\ reconnectCount r = 0%nat /\ client r = None /\
  isMuted r = false /\ volume r = 75%Z.

(** [isComponentMountedRef.current] *)
Definition mountedRef (a : App) : bool := isComponentMountedRef (world (page a)).

(** The client effect has not yet run past its first line: nothing has
    happened on the transport, no timer and no interval exists. *)
Definition NotStarted (a : App) : Prop :=
  Pristine (live a) /\ Pristine (cbEnv a) /\
  AgoraRTC (page a) = None /\
  heartbeatIntervalRef (world (page a)) = None /\
  timers (world (page a)) = [] /\ joining (world (page a)) = [] /\
  joinsPending a = [] /\ joinRetryTimers (page a) = [] /\ resumeTimers (page a) = [].

(** While [isComponentMountedRef.current] is true, the client effect in
    place is the first one that ran past its first line, and the render it
    closes over is pristine. *)
Definition AppInv (a : App) : Prop :=
  (unmounted a = true -> clientEffectEnv a = None) /\
  (mountedRef a = true ->
   match clientEffectEnv a with
   | Some (env, hbEnv) => Pristine env /\ Pristine hbEnv
   | None => unmounted a = false -> NotStarted a
   end).

(** The attempt scheduled last fires and its rejoin fails. *)
Definition appFailOnce (message : string) (a : App) : App :=
  match reconnectTimeoutRef (world (page a)) with
  | Some id => appStep (AReconnectSettled id (JoinError message)) (appStep (AReconnectTimer id) a)
  | None => a
  end.

(** A poll that reports the broadcaster online. *)
Definition online (listeners : nat) : PollResult :=
  PollData (MkBroadcastInfo (Some listeners) (Some true)).

(** Start-up: the SDK loads and the first join succeeds. *)
Definition startup (sdk agoraClient : nat) : list AppEvent :=
  [ASdkSettled (Some (SdkLoaded sdk)) agoraClient; AJoinSettled 0 Joined].

(** Start-up in which the transport reports CONNECTED and the page becomes
    visible before the awaited [join] of [joinChannel] returns. *)
Definition startupSeen (sdk agoraClient : nat) : list AppEvent :=
  [ASdkSettled (Some (SdkLoaded sdk)) agoraClient;
   AConnectionState CONNECTED "";
   AVisibility true PollNoData;
   AJoinSettled 0 Joined].

(** The component after [startupSeen], a first tick that finds the
    broadcaster online and [n] failed rejoins. *)
Definition staleChain (ios : bool) (sdk agoraClient listeners : nat) (message : string)
    (n : nat) : App :=
  Nat.iter n (appFailOnce message)
    (appRun (startupSeen sdk agoraClient ++ [ATick (online listeners)]) (appInit true ios)).

(** ** What the page shows *)

Inductive PageView :=
| ServiceUnavailable (reason : string)
| Player (s : StreamStatus).

(** With [sdkError] set the component returns the error screen before
    [getStreamStatus] is reached. *)
Definition pageView (p : Page) : PageView :=
  if truthy (sdkError p) then ServiceUnavailable (default "" (sdkError p))
  else Player (getStreamStatus (isSDKLoading p) (rstate (world p))).

(** ** Sample sessions *)

(** The SDK loads, the first join succeeds and the broadcaster's track 7 is
    attached. *)
Definition attachedTrace : list AppEvent :=
  startup 1 0 ++ [APublished audio (Subscribed 7) true].

(** The listener then presses play. *)
Definition playingTrace : list AppEvent :=
  startup 1 0 ++ [APublished audio (Subscribed 7) true; APlayPause None].

(** The broadcaster then stops publishing. *)
Definition republishTrace : list AppEvent :=
  startup 1 0 ++
  [APublished audio (Subscribed 7) true; APlayPause None; AUnpublished audio].

(** ** What a re-run of the client effect leaves alone *)

(** The cells and refs that decide which controls are enabled: kept, except
    that an error text may appear. *)
Definition gatesKept (a a' : App) : Prop :=
  isConnected (live a') = isConnected (live a) /\
  isReconnecting (live a') = isReconnecting (live a) /\
  (connectionError (live a') = connectionError (live a) \/
   truthy (connectionError (live a')) = true) /\
  isSDKLoading (page a') = isSDKLoading (page a) /\
  sdkError (page a') = sdkError (page a) /\
  isIOS a' = isIOS a /\
  unmounted a' = unmounted a.

(** The mute and volume settings, the handle, the debounced call and the
    volume of every track. *)
Definition settingsKept (a a' : App) : Prop :=
  isMuted (live a') = isMuted (live a) /\
  volume (live a') = volume (live a) /\
  remoteAudioTrack (live a') = remoteAudioTrack (live a) /\
  debouncedVolumeChange (world (page a')) = debouncedVolumeChange (world (page a)) /\
  forall t, trackVolume <$> tracks (world (page a')) !! t
            = trackVolume <$> tracks (world (page a)) !! t.

(** * Properties *)

(** ** Backoff delay *)

Section Backoff.

Local Open Scope Q_scope.

Lemma Math_pow_pos (n : nat) : 0 < Math_pow (12 # 10) n.
Proof.
  induction n as [|n IH]; cbn [Math_pow].
  - reflexivity.
  - apply Qmult_lt_0_compat; [reflexivity | exact IH].
Qed.

Lemma Math_pow_step (n : nat) :
  Math_pow (12 # 10) n <= Math_pow (12 # 10) (S n).
Proof.
  cbn [Math_pow]. pose proof (Math_pow_pos n) as Hpos.
  set (p := Math_pow (12 # 10) n) in *. lra.
Qed.

Lemma Math_pow_mono (i j : nat) :
  (i <= j)%nat -> Math_pow (12 # 10) i <= Math_pow (12 # 10) j.
Proof.
  induction 1 as [|j Hle IH].
  - apply Qle_refl.
  - eapply Qle_trans; [exact IH | apply Math_pow_step].
Qed.

(** From the tenth retry on the delay is the cap. *)
Lemma reconnectDelay_capped_from_10 (i : nat) :
  (10 <= i)%nat -> reconnectDelay i == 3000.
Proof.
  intros Hi. unfold reconnectDelay. apply Q.min_r.
  pose proof (Math_pow_mono 10 i Hi) as Hm.
  assert (H10 : 6 <= Math_pow (12 # 10) 10) by (vm_compute; discriminate).
  set (p := Math_pow (12 # 10) i) in *. lra.
Qed.

(** Over counts [i <= j] the delay does not decrease, and it never exceeds
    the 3000 ms cap. *)
Lemma reconnectDelay_monotone_capped (i j : nat) :
  (i <= j)%nat ->
  reconnectDelay i == Qmin (500 * Math_pow (12 # 10) i) 3000 /\
  reconnectDelay i <= reconnectDelay j /\
  reconnectDelay j <= 3000.
Proof.
  intros Hij. split; [reflexivity | split].
  - unfold reconnectDelay. apply Q.min_le_compat_r.
    pose proof (Math_pow_mono i j Hij) as Hm.
    set (p := Math_pow (12 # 10) i) in *.
    set (q := Math_pow (12 # 10) j) in *. lra.
  - unfold reconnectDelay. apply Q.le_min_r.
Qed.

End Backoff.

(** ** attemptReconnection: when it runs and what it leaves *)

Lemma attemptReconnection_guard (env : RState) (w : World) :
  negb (isSome (client env)) || negb (isComponentMountedRef w)
  || (maxReconnectAttempts <=? reconnectCount env)%nat = negb (canAttempt env w).
Proof.
  unfold canAttempt. rewrite Nat.ltb_antisym.
  destruct (isSome (client env)), (isComponentMountedRef w),
    (maxReconnectAttempts <=? reconnectCount env)%nat; reflexivity.
Qed.

Lemma attemptReconnection_skips (env : RState) (w : World) :
  canAttempt env w = false -> attemptReconnection env w = w.
Proof.
  intros H. unfold attemptReconnection.
  rewrite attemptReconnection_guard, H. reflexivity.
Qed.

Lemma attemptReconnection_schedules (env : RState) (w : World) :
  canAttempt env w = true ->
  attemptReconnection env w =
  MkWorld
    (setConnectionError None
       (setReconnectCount (fun prev => prev + 1)%nat
          (setIsReconnecting true (rstate w))))
    (isComponentMountedRef w) (Some (nextTimerId w)) (heartbeatIntervalRef w)
    (timers w ++ [(nextTimerId w, MkTimer (reconnectDelay (reconnectCount env)) env)])
    (S (nextTimerId w)) (joining w) (tracks w) (debouncedVolumeChange w)
    (configured w).
Proof.
  intros H. unfold attemptReconnection.
  rewrite attemptReconnection_guard, H. destruct w; reflexivity.
Qed.

(** Projections of the live state through the setters. *)
Lemma reconnectCount_scheduled (r : RState) :
  reconnectCount
    (setConnectionError None
       (setReconnectCount (fun prev => prev + 1)%nat (setIsReconnecting true r)))
  = S (reconnectCount r).
Proof. destruct r; cbn. lia. Qed.

Lemma isReconnecting_scheduled (r : RState) :
  isReconnecting
    (setConnectionError None
       (setReconnectCount (fun prev => prev + 1)%nat (setIsReconnecting true r)))
  = true.
Proof. destruct r; reflexivity. Qed.

(** ** Stuck-state detection *)

(** The rule reads the render of the closure handed to [setInterval]: an
    interval started from a render in which the component was not yet
    connected never starts a reconnection, whatever the poll reports. *)
Lemma heartbeat_closure_not_connected
    (w : World) (env : RState) (res : PollResult) :
  heartbeatIntervalRef w = Some env ->
  isConnected env = false ->
  let w' := step (EvHeartbeatTick res) w in
  timers w' = timers w /\
  isReconnecting (rstate w') = isReconnecting (rstate w) /\
  reconnectCount (rstate w') = reconnectCount (rstate w).
Proof.
  intros Hhb Hconn. cbn [step]. unfold heartbeatTick. rewrite Hhb.
  unfold checkBroadcasterStatus, andThen, when, skip. rewrite Hconn.
  destruct w as [r mo rt hb ts nx js tr db cf]; destruct r.
  destruct res as [message| |data]; cbn.
  - destruct (negb (isReconnecting env)); cbn; auto.
  - auto.
  - destruct (bool_decide (host_online data = Some true)); cbn;
      try destruct (truthy (connectionError env)); cbn; auto.
Qed.

(** ** Presence polling *)

Lemma poll_failure_frame
    (env : RState) (message : string) (w : World) :
  let w' := checkBroadcasterStatus env (PollThrows message) w in
  heartbeatIntervalRef w' = heartbeatIntervalRef w /\
  broadcasterOnline (rstate w') = broadcasterOnline (rstate w) /\
  listenerCount (rstate w') = listenerCount (rstate w) /\
  timers w' = timers w /\
  joining w' = joining w /\
  nextTimerId w' = nextTimerId w /\
  isReconnecting (rstate w') = isReconnecting (rstate w) /\
  reconnectCount (rstate w') = reconnectCount (rstate w).
Proof.
  unfold checkBroadcasterStatus, when.
  destruct w as [r mo rt hb ts nx js tr db cf]; destruct r.
  destruct (negb (isReconnecting env)); cbn; repeat split; reflexivity.
Qed.

(** C8. A failed presence query is transient: the handler leaves the
    heartbeat interval running, keeps the broadcaster-online flag and the
    listener count of the last successful poll, and starts no reconnection
    attempt (no timer is queued, the reconnecting flag and the attempt
    counter are unchanged), whatever render the handler closes over. *)
Theorem presence_failure_is_transient
    (env : RState) (message : string) (w : World) :
  let w' := checkBroadcasterStatus env (PollThrows message) w in
  heartbeatIntervalRef w' = heartbeatIntervalRef w /\
  broadcasterOnline (rstate w') = broadcasterOnline (rstate w) /\
  listenerCount (rstate w') = listenerCount (rstate w) /\
  timers w' = timers w /\
  joining w' = joining w /\
  nextTimerId w' = nextTimerId w /\
  isReconnecting (rstate w') = isReconnecting (rstate w) /\
  reconnectCount (rstate w') = reconnectCount (rstate w).
Proof. exact (poll_failure_frame env message w). Qed.

(** The same for a firing of the heartbeat interval. *)
Lemma heartbeat_failure_is_transient (message : string) (w : World) :
  let w' := step (EvHeartbeatTick (PollThrows message)) w in
  heartbeatIntervalRef w' = heartbeatIntervalRef w /\
  broadcasterOnline (rstate w') = broadcasterOnline (rstate w) /\
  listenerCount (rstate w') = listenerCount (rstate w) /\
  pendingAttempts w' = pendingAttempts w /\
  isReconnecting (rstate w') = isReconnecting (rstate w).
Proof.
  cbn [step]. unfold heartbeatTick.
  destruct (heartbeatIntervalRef w) as [env|] eqn:Hhb.
  - pose proof (poll_failure_frame env message w) as H.
    cbv zeta in H. unfold pendingAttempts. cbv zeta.
    destruct H as (H1 & H2 & H3 & H4 & H5 & _ & H7 & _).
    rewrite H1, H2, H3, H4, H5, H7. auto.
  - cbv zeta. auto.
Qed.

(** ** What a handler does to the attempts *)

Ltac attempt_cases :=
  match goal with
  | |- context [attemptReconnection ?e ?x] =>
      let Hc := fresh "Hc" in
      destruct (canAttempt e x) eqn:Hc;
      [ rewrite (attemptReconnection_schedules e x Hc)
      | rewrite (attemptReconnection_skips e x Hc) ]
  end.

Ltac open_world w :=
  let r := fresh "r" in
  destruct w as [r ? ? ? ? ? ? ? ? ?]; destruct r.

Ltac untouched := left; repeat split; reflexivity.

Ltac scheduled H :=
  right; split;
  [ exact H
  | split; [eexists; reflexivity | repeat split; try reflexivity; cbn; lia] ].

Lemma guard_unaware (env : RState) (n : nat) :
  negb (isReconnecting env) && (reconnectCount env <? n)%nat = true ->
  isReconnecting env = false.
Proof.
  intros G. apply andb_true_iff in G as [G _].
  apply negb_true_iff in G. exact G.
Qed.

Lemma untouched_trans (w w1 w2 : World) :
  attemptsUntouched w w1 -> attemptsUntouched w1 w2 -> attemptsUntouched w w2.
Proof.
  unfold attemptsUntouched.
  intros (H1 & H2 & H3 & H4 & H5) (K1 & K2 & K3 & K4 & K5).
  rewrite K1, K2, K3, K4, K5. auto.
Qed.

Lemma untouched_scheduled (w w1 w2 : World) :
  attemptsUntouched w w1 -> attemptScheduled w1 w2 -> attemptScheduled w w2.
Proof.
  unfold attemptsUntouched, attemptScheduled.
  intros (H1 & H2 & H3 & H4 & H5) ([tm K1] & K2 & K3 & K4 & K5).
  rewrite K1, K2, K3, K4, K5, H1, H2, H4, H5.
  split; [eexists; reflexivity | auto].
Qed.

Lemma handleDisconnection_effect (env : RState) (w : World) :
  let w' := handleDisconnection env w in
  attemptsUntouched w w' \/ (isReconnecting env = false /\ attemptScheduled w w').
Proof.
  cbv zeta. unfold handleDisconnection, ifMounted.
  destruct (isComponentMountedRef w) eqn:Hm; [| untouched].
  unfold andThen, when, skip.
  destruct (negb (isReconnecting env) && _) eqn:G.
  - apply guard_unaware in G. attempt_cases.
    + open_world w; destruct (remoteAudioTrack env); cbn; scheduled G.
    + open_world w; destruct (remoteAudioTrack env); cbn; untouched.
  - open_world w; destruct (remoteAudioTrack env); cbn; untouched.
Qed.

Lemma checkBroadcasterStatus_effect (env : RState) (res : PollResult) (w : World) :
  let w' := checkBroadcasterStatus env res w in
  attemptsUntouched w w' \/ (isReconnecting env = false /\ attemptScheduled w w').
Proof.
  cbv zeta. unfold checkBroadcasterStatus.
  destruct res as [message| |data]; unfold andThen, when, skip.
  - open_world w; destruct (negb (isReconnecting env)); cbn; untouched.
  - untouched.
  - destruct (bool_decide _ && isConnected env && _ && _);
      [destruct (negb (isReconnecting env) && _) eqn:G;
       [apply guard_unaware in G; attempt_cases |] |].
    + open_world w; destruct (_ && truthy _); cbn; scheduled G.
    + open_world w; destruct (_ && truthy _); cbn; untouched.
    + open_world w; destruct (_ && truthy _); cbn; untouched.
    + open_world w; destruct (_ && truthy _); cbn; untouched.
Qed.

Lemma connection_state_changed_effect
    (env : RState) (curState : ConnectionStateName) (reason : string) (w : World) :
  let w' := connection_state_changed env curState reason w in
  attemptsUntouched w w' \/ (isReconnecting env = false /\ attemptScheduled w w').
Proof.
  cbv zeta. unfold connection_state_changed.
  destruct curState; unfold andThen, when, skip;
    try (open_world w; cbn; untouched).
  - destruct (isConnected env && negb (isReconnecting env)); [| untouched].
    apply handleDisconnection_effect.
  - set (w1 := set _ w).
    assert (Hw1 : attemptsUntouched w w1)
      by (subst w1; open_world w; cbn; repeat split; reflexivity).
    destruct (handleDisconnection_effect env w1) as [H | [G H]].
    + left. eapply untouched_trans; eassumption.
    + right. split; [exact G|]. eapply untouched_scheduled; eassumption.
Qed.

Lemma exception_effect
    (env : RState) (code : string) (msg : option string) (w : World) :
  let w' := exception env code msg w in
  attemptsUntouched w w' \/ (isReconnecting env = false /\ attemptScheduled w w').
Proof.
  cbv zeta. unfold exception, andThen, when, skip.
  set (w1 := set _ w).
  assert (Hw1 : attemptsUntouched w w1)
    by (subst w1; open_world w; cbn; repeat split; reflexivity).
  destruct (_ && negb (isReconnecting env)).
  - destruct (handleDisconnection_effect env w1) as [H | [G H]].
    + left. eapply untouched_trans; eassumption.
    + right. split; [exact G|]. eapply untouched_scheduled; eassumption.
  - left. exact Hw1.
Qed.

Lemma removeId_length {A : Type} (id : nat) (l : list (nat * A)) :
  (length (removeId id l) <= length l)%nat.
Proof.
  unfold removeId. induction l as [|[i x] l IH]; cbn [List.filter length fst]; [lia|].
  destruct (negb (i =? id)%nat); cbn [length]; lia.
Qed.

Lemma quiet_step (e : Event) (w : World) :
  quietEvent e = true -> attemptsUntouched w (step e w).
Proof.
  destruct e; cbn [quietEvent step]; intros Q; try discriminate.
  - unfold user_published, andThen, when, skip.
    open_world w; cbn.
    destruct (isAudio mediaType && isComponentMountedRef0); [| repeat split; reflexivity].
    destruct sub, (wasPlayingBeforeDisconnect env), playOk; cbn; repeat split; reflexivity.
  - unfold user_unpublished, andThen.
    open_world w; cbn.
    destruct (isAudio mediaType && isComponentMountedRef0); repeat split; reflexivity.
  - unfold startHeartbeat. open_world w; cbn.
    destruct heartbeatIntervalRef0; repeat split; reflexivity.
  - unfold handleVolumeChange, debouncedVolumeChange_call, andThen, when, skip.
    open_world w; destruct (negb (isMuted env)); cbn; repeat split; reflexivity.
  - unfold debouncedVolumeChange_flush.
    open_world w; cbn. destruct debouncedVolumeChange0 as [c|]; [| repeat split; reflexivity].
    destruct (vcTrack c), (negb (vcMuted c) && ok); cbn; repeat split; reflexivity.
  - unfold toggleMute, andThen, skip.
    open_world w; destruct (remoteAudioTrack env), err, (negb (isMuted env)); cbn;
      repeat split; reflexivity.
  - unfold handlePlayPauseStream, andThen.
    open_world w; destruct (remoteAudioTrack env), err, (isPlaying env); cbn;
      repeat split; reflexivity.
Qed.

(** ** The retry chain *)

Lemma Retrying_facts (env : RState) (c : nat) (w : World) :
  Retrying env c w ->
  isReconnecting (rstate w) = true /\
  reconnectCount (rstate w) = c /\
  pendingAttempts w = 1%nat.
Proof.
  intros (r & hb & tr & db & id & d & nx & -> & Hr & Hc). cbn. auto.
Qed.

(** The first attempt of a chain. *)
Lemma attemptReconnection_starts_chain (env : RState) (w : World) :
  chainReady env w = true ->
  Retrying env (S (reconnectCount (rstate w))) (attemptReconnection env w).
Proof.
  unfold chainReady. intros H.
  repeat (apply andb_true_iff in H as [H ?]).
  assert (Hlt : (reconnectCount env <? maxReconnectAttempts)%nat = true).
  { apply Nat.ltb_lt. apply Nat.ltb_lt in H4. unfold maxReconnectAttempts in *. lia. }
  rewrite attemptReconnection_schedules
    by (unfold canAttempt; rewrite H, H3, Hlt; reflexivity).
  destruct w as [r mo rt hb ts nx js tr db cf]; cbn in *.
  destruct ts; [| discriminate]. destruct js; [| discriminate]. subst mo cf.
  do 7 eexists. split; [reflexivity|].
  split; [apply isReconnecting_scheduled | apply reconnectCount_scheduled].
Qed.

(** A failed attempt whose closure is not on its last attempt runs the same
    closure again: one more attempt, counted, with the same delay. *)
Lemma failOnce_retries (env : RState) (c : nat) (message : string) (w : World) :
  isSome (client env) = true ->
  (reconnectCount env <? maxReconnectAttempts - 1)%nat = true ->
  Retrying env c w -> Retrying env (S c) (failOnce message w).
Proof.
  intros Hclient Hlast (r & hb & tr & db & id & d & nx & -> & Hr & Hc).
  assert (Hlt : (reconnectCount env <? maxReconnectAttempts)%nat = true).
  { apply Nat.ltb_lt. apply Nat.ltb_lt in Hlast. unfold maxReconnectAttempts in *. lia. }
  unfold failOnce, andThen. cbn [reconnectTimeoutRef].
  unfold reconnectTimerFired. cbn [timers findId]. rewrite Nat.eqb_refl.
  unfold removeId. cbn [List.filter fst]. rewrite Nat.eqb_refl.
  cbn [negb setTimers isComponentMountedRef configured joining setJoining app].
  unfold reconnectSettled. cbn [joining findId]. rewrite Nat.eqb_refl.
  unfold removeId. cbn [List.filter fst]. rewrite Nat.eqb_refl.
  cbn [negb setJoining timerEnv]. unfold reconnectFailed, andThen. rewrite Hlast.
  rewrite attemptReconnection_schedules
    by (unfold canAttempt; rewrite Hclient, Hlt; reflexivity).
  cbn [set rstate isComponentMountedRef heartbeatIntervalRef timers nextTimerId
       joining tracks debouncedVolumeChange configured app].
  do 7 eexists. split; [reflexivity|].
  rewrite isReconnecting_scheduled, reconnectCount_scheduled.
  destruct r; cbn in *. subst c. auto.
Qed.

Lemma Retrying_iter (env : RState) (message : string) (n : nat) :
  isSome (client env) = true ->
  (reconnectCount env <? maxReconnectAttempts - 1)%nat = true ->
  forall c w, Retrying env c w ->
  Retrying env (c + n) (Nat.iter n (failOnce message) w).
Proof.
  intros Hclient Hlast. induction n as [|n IH]; intros c w R; cbn [Nat.iter].
  - rewrite Nat.add_0_r. exact R.
  - replace (c + S n)%nat with (S (c + n)) by lia.
    apply failOnce_retries; [exact Hclient | exact Hlast | apply IH; exact R].
Qed.

(** A successful rejoin ends the chain and clears the counter. *)
Lemma succeedOnce_resets (env : RState) (c : nat) (w : World) :
  Retrying env c w ->
  let w' := succeedOnce w in
  reconnectCount (rstate w') = 0%nat /\
  isReconnecting (rstate w') = false /\
  isConnected (rstate w') = true /\
  pendingAttempts w' = 0%nat.
Proof.
  intros (r & hb & tr & db & id & d & nx & -> & Hr & Hc). cbv zeta.
  unfold succeedOnce, andThen. cbn [reconnectTimeoutRef].
  unfold reconnectTimerFired. cbn [timers findId]. rewrite Nat.eqb_refl.
  unfold removeId. cbn [List.filter fst]. rewrite Nat.eqb_refl.
  cbn [negb setTimers isComponentMountedRef configured joining setJoining app].
  unfold reconnectSettled. cbn [joining findId]. rewrite Nat.eqb_refl.
  unfold removeId. cbn [List.filter fst]. rewrite Nat.eqb_refl.
  destruct r; cbn. auto.
Qed.

(** Only a closure created at [reconnectCount = 19] takes the terminal
    branch: its single attempt fails and the component stops reconnecting
    with no attempt scheduled. *)
Lemma last_attempt_closure_gives_up :
  let w := failOnce "join rejected"
             (attemptReconnection lastAttemptRender (mountedWorld lastAttemptRender)) in
  isReconnecting (rstate w) = false /\
  reconnectCount (rstate w) = 20%nat /\
  pendingAttempts w = 0%nat /\
  connectionError (rstate w)
  = Some "Connection failed after maximum attempts. Please refresh the page.".
Proof. cbv zeta. repeat split; reflexivity. Qed.

(** ** The attempt counter *)

Lemma untouched_kept (w w' : World) : attemptsUntouched w w' -> counterKept w w'.
Proof. intros (_ & _ & _ & H4 & H5). split; assumption. Qed.

Lemma scheduled_bumped (w w' : World) : attemptScheduled w w' -> counterBumped w w'.
Proof.
  intros ([tm H1] & _ & _ & H4 & H5). split; [exact H4 | split; [exact H5|]].
  exists tm. rewrite H1. apply last_snoc.
Qed.

Lemma guarded_counter (env : RState) (w w' : World) :
  attemptsUntouched w w' \/ (isReconnecting env = false /\ attemptScheduled w w') ->
  counterKept w w' \/ counterBumped w w'.
Proof.
  intros [H | [_ H]]; [left; apply untouched_kept | right; apply scheduled_bumped];
    exact H.
Qed.

Lemma reconnectFailed_counter (env : RState) (message : string) (w : World) :
  counterKept w (reconnectFailed env message w) \/
  counterBumped w (reconnectFailed env message w).
Proof.
  unfold reconnectFailed, andThen, counterKept, counterBumped.
  destruct (reconnectCount env <? _)%nat; [attempt_cases |].
  - right. open_world w; cbn. split; [lia | split; [reflexivity|]].
    eexists. apply last_snoc.
  - left. open_world w; cbn. split; reflexivity.
  - left. open_world w; cbn. split; reflexivity.
Qed.

Lemma kept_then (w w1 w2 : World) :
  counterKept w w1 -> counterKept w1 w2 \/ counterBumped w1 w2 ->
  counterKept w w2 \/ counterBumped w w2.
Proof.
  unfold counterKept, counterBumped.
  intros [H1 H2] [[K1 K2] | (K1 & K2 & K3)]; [left | right];
    rewrite <- ?H1, <- ?H2; auto.
Qed.

Lemma reconnectTimerFired_counter (id : nat) (w : World) :
  counterKept w (reconnectTimerFired id w) \/
  counterBumped w (reconnectTimerFired id w).
Proof.
  unfold reconnectTimerFired.
  destruct (findId id (timers w)) as [tm|]; [| left; split; reflexivity].
  set (w1 := setTimers _ w).
  assert (H1 : counterKept w w1) by (subst w1; open_world w; split; reflexivity).
  destruct (negb (isComponentMountedRef w1)); [left; exact H1|].
  destruct (negb (configured w1)).
  - apply (kept_then w w1); [exact H1 | apply reconnectFailed_counter].
  - left. subst w1. open_world w; split; reflexivity.
Qed.

Lemma reconnectSettled_counter (id : nat) (o : JoinOutcome) (w : World) :
  let w' := reconnectSettled id o w in
  counterKept w w' \/ counterBumped w w' \/
  counterReset (EvReconnectSettled id o) w w'.
Proof.
  cbv zeta. unfold reconnectSettled.
  destruct (findId id (joining w)) as [env|] eqn:F; [| left; split; reflexivity].
  set (w1 := setJoining _ w).
  assert (H1 : counterKept w w1) by (subst w1; open_world w; split; reflexivity).
  destruct o as [|message].
  - right. right. exists id, env. split; [reflexivity | split; [exact F|]].
    subst w1. unfold andThen. open_world w; cbn. split; reflexivity.
  - destruct (kept_then w w1 _ H1 (reconnectFailed_counter env message w1));
      [left | right; left]; assumption.
Qed.

Lemma cleanup_counter (env : RState) (w : World) :
  counterKept w ((cleanupClient env >>> cleanupComponent) w).
Proof.
  unfold cleanupClient, cleanupComponent, andThen, clearTimeout, stopHeartbeat, skip.
  open_world w; cbn.
  destruct reconnectTimeoutRef0 as [id|], heartbeatIntervalRef0,
    (remoteAudioTrack env); cbn; split; reflexivity.
Qed.

Lemma step_counter (e : Event) (w : World) :
  counterKept w (step e w) \/ counterBumped w (step e w) \/
  counterReset e w (step e w).
Proof.
  destruct (quietEvent e) eqn:Q.
  { left. apply untouched_kept, quiet_step, Q. }
  assert (two : forall w', counterKept w w' \/ counterBumped w w' ->
                counterKept w w' \/ counterBumped w w' \/ counterReset e w w')
    by (intros w' [H | H]; auto).
  destruct e; try discriminate Q; cbn [step].
  - eapply two, guarded_counter, connection_state_changed_effect.
  - eapply two, guarded_counter, exception_effect.
  - unfold heartbeatTick. destruct (heartbeatIntervalRef w) as [env|].
    + eapply two, guarded_counter, checkBroadcasterStatus_effect.
    + left. split; reflexivity.
  - eapply two, guarded_counter, checkBroadcasterStatus_effect.
  - apply two, reconnectTimerFired_counter.
  - apply reconnectSettled_counter.
  - left. apply cleanup_counter.
Qed.

(** C5 (as amended).  Across any one event the counter either stays, or goes
    up by one together with the queueing of a rejoin timer, or is cleared by
    the success branch of a rejoin callback.  After a chain of [k] failed
    attempts, each followed by its retry, started when the counter was [c],
    the counter is [c + k + 1] (the attempts started, the one under way
    included), and a successful rejoin then leaves it at 0. *)
Theorem reconnectCount_counts_attempts
    (e : Event) (w0 : World) (env : RState) (w : World) (message : string) (k : nat) :
  chainReady env w = true ->
  (counterKept w0 (step e w0) \/ counterBumped w0 (step e w0) \/
   counterReset e w0 (step e w0)) /\
  (let wk := Nat.iter k (failOnce message) (attemptReconnection env w) in
   reconnectCount (rstate wk) = (reconnectCount (rstate w) + S k)%nat /\
   reconnectCount (rstate (succeedOnce wk)) = 0%nat).
Proof.
  intros Hready. split; [apply step_counter|]. cbv zeta.
  pose proof (attemptReconnection_starts_chain env w Hready) as R0.
  unfold chainReady in Hready.
  repeat (apply andb_true_iff in Hready as [Hready ?]).
  pose proof (Retrying_iter env message k Hready H3 _ _ R0) as Rk.
  split.
  - destruct (Retrying_facts _ _ _ Rk) as (_ & Hc & _). rewrite Hc. lia.
  - destruct (succeedOnce_resets _ _ _ Rk) as (Hc & _). exact Hc.
Qed.

Lemma reconnectCount_counts_attempts_witness :
  let w0 := run (firstn 6 sampleTrace) (mountedWorld liveRender) in
  let e := EvReconnectSettled 2 Joined in
  (counterKept w0 (step e w0) \/ counterBumped w0 (step e w0) \/
   counterReset e w0 (step e w0)) /\
  (let wk := Nat.iter 3 (failOnce "timeout")
               (attemptReconnection connectedRender (mountedWorld connectedRender)) in
   reconnectCount (rstate wk) = 4%nat /\
   reconnectCount (rstate (succeedOnce wk)) = 0%nat).
Proof.
  exact (reconnectCount_counts_attempts
           (EvReconnectSettled 2 Joined)
           (run (firstn 6 sampleTrace) (mountedWorld liveRender))
           connectedRender (mountedWorld connectedRender) "timeout" 3 eq_refl).
Defined.

(** C5 (as stated) fails: after a successful rejoin (counter 0), a
    disconnection followed by one failed attempt leaves the counter at 2,
    not 1, because the retry is counted as soon as it is scheduled. *)
Lemma counter_after_one_failure :
  let w0 := run sampleTrace (mountedWorld liveRender) in
  let w1 := failOnce "join rejected" (handleDisconnection (rstate w0) w0) in
  reconnectCount (rstate w0) = 0%nat /\
  reconnectCount (rstate w1) = 2%nat /\
  reconnectCount (rstate w1) <> 1%nat.
Proof. cbv zeta. repeat split; try reflexivity. vm_compute. discriminate. Qed.

(** ** Audio track handling *)

(** C7 (as stated) fails on unpublish: the handle is still held and its
    track has not been stopped. *)
Lemma unpublish_keeps_handle :
  let w' := step (EvUserUnpublished audio) (mountedWorld liveRender) in
  remoteAudioTrack (rstate w') = Some 7%nat /\
  tracks w' !! 7%nat = Some (MkTrack 100 true) /\
  isLive (rstate w') = false.
Proof. cbv zeta. repeat split; reflexivity. Qed.

(** ** Volume and mute *)

(** C9 (as stated) fails for mute: requested while no handle is held, the
    mute is not recorded, and the track attached next is given the stored
    volume, not 0. *)
Lemma mute_without_handle_is_dropped :
  let w := mountedWorld connectedRender in
  let w1 := toggleMute (rstate w) None w in
  let w2 := user_published (rstate w1) audio (Subscribed 8%nat) false w1 in
  remoteAudioTrack (rstate w) = None /\
  isMuted (rstate w1) = false /\
  tracks w2 !! 8%nat = Some (MkTrack 75 false).
Proof. cbv zeta. repeat split; reflexivity. Qed.

(** * Further properties of the component *)

(** ** Closed forms for the reconnection chain *)

Lemma handleDisconnection_unfold (env : RState) (w : World) :
  handleDisconnection env w =
  if isComponentMountedRef w
  then when (negb (isReconnecting env)
             && (reconnectCount env <? maxReconnectAttempts)%nat)
         (attemptReconnection env) (markDisconnected env w)
  else w.
Proof.
  unfold handleDisconnection, ifMounted, markDisconnected, andThen.
  destruct (isComponentMountedRef w); reflexivity.
Qed.

Lemma markDisconnected_frame (env : RState) (w : World) :
  let w' := markDisconnected env w in
  isComponentMountedRef w' = isComponentMountedRef w /\
  configured w' = configured w /\
  timers w' = timers w /\
  joining w' = joining w /\
  nextTimerId w' = nextTimerId w /\
  heartbeatIntervalRef w' = heartbeatIntervalRef w /\
  debouncedVolumeChange w' = debouncedVolumeChange w /\
  reconnectCount (rstate w') = reconnectCount (rstate w) /\
  isReconnecting (rstate w') = isReconnecting (rstate w).
Proof.
  cbv zeta. unfold markDisconnected, andThen, skip, track_stop.
  open_world w; destruct (remoteAudioTrack env); cbn; repeat split; reflexivity.
Qed.

Lemma withAttempt_twice (c c' : nat) (r : RState) :
  withAttempt c' (withAttempt c r) = withAttempt c' r.
Proof. destruct r; reflexivity. Qed.

Lemma withAttempt_over_error (c : nat) (e : option string) (r : RState) :
  withAttempt c (setConnectionError e r) = withAttempt c r.
Proof. destruct r; reflexivity. Qed.

Lemma reconnectCount_withAttempt (c : nat) (r : RState) :
  reconnectCount (withAttempt c r) = c.
Proof. destruct r; reflexivity. Qed.

Lemma scheduled_is_withAttempt (r : RState) :
  setConnectionError None
    (setReconnectCount (fun prev => prev + 1)%nat (setIsReconnecting true r))
  = withAttempt (S (reconnectCount r)) r.
Proof. destruct r; cbn. unfold withAttempt; cbn. rewrite Nat.add_1_r. reflexivity. Qed.

Lemma chainReady_inv (env : RState) (w : World) :
  chainReady env w = true ->
  isSome (client env) = true /\
  (reconnectCount env <? maxReconnectAttempts - 1)%nat = true /\
  (reconnectCount env <? maxReconnectAttempts)%nat = true /\
  isComponentMountedRef w = true /\ configured w = true /\
  timers w = [] /\ joining w = [].
Proof.
  unfold chainReady. intros H.
  apply andb_true_iff in H as [H Hj]. apply andb_true_iff in H as [H Ht].
  apply andb_true_iff in H as [H Hcf]. apply andb_true_iff in H as [H Hm].
  apply andb_true_iff in H as [Hc Hlast].
  destruct (timers w); [| discriminate]. destruct (joining w); [| discriminate].
  repeat split; auto.
  apply Nat.ltb_lt. apply Nat.ltb_lt in Hlast. unfold maxReconnectAttempts in *. lia.
Qed.

Lemma failOnce_closed_form
    (env r : RState) (message : string) (id nx : nat) (d : Q)
    (hb : option RState) (tr : gmap nat Track) (db : option VolumeCall) :
  isSome (client env) = true ->
  (reconnectCount env <? maxReconnectAttempts - 1)%nat = true ->
  failOnce message (MkWorld r true (Some id) hb [(id, MkTimer d env)] nx [] tr db true)
  = MkWorld (withAttempt (S (reconnectCount r)) r) true (Some nx) hb
      [(nx, MkTimer (reconnectDelay (reconnectCount env)) env)] (S nx) [] tr db true.
Proof.
  intros Hclient Hlast.
  assert (Hlt : (reconnectCount env <? maxReconnectAttempts)%nat = true).
  { apply Nat.ltb_lt. apply Nat.ltb_lt in Hlast. unfold maxReconnectAttempts in *. lia. }
  unfold failOnce, andThen. cbn [reconnectTimeoutRef].
  unfold reconnectTimerFired. cbn [timers findId]. rewrite Nat.eqb_refl.
  unfold removeId. cbn [List.filter fst]. rewrite Nat.eqb_refl.
  cbn [negb setTimers isComponentMountedRef configured joining setJoining app].
  unfold reconnectSettled. cbn [joining findId]. rewrite Nat.eqb_refl.
  unfold removeId. cbn [List.filter fst]. rewrite Nat.eqb_refl.
  cbn [negb setJoining timerEnv]. unfold reconnectFailed, andThen. rewrite Hlast.
  rewrite attemptReconnection_schedules
    by (unfold canAttempt; rewrite Hclient, Hlt; reflexivity).
  cbn [set rstate isComponentMountedRef heartbeatIntervalRef timers nextTimerId
       joining tracks debouncedVolumeChange configured app].
  rewrite scheduled_is_withAttempt, withAttempt_over_error.
  destruct r; reflexivity.
Qed.

(** The world after [n] failed attempts of a chain, in full. *)
Lemma chain_closed_form (env : RState) (message : string) (w : World) (n : nat) :
  chainReady env w = true ->
  Nat.iter n (failOnce message) (attemptReconnection env w)
  = MkWorld (withAttempt (reconnectCount (rstate w) + S n) (rstate w)) true
      (Some (nextTimerId w + n)%nat) (heartbeatIntervalRef w)
      [((nextTimerId w + n)%nat, MkTimer (reconnectDelay (reconnectCount env)) env)]
      (S (nextTimerId w + n)) [] (tracks w) (debouncedVolumeChange w) true.
Proof.
  intros Hready.
  destruct (chainReady_inv env w Hready) as (Hc & Hlast & Hlt & Hm & Hcf & Ht & Hj).
  induction n as [|n IH].
  - change (Nat.iter 0 (failOnce message) (attemptReconnection env w))
      with (attemptReconnection env w).
    rewrite attemptReconnection_schedules
      by (unfold canAttempt; rewrite Hc, Hm, Hlt; reflexivity).
    rewrite scheduled_is_withAttempt, Ht, Hj, Hm, Hcf, !Nat.add_0_r, Nat.add_1_r.
    reflexivity.
  - change (Nat.iter (S n) (failOnce message) (attemptReconnection env w))
      with (failOnce message (Nat.iter n (failOnce message) (attemptReconnection env w))).
    rewrite IH. rewrite failOnce_closed_form by assumption.
    rewrite reconnectCount_withAttempt, withAttempt_twice.
    replace (reconnectCount (rstate w) + S (S n))%nat
      with (S (reconnectCount (rstate w) + S n)) by lia.
    replace (nextTimerId w + S n)%nat with (S (nextTimerId w + n)) by lia.
    reflexivity.
Qed.

(** The world after a successful rejoin of a component whose only attempt
    under way is the timer scheduled last. *)
Lemma succeedOnce_closed_form
    (env r : RState) (id nx : nat) (d : Q)
    (hb : option RState) (tr : gmap nat Track) (db : option VolumeCall) :
  succeedOnce (MkWorld r true (Some id) hb [(id, MkTimer d env)] nx [] tr db true)
  = MkWorld
      (setConnectionError None
         (setReconnectCount (fun _ => 0%nat)
            (setIsReconnecting false (setIsConnected true r))))
      true (Some id) hb [] nx [] tr db true.
Proof.
  unfold succeedOnce, andThen. cbn [reconnectTimeoutRef].
  unfold reconnectTimerFired. cbn [timers findId]. rewrite Nat.eqb_refl.
  unfold removeId. cbn [List.filter fst]. rewrite Nat.eqb_refl.
  cbn [negb setTimers isComponentMountedRef configured joining setJoining app].
  unfold reconnectSettled. cbn [joining findId]. rewrite Nat.eqb_refl.
  unfold removeId. cbn [List.filter fst]. rewrite Nat.eqb_refl.
  destruct r; reflexivity.
Qed.

(** ** What the listener is shown *)

Lemma status_of_attempt (c : nat) (r : RState) :
  getStreamStatus false (withAttempt c r)
  = MkStreamStatus StReconnecting
      ("Reconnecting... (" ++ pretty c ++ "/" ++ pretty maxReconnectAttempts ++ ")").
Proof. destruct r; reflexivity. Qed.

(** X1. The status is 'live' exactly when the SDK has loaded, no error text
    is set, no reconnection is under way and the component is connected and
    live.  The play button, rendered only then, is never disabled there, and
    neither is the mute button; the slider is disabled only by muting. *)
Theorem status_live_iff (loadingSDK : bool) (r : RState) :
  (playButtonShown loadingSDK r = true <->
   loadingSDK = false /\ truthy (connectionError r) = false /\
   isReconnecting r = false /\ isConnected r = true /\ isLive r = true) /\
  (playButtonShown loadingSDK r = true ->
   playButtonDisabled loadingSDK r = false /\
   muteButtonDisabled loadingSDK r = false /\
   volumeSliderDisabled loadingSDK r = isMuted r /\
   message (getStreamStatus loadingSDK r) = "Live stream active").
Proof.
  unfold playButtonShown, playButtonDisabled, muteButtonDisabled,
    volumeSliderDisabled, statusIs, getStreamStatus.
  destruct loadingSDK, (truthy (connectionError r)), (isReconnecting r),
    (isConnected r), (broadcasterOnline r), (isLive r), (isMuted r); cbn;
    (split; [split; [intros H; try discriminate H; auto
                    | intros (H1 & H2 & H3 & H4 & H5); try discriminate; reflexivity]
            | intros H; try discriminate H; auto]).
Qed.

(** X2. A disconnection handled by a mounted component leaves it not
    connected, not live and not playing, and records as resume intent
    whether its render was playing.  If the handler starts an attempt (its
    render is not reconnecting, has the client and fewer than 20 attempts)
    the status shown is 'reconnecting' with the new attempt number;
    otherwise it is 'error' with the text "Connection lost - attempting to
    reconnect...", although no attempt was started. *)
Theorem status_after_disconnection (env : RState) (w : World) :
  isComponentMountedRef w = true ->
  let w' := handleDisconnection env w in
  let attempts :=
    negb (isReconnecting env) && isSome (client env)
    && (reconnectCount env <? maxReconnectAttempts)%nat in
  isConnected (rstate w') = false /\
  isLive (rstate w') = false /\
  isPlaying (rstate w') = false /\
  wasPlayingBeforeDisconnect (rstate w') = isPlaying env /\
  pendingAttempts w' = (pendingAttempts w + if attempts then 1 else 0)%nat /\
  getStreamStatus false (rstate w')
  = if attempts
    then MkStreamStatus StReconnecting
           ("Reconnecting... (" ++ pretty (S (reconnectCount (rstate w))) ++ "/"
            ++ pretty maxReconnectAttempts ++ ")")
    else MkStreamStatus StError "Connection lost - attempting to reconnect...".
Proof.
  intros Hm. cbv zeta. rewrite handleDisconnection_unfold, Hm.
  destruct (markDisconnected_frame env w) as (F1 & _ & F3 & F4 & _ & _ & _ & F8 & _).
  cbv zeta in *. unfold when, skip.
  destruct (isReconnecting env) eqn:Hr; cbn [negb andb].
  - unfold markDisconnected, andThen, skip, track_stop, pendingAttempts.
    open_world w; destruct (remoteAudioTrack env); cbn; repeat split; auto; lia.
  - destruct (reconnectCount env <? maxReconnectAttempts)%nat eqn:Hlt.
    + destruct (isSome (client env)) eqn:Hc; cbn [andb].
      * rewrite attemptReconnection_schedules
          by (unfold canAttempt; rewrite Hc, F1, Hm, Hlt; reflexivity).
        unfold pendingAttempts. cbn [rstate timers joining].
        rewrite scheduled_is_withAttempt, status_of_attempt, F3, F4, F8, length_app.
        unfold markDisconnected, andThen, skip, track_stop, withAttempt.
        open_world w; destruct (remoteAudioTrack env); cbn; repeat split; auto; lia.
      * rewrite attemptReconnection_skips
          by (unfold canAttempt; rewrite Hc; reflexivity).
        unfold markDisconnected, andThen, skip, track_stop, pendingAttempts.
        open_world w; destruct (remoteAudioTrack env); cbn; repeat split; auto; lia.
    + rewrite andb_false_r.
      unfold markDisconnected, andThen, skip, track_stop, pendingAttempts.
      open_world w; destruct (remoteAudioTrack env); cbn; repeat split; auto; lia.
Qed.

Lemma status_after_disconnection_witness :
  let w' := handleDisconnection reconnectingRender (mountedWorld liveRender) in
  isConnected (rstate w') = false /\
  pendingAttempts w' = 0%nat /\
  getStreamStatus false (rstate w')
  = MkStreamStatus StError "Connection lost - attempting to reconnect...".
Proof.
  pose proof (status_after_disconnection reconnectingRender (mountedWorld liveRender)
                eq_refl) as H.
  cbv zeta in H. destruct H as (H1 & _ & _ & _ & H5 & H6).
  cbv zeta. split; [exact H1 | split; [exact H5 | exact H6]].
Defined.

(** X3. Within a chain of failed attempts every retry is scheduled with the
    delay computed from the [reconnectCount] of the render that started the
    chain, so the backoff does not grow; meanwhile the status shown is
    'reconnecting' with the running attempt number, which goes past 20, and
    the recovery button appears once that number reaches 20. *)
Theorem retry_chain_delay_and_status
    (env : RState) (message : string) (w : World) (n : nat) :
  chainReady env w = true ->
  let wn := Nat.iter n (failOnce message) (attemptReconnection env w) in
  timers wn
  = [((nextTimerId w + n)%nat, MkTimer (reconnectDelay (reconnectCount env)) env)] /\
  getStreamStatus false (rstate wn)
  = MkStreamStatus StReconnecting
      ("Reconnecting... (" ++ pretty (reconnectCount (rstate w) + S n)%nat ++ "/"
       ++ pretty maxReconnectAttempts ++ ")") /\
  refreshShown false (rstate wn)
  = (maxReconnectAttempts <=? reconnectCount (rstate w) + S n)%nat.
Proof.
  intros Hready. cbv zeta. rewrite (chain_closed_form env message w n Hready).
  cbn [timers rstate]. unfold refreshShown, statusIs.
  rewrite status_of_attempt, reconnectCount_withAttempt. cbn [status].
  repeat split; reflexivity.
Qed.

Lemma retry_chain_delay_and_status_witness :
  let wn := Nat.iter 24 (failOnce "timeout")
              (attemptReconnection connectedRender (mountedWorld connectedRender)) in
  timers wn = [(25%nat, MkTimer (reconnectDelay 0) connectedRender)] /\
  getStreamStatus false (rstate wn)
  = MkStreamStatus StReconnecting "Reconnecting... (25/20)" /\
  refreshShown false (rstate wn) = true.
Proof.
  exact (retry_chain_delay_and_status connectedRender "timeout"
           (mountedWorld connectedRender) 24 eq_refl).
Defined.

(** ** The heartbeat interval keeps its closure *)

Ltac break_match :=
  match goal with
  | |- context [match ?x with _ => _ end] => destruct x eqn:?
  end.

Ltac handler_cases := repeat (first [attempt_cases | break_match]; cbn).

Ltac unfold_handlers :=
  unfold cleanupClient, cleanupComponent, user_published, user_unpublished,
    connection_state_changed, exception, handleDisconnection, ifMounted,
    startHeartbeat, stopHeartbeat, heartbeatTick, checkBroadcasterStatus,
    reconnectTimerFired, reconnectSettled, reconnectFailed, handleVolumeChange,
    debouncedVolumeChange_call, debouncedVolumeChange_flush, toggleMute,
    handlePlayPauseStream, clearTimeout, track_setVolume, track_play, track_stop,
    andThen, when, skip.

Lemma step_keeps_heartbeat (e : Event) (w : World) (env : RState) :
  isCleanup e = false ->
  heartbeatIntervalRef w = Some env ->
  heartbeatIntervalRef (step e w) = Some env.
Proof.
  intros Hc Hhb. destruct e; try discriminate Hc; cbn [step]; unfold_handlers;
    open_world w; cbn in *; subst; handler_cases; try reflexivity; try congruence.
Qed.

Lemma run_keeps_heartbeat (es : list Event) :
  forall (w : World) (env : RState),
  forallb (fun e => negb (isCleanup e)) es = true ->
  heartbeatIntervalRef w = Some env ->
  heartbeatIntervalRef (run es w) = Some env.
Proof.
  induction es as [|e es IH]; intros w env Hes Hhb; cbn [run forallb] in *.
  - exact Hhb.
  - apply andb_true_iff in Hes as [He Hes]. apply negb_true_iff in He.
    apply IH; [exact Hes | apply step_keeps_heartbeat; assumption].
Qed.

(** X5. [startHeartbeat] on a running interval changes nothing.  So the
    [checkBroadcasterStatus] closure first handed to [setInterval] is the
    one that every later tick runs: whatever events occur, short of the
    cleanup, the interval keeps that closure and a further [startHeartbeat]
    from any render is ignored.  [stopHeartbeat] twice is [stopHeartbeat]
    once. *)
Theorem heartbeat_closure_is_kept
    (es : list Event) (w : World) (env env' : RState) :
  heartbeatIntervalRef w = Some env ->
  forallb (fun e => negb (isCleanup e)) es = true ->
  heartbeatIntervalRef (run es w) = Some env /\
  startHeartbeat env' (run es w) = run es w /\
  stopHeartbeat (stopHeartbeat (run es w)) = stopHeartbeat (run es w) /\
  heartbeatIntervalRef (startHeartbeat env' (stopHeartbeat (run es w))) = Some env'.
Proof.
  intros Hhb Hes.
  pose proof (run_keeps_heartbeat es w env Hes Hhb) as H.
  split; [exact H|]. unfold startHeartbeat, stopHeartbeat. rewrite H.
  destruct (run es w); cbn. auto.
Qed.

Lemma heartbeat_closure_is_kept_witness :
  let w := startHeartbeat connectedRender (mountedWorld connectedRender) in
  let w' := run sampleTrace w in
  heartbeatIntervalRef w' = Some connectedRender /\
  startHeartbeat reconnectingRender w' = w' /\
  stopHeartbeat (stopHeartbeat w') = stopHeartbeat w' /\
  heartbeatIntervalRef (startHeartbeat reconnectingRender (stopHeartbeat w'))
  = Some reconnectingRender.
Proof.
  exact (heartbeat_closure_is_kept sampleTrace
           (startHeartbeat connectedRender (mountedWorld connectedRender))
           connectedRender reconnectingRender eq_refl eq_refl).
Defined.

Lemma stuck_tick_schedules (w : World) (env : RState) (res : PollResult) :
  heartbeatIntervalRef w = Some env ->
  stuckView env = true ->
  reportsOnline res = true ->
  isComponentMountedRef w = true ->
  let w' := step (EvHeartbeatTick res) w in
  attemptScheduled w w' /\
  heartbeatIntervalRef w' = Some env /\
  isComponentMountedRef w' = true.
Proof.
  intros Hhb Hs Hres Hm. cbv zeta.
  unfold stuckView in Hs.
  apply andb_true_iff in Hs as [Hs Hc]. apply andb_true_iff in Hs as [Hs Hlt].
  apply andb_true_iff in Hs as [Hs Hr]. apply andb_true_iff in Hs as [Hs Ht].
  apply andb_true_iff in Hs as [Hconn Hl].
  destruct res as [m| |data]; try discriminate Hres. cbn [reportsOnline] in Hres.
  cbn [step]. unfold heartbeatTick. rewrite Hhb.
  unfold checkBroadcasterStatus. rewrite Hres, Hconn, Hl, Ht, Hr, Hlt.
  cbn [andb]. unfold when, andThen.
  rewrite attemptReconnection_schedules
    by (unfold canAttempt; rewrite Hc, Hlt; destruct w; cbn in *; subst; reflexivity).
  unfold attemptScheduled.
  destruct w as [r mo rt hb ts nx js tr db cf]; destruct r; cbn in *. subst.
  destruct (truthy (connectionError env)); cbn;
    (split; [split; [eexists; reflexivity | repeat split; try reflexivity; lia]
            | split; reflexivity]).
Qed.

(** X6. Because the interval keeps its closure, a closure that sees the
    stuck state (connected, not live, no track, not reconnecting, fewer than
    20 attempts, client present) goes on seeing it: on a mounted component
    each of [n] ticks whose poll reports the broadcaster online starts one
    more attempt, so after them [n] more attempts are under way and the
    counter has grown by [n]. *)
Theorem stale_interval_fires_on_every_tick
    (w : World) (env : RState) (res : PollResult) (n : nat) :
  heartbeatIntervalRef w = Some env ->
  stuckView env = true ->
  reportsOnline res = true ->
  isComponentMountedRef w = true ->
  let w' := run (replicate n (EvHeartbeatTick res)) w in
  pendingAttempts w' = (pendingAttempts w + n)%nat /\
  reconnectCount (rstate w') = (reconnectCount (rstate w) + n)%nat /\
  (0 < n -> isReconnecting (rstate w') = true)%nat.
Proof.
  intros Hhb Hs Hres Hm. cbv zeta. revert w Hhb Hm.
  induction n as [|n IH]; intros w Hhb Hm; cbn [replicate run].
  - repeat split; try lia.
  - destruct (stuck_tick_schedules w env res Hhb Hs Hres Hm) as (Hsch & Hhb' & Hm').
    cbv zeta in *. destruct (IH _ Hhb' Hm') as (I1 & I2 & I3).
    destruct Hsch as ([tm S1] & S2 & S3 & S4 & S5).
    rewrite I1, I2. unfold pendingAttempts. rewrite S1, S2, S4, length_app. cbn.
    split; [lia | split; [lia|]]. intros _.
    destruct n as [|n']; [exact S3 | apply I3; lia].
Qed.

Lemma stale_interval_fires_on_every_tick_witness :
  let w := startHeartbeat connectedRender (mountedWorld connectedRender) in
  let res := PollData (MkBroadcastInfo (Some 3%nat) (Some true)) in
  let w' := run (replicate 4 (EvHeartbeatTick res)) w in
  pendingAttempts w' = 4%nat /\
  reconnectCount (rstate w') = 4%nat /\
  (0 < 4 -> isReconnecting (rstate w') = true)%nat.
Proof.
  exact (stale_interval_fires_on_every_tick
           (startHeartbeat connectedRender (mountedWorld connectedRender))
           connectedRender (PollData (MkBroadcastInfo (Some 3%nat) (Some true))) 4
           eq_refl eq_refl eq_refl eq_refl).
Defined.

(** ** After the cleanup *)

Lemma attemptReconnection_unmounted (env : RState) (w : World) :
  isComponentMountedRef w = false -> attemptReconnection env w = w.
Proof.
  intros Hm. apply attemptReconnection_skips. unfold canAttempt.
  rewrite Hm, andb_false_r. reflexivity.
Qed.

Lemma handleDisconnection_unmounted (env : RState) (w : World) :
  isComponentMountedRef w = false -> handleDisconnection env w = w.
Proof. intros Hm. unfold handleDisconnection, ifMounted. rewrite Hm. reflexivity. Qed.

Lemma findId_removeId {A : Type} (id : nat) (l : list (nat * A)) :
  findId id (removeId id l) = None.
Proof.
  unfold removeId. induction l as [|[i x] l IH]; cbn [List.filter findId fst].
  - reflexivity.
  - destruct (Nat.eqb_spec i id) as [->|Hne]; cbn [negb].
    + exact IH.
    + cbn [findId]. destruct (Nat.eqb_spec i id); [contradiction | exact IH].
Qed.

Lemma reconnectFailed_unmounted (env : RState) (message : string) (w : World) :
  isComponentMountedRef w = false ->
  let w' := reconnectFailed env message w in
  isComponentMountedRef w' = false /\ nextTimerId w' = nextTimerId w /\
  timers w' = timers w /\ joining w' = joining w.
Proof.
  intros Hm. cbv zeta. unfold reconnectFailed, andThen.
  destruct (reconnectCount env <? _)%nat.
  - rewrite attemptReconnection_unmounted by (destruct w; exact Hm).
    destruct w; cbn in *. auto.
  - destruct w; cbn in *. auto.
Qed.

Lemma step_unmounted (e : Event) (w : World) :
  isComponentMountedRef w = false ->
  isComponentMountedRef (step e w) = false /\
  nextTimerId (step e w) = nextTimerId w /\
  (pendingAttempts (step e w) <= pendingAttempts w)%nat.
Proof.
  intros Hm. unfold pendingAttempts.
  destruct e; cbn [step].
  - unfold user_published. rewrite Hm, andb_false_r. auto.
  - unfold user_unpublished. rewrite Hm, andb_false_r. auto.
  - unfold connection_state_changed, andThen, when, skip.
    destruct curState; try destruct (isConnected env && negb (isReconnecting env));
      repeat rewrite handleDisconnection_unmounted by (destruct w; exact Hm);
      destruct w; cbn in *; auto.
  - unfold exception, andThen, when, skip.
    destruct (_ && negb (isReconnecting env));
      repeat rewrite handleDisconnection_unmounted by (destruct w; exact Hm);
      destruct w; cbn in *; auto.
  - unfold startHeartbeat. destruct w; cbn in *; subst; break_match; cbn; auto.
  - unfold heartbeatTick, checkBroadcasterStatus, andThen, when, skip.
    destruct (heartbeatIntervalRef w) as [env|]; [| auto].
    destruct res; [| auto |];
      repeat rewrite attemptReconnection_unmounted by (destruct w; exact Hm);
      destruct w; cbn in *; subst; repeat break_match; cbn;
      repeat rewrite attemptReconnection_unmounted by reflexivity; cbn; auto.
  - unfold checkBroadcasterStatus, andThen, when, skip.
    destruct res; [| auto |];
      repeat rewrite attemptReconnection_unmounted by (destruct w; exact Hm);
      destruct w; cbn in *; subst; repeat break_match; cbn;
      repeat rewrite attemptReconnection_unmounted by reflexivity; cbn; auto.
  - unfold reconnectTimerFired.
    destruct (findId id (timers w)); [| auto].
    pose proof (removeId_length id (timers w)).
    destruct w; cbn in *; subst; cbn. split; [reflexivity | split; [reflexivity | lia]].
  - unfold reconnectSettled.
    destruct (findId id (joining w)) as [env|]; [| auto].
    pose proof (removeId_length id (joining w)) as Hlen.
    destruct o as [|message].
    + unfold andThen. destruct w; cbn in *; subst; cbn.
      split; [reflexivity | split; [reflexivity | lia]].
    + set (w1 := setJoining _ w).
      assert (Hm1 : isComponentMountedRef w1 = false) by (destruct w; exact Hm).
      destruct (reconnectFailed_unmounted env message w1 Hm1) as (R1 & R2 & R3 & R4).
      cbv zeta in *. rewrite R1, R2, R3, R4. subst w1.
      destruct w; cbn in *. split; [reflexivity | split; [reflexivity | lia]].
  - unfold handleVolumeChange, debouncedVolumeChange_call, andThen, when, skip.
    destruct w; cbn in *; subst; break_match; cbn; auto.
  - unfold debouncedVolumeChange_flush, track_setVolume.
    destruct w; cbn in *; subst; repeat break_match; cbn; auto.
  - unfold toggleMute, andThen, skip, track_setVolume.
    destruct w; cbn in *; subst; repeat break_match; cbn; auto.
  - unfold handlePlayPauseStream, andThen, track_stop, track_play.
    destruct w; cbn in *; subst; repeat break_match; cbn; auto.
  - unfold cleanupClient, cleanupComponent, andThen, clearTimeout, stopHeartbeat,
      skip, track_stop.
    destruct w as [r mo rt hb ts nx js tr db cf]; cbn in *; subst.
    destruct rt as [id|], hb, (remoteAudioTrack env); cbn -[removeId];
      (split; [reflexivity | split; [reflexivity |]]);
      try (pose proof (removeId_length id ts) as Hl; unfold removeId in Hl); lia.
Qed.

Lemma run_unmounted (es : list Event) :
  forall w, isComponentMountedRef w = false ->
  isComponentMountedRef (run es w) = false /\
  nextTimerId (run es w) = nextTimerId w /\
  (pendingAttempts (run es w) <= pendingAttempts w)%nat.
Proof.
  induction es as [|e es IH]; intros w Hm; cbn [run].
  - auto.
  - destruct (step_unmounted e w Hm) as (S1 & S2 & S3).
    destruct (IH _ S1) as (I1 & I2 & I3).
    split; [exact I1 | split; [congruence | lia]].
Qed.

(** X7. The cleanup of the component clears the mounted flag, the timer
    named by [reconnectTimeoutRef], the heartbeat interval and the pending
    debounced volume call.  The flag is never set again: whatever events
    follow, no reconnection timer is queued any more, the attempts under way
    can only get fewer, and the transport handlers for disconnection,
    publish and unpublish leave the component as it is. *)
Theorem teardown_is_final
    (env : RState) (es : list Event) (w : World)
    (env' : RState) (mediaType : MediaType) (sub : SubscribeOutcome) (playOk : bool) :
  let w0 := step (EvCleanup env) w in
  let w' := run es w0 in
  (isComponentMountedRef w0 = false /\
   heartbeatIntervalRef w0 = None /\
   debouncedVolumeChange w0 = None /\
   match reconnectTimeoutRef w with
   | Some id => findId id (timers w0) = None
   | None => timers w0 = timers w
   end) /\
  (isComponentMountedRef w' = false /\
   nextTimerId w' = nextTimerId w /\
   (pendingAttempts w' <= pendingAttempts w)%nat /\
   handleDisconnection env' w' = w' /\
   attemptReconnection env' w' = w' /\
   user_published env' mediaType sub playOk w' = w' /\
   user_unpublished mediaType w' = w').
Proof.
  cbv zeta.
  assert (H0 : isComponentMountedRef (step (EvCleanup env) w) = false /\
               heartbeatIntervalRef (step (EvCleanup env) w) = None /\
               debouncedVolumeChange (step (EvCleanup env) w) = None /\
               nextTimerId (step (EvCleanup env) w) = nextTimerId w /\
               (pendingAttempts (step (EvCleanup env) w) <= pendingAttempts w)%nat /\
               match reconnectTimeoutRef w with
               | Some id => findId id (timers (step (EvCleanup env) w)) = None
               | None => timers (step (EvCleanup env) w) = timers w
               end).
  { cbn [step]. unfold cleanupClient, cleanupComponent, andThen, clearTimeout,
      stopHeartbeat, skip, track_stop, pendingAttempts.
    destruct w as [r mo rt hb ts nx js tr db cf]; cbn -[removeId].
    destruct rt as [id|], hb, (remoteAudioTrack env); cbn -[removeId];
      repeat split; try reflexivity; try apply findId_removeId;
      try pose proof (removeId_length id ts) as Hl; lia. }
  destruct H0 as (A1 & A2 & A3 & A4 & A5 & A6).
  split; [auto|].
  destruct (run_unmounted es _ A1) as (B1 & B2 & B3).
  split; [exact B1 | split; [congruence | split; [lia|]]].
  split; [unfold handleDisconnection, ifMounted; rewrite B1; reflexivity|].
  split; [apply attemptReconnection_unmounted; exact B1|].
  split; [unfold user_published; rewrite B1, andb_false_r; reflexivity|].
  unfold user_unpublished. rewrite B1, andb_false_r. reflexivity.
Qed.

(** ** Live implies a handle *)

Lemma step_live_has_handle (e : Event) (w : World) :
  LiveHasHandle w -> LiveHasHandle (step e w).
Proof.
  unfold LiveHasHandle. intros H.
  destruct e; cbn [step]; unfold_handlers;
    open_world w; cbn in *; handler_cases;
    intros; auto; try discriminate; try congruence.
Qed.

(** X8. A component that is live holds an audio track handle: the property
    holds at the first render and every handler keeps it, whatever render
    each handler closes over. *)
Theorem live_has_handle (es : list Event) (w : World) :
  LiveHasHandle w -> LiveHasHandle (run es w).
Proof.
  revert w. induction es as [|e es IH]; intros w H; cbn [run].
  - exact H.
  - apply IH, step_live_has_handle, H.
Qed.

Lemma live_has_handle_witness :
  LiveHasHandle
    (run (sampleTrace ++ [EvUserPublished resumeRender audio (Subscribed 8%nat) false])
       (MkWorld initialRState true None None [] 1 [] ∅ None true)).
Proof.
  apply (live_has_handle
           (sampleTrace ++ [EvUserPublished resumeRender audio (Subscribed 8%nat) false])
           (MkWorld initialRState true None None [] 1 [] ∅ None true)).
  unfold LiveHasHandle. cbn. discriminate.
Defined.

(** ** Play and pause *)

(** X9. With a handle in its render and the SDK call succeeding,
    [handlePlayPauseStream] inverts the playing state its render sees and
    leaves [isPlaying], the resume intent and the track's playing state in
    agreement.  When the SDK call fails, or the render has no handle, it
    changes none of the three and only sets the error text, which turns the
    status into 'error' and so takes the play button away. *)
Theorem play_pause_keeps_agreement
    (env : RState) (t : nat) (tr : Track) (message : string) (w : World) :
  tracks w !! t = Some tr ->
  (remoteAudioTrack env = Some t ->
   let w' := handlePlayPauseStream env None w in
   isPlaying (rstate w') = negb (isPlaying env) /\
   wasPlayingBeforeDisconnect (rstate w') = negb (isPlaying env) /\
   tracks w' !! t = Some (MkTrack (trackVolume tr) (negb (isPlaying env)))) /\
  (let w' := handlePlayPauseStream env (Some message)
               w in
   remoteAudioTrack env <> None ->
   isPlaying (rstate w') = isPlaying (rstate w) /\
   wasPlayingBeforeDisconnect (rstate w')
   = wasPlayingBeforeDisconnect (rstate w) /\
   tracks w' = tracks w /\
   connectionError (rstate w') = Some ("Playback error: " ++ message) /\
   playButtonShown false (rstate w') = false) /\
  (remoteAudioTrack env = None ->
   forall err,
   let w' := handlePlayPauseStream env err w in
   isPlaying (rstate w') = isPlaying (rstate w) /\
   wasPlayingBeforeDisconnect (rstate w')
   = wasPlayingBeforeDisconnect (rstate w) /\
   tracks w' = tracks w /\
   getStreamStatus false (rstate w')
   = MkStreamStatus StError "No audio stream available").
Proof.
  intros Ht. split; [| split].
  - intros He. cbv zeta. unfold handlePlayPauseStream, andThen, track_stop, track_play.
    rewrite He. open_world w; cbn in *. destruct (isPlaying env); cbn;
      rewrite lookup_alter_eq, Ht; auto.
  - cbv zeta. intros He. unfold handlePlayPauseStream.
    destruct (remoteAudioTrack env); [| contradiction].
    unfold playButtonShown, statusIs, getStreamStatus.
    open_world w; cbn. repeat split; reflexivity.
  - intros He err. cbv zeta. unfold handlePlayPauseStream. rewrite He.
    open_world w; cbn. auto.
Qed.

Lemma play_pause_keeps_agreement_witness :
  let w := mountedWorld liveRender in
  let w1 := handlePlayPauseStream liveRender None w in
  let w2 := handlePlayPauseStream (rstate w1) None w1 in
  (isPlaying (rstate w1) = false /\
   wasPlayingBeforeDisconnect (rstate w1) = false /\
   tracks w1 !! 7%nat = Some (MkTrack 100 false)) /\
  tracks w2 !! 7%nat = Some (MkTrack 100 true).
Proof.
  pose proof (play_pause_keeps_agreement liveRender 7%nat (MkTrack 100 true) "x"
                (mountedWorld liveRender) eq_refl) as H.
  destruct H as (H1 & _). split; [exact (H1 eq_refl) | reflexivity].
Defined.

(** ** Lists *)

Lemma last_cons_default {A : Type} (l : list A) :
  forall (x d d' : A), List.last (x :: l) d = List.last (x :: l) d'.
Proof.
  induction l as [|y l IH]; intros x d d'; [reflexivity|].
  change (List.last (y :: l) d = List.last (y :: l) d'). apply IH.
Qed.

Lemma last_cons_shift {A : Type} (l : list A) (x d : A) :
  List.last (x :: l) d = List.last l x.
Proof.
  destruct l as [|y l]; [reflexivity|].
  change (List.last (y :: l) d = List.last (y :: l) x). apply last_cons_default.
Qed.

(** ** The first join *)

Lemma set_error_twice (e1 e2 : option string) (w : World) :
  set (setConnectionError e2) (set (setConnectionError e1) w)
  = set (setConnectionError e2) w.
Proof. open_world w; reflexivity. Qed.

Lemma joinChannel_fails (env hbEnv : RState) (o : JoinOutcome) (p : Page) :
  isComponentMountedRef (world p) = true ->
  joinFails (configured (world p)) o = true ->
  joinChannel env hbEnv o p
  = MkPage
      (set (setConnectionError
              (Some ("Failed to join: " ++ joinErrorText (configured (world p)) o)))
         (world p))
      (isSDKLoading p) (sdkError p) (AgoraRTC p) (hasShownConnectedToastRef p)
      (joinRetryTimers p ++ [(env, hbEnv)]) (resumeTimers p).
Proof.
  intros Hm Hf. unfold joinChannel, joinFails, joinErrorText in *.
  destruct (configured (world p)).
  - destruct o as [|m]; [discriminate Hf|]. rewrite Hm. destruct p; reflexivity.
  - rewrite Hm. destruct p; reflexivity.
Qed.

Lemma joinAttempts_fail (env hbEnv : RState) (os : list JoinOutcome) :
  forall (p : Page) (first : bool) (o : JoinOutcome),
  isComponentMountedRef (world p) = true ->
  isConnected env = false ->
  joinRetryTimers p = (if first then [] else [(env, hbEnv)]) ->
  forallb (joinFails (configured (world p))) (o :: os) = true ->
  joinAttempts env hbEnv (o :: os) first p
  = MkPage
      (set (setConnectionError
              (Some ("Failed to join: " ++ lastJoinError (configured (world p)) os o)))
         (world p))
      (isSDKLoading p) (sdkError p) (AgoraRTC p) (hasShownConnectedToastRef p)
      [(env, hbEnv)] (resumeTimers p).
Proof.
  induction os as [|o' os IH]; intros p first o Hm Hc Hjr Hall;
    cbn [forallb] in Hall; apply andb_true_iff in Hall as [Ho Hall].
  - cbn [joinAttempts]. unfold lastJoinError. cbn [List.last].
    destruct first.
    + rewrite joinChannel_fails by assumption. rewrite Hjr. reflexivity.
    + destruct p as [w l se sdk hs jr rs]; cbn in *. subst jr. cbn.
      rewrite Hm, Hc. cbn [andb negb].
      rewrite joinChannel_fails by assumption. reflexivity.
  - change (joinAttempts env hbEnv (o :: o' :: os) first p)
      with (joinAttempts env hbEnv (o' :: os) false
              (if first then joinChannel env hbEnv o p else joinRetryFired o p)).
    assert (H1 : (if first then joinChannel env hbEnv o p else joinRetryFired o p)
                 = MkPage
                     (set (setConnectionError
                             (Some ("Failed to join: "
                                    ++ joinErrorText (configured (world p)) o)))
                        (world p))
                     (isSDKLoading p) (sdkError p) (AgoraRTC p)
                     (hasShownConnectedToastRef p) [(env, hbEnv)] (resumeTimers p)).
    { destruct first.
      - rewrite joinChannel_fails by assumption. rewrite Hjr. reflexivity.
      - destruct p as [w l se sdk hs jr rs]; cbn in *. subst jr. cbn.
        rewrite Hm, Hc. cbn [andb negb].
        rewrite joinChannel_fails by assumption. reflexivity. }
    rewrite H1. clear H1.
    rewrite IH.
    + cbn [world isSDKLoading sdkError AgoraRTC hasShownConnectedToastRef resumeTimers].
      rewrite set_error_twice.
      replace (configured (set _ (world p))) with (configured (world p))
        by (destruct (world p); reflexivity).
      unfold lastJoinError. rewrite (last_cons_shift os o' o). reflexivity.
    + cbn [world]. destruct (world p); exact Hm.
    + exact Hc.
    + reflexivity.
    + cbn [world]. replace (configured (set _ (world p))) with (configured (world p))
        by (destruct (world p); reflexivity).
      exact Hall.
Qed.

(** X13. Join attempts made before the first success are retried without
    limit and outside the reconnection budget.  On a mounted page whose
    effect render is not connected, any number of joins that fail (because
    the transport refuses, or because the configuration is missing, which
    makes every join fail) leaves exactly one retry timer pending and
    changes nothing else than the error text, which is that of the last
    failure: the attempt counter, the reconnecting flag and the reconnection
    timers are untouched. *)
Theorem join_retries_never_give_up
    (env hbEnv : RState) (o : JoinOutcome) (os : list JoinOutcome) (p : Page) :
  isComponentMountedRef (world p) = true ->
  isConnected env = false ->
  joinRetryTimers p = [] ->
  forallb (joinFails (configured (world p))) (o :: os) = true ->
  let p' := joinAttempts env hbEnv (o :: os) true p in
  p' = MkPage
         (set (setConnectionError
                 (Some ("Failed to join: " ++ lastJoinError (configured (world p)) os o)))
            (world p))
         (isSDKLoading p) (sdkError p) (AgoraRTC p) (hasShownConnectedToastRef p)
         [(env, hbEnv)] (resumeTimers p) /\
  reconnectCount (rstate (world p')) = reconnectCount (rstate (world p)) /\
  isReconnecting (rstate (world p')) = isReconnecting (rstate (world p)) /\
  isConnected (rstate (world p')) = isConnected (rstate (world p)) /\
  timers (world p') = timers (world p).
Proof.
  intros Hm Hc Hjr Hall. cbv zeta.
  rewrite (joinAttempts_fail env hbEnv os p true o Hm Hc Hjr Hall).
  split; [reflexivity|]. cbn [world].
  destruct (world p) as [r mo rt hb ts nx js tr db cf]; destruct r; cbn. auto.
Qed.

Lemma join_retries_never_give_up_witness :
  let p' := joinAttempts initialRState initialRState
              [Joined; JoinError "refused"; Joined] true (startedPage false 1 2) in
  joinRetryTimers p' = [(initialRState, initialRState)] /\
  connectionError (rstate (world p'))
  = Some "Failed to join: Missing required Agora configuration (APP_ID or CHANNEL_NAME)" /\
  reconnectCount (rstate (world p')) = 0%nat /\
  isConnected (rstate (world p')) = false.
Proof.
  pose proof (join_retries_never_give_up initialRState initialRState Joined
                [JoinError "refused"; Joined] (startedPage false 1 2)
                eq_refl eq_refl eq_refl eq_refl) as H.
  cbv zeta in H. destruct H as (H1 & H2 & _ & H4 & _).
  cbv zeta. rewrite H1. repeat split; reflexivity.
Defined.

(** X14. The first successful join of a mounted, configured page connects
    it, clears the error text and starts the heartbeat, unless one is
    running.  This is done once per page: the flag it sets makes every later
    successful join change nothing, so a heartbeat that has been stopped is
    not started again by a join. *)
Theorem first_join_connects_once
    (env hbEnv env' hbEnv' : RState) (p : Page) :
  isComponentMountedRef (world p) = true ->
  configured (world p) = true ->
  hasShownConnectedToastRef p = false ->
  let p1 := joinChannel env hbEnv Joined p in
  let p2 := onWorld stopHeartbeat p1 in
  isConnected (rstate (world p1)) = true /\
  connectionError (rstate (world p1)) = None /\
  hasShownConnectedToastRef p1 = true /\
  heartbeatIntervalRef (world p1)
  = Some (default hbEnv (heartbeatIntervalRef (world p))) /\
  joinChannel env' hbEnv' Joined p1 = p1 /\
  joinChannel env' hbEnv' Joined p2 = p2 /\
  heartbeatIntervalRef (world p2) = None.
Proof.
  intros Hm Hcf Hhs. cbv zeta. unfold joinChannel, onWorld.
  destruct p as [w l se sdk hs jr rs]; cbn in *. subst hs.
  rewrite Hcf, Hm. cbn [negb andb].
  unfold andThen, startHeartbeat, stopHeartbeat.
  destruct w as [r mo rt hb ts nx js tr db cf]; destruct r; cbn in *. subst.
  destruct hb; cbn; repeat split; reflexivity.
Qed.

Lemma first_join_connects_once_witness :
  let p1 := joinChannel initialRState initialRState Joined (startedPage true 1 2) in
  isConnected (rstate (world p1)) = true /\
  hasShownConnectedToastRef p1 = true /\
  heartbeatIntervalRef (world p1) = Some initialRState /\
  joinChannel connectedRender connectedRender Joined p1 = p1.
Proof.
  pose proof (first_join_connects_once initialRState initialRState
                connectedRender connectedRender (startedPage true 1 2)
                eq_refl eq_refl eq_refl) as H.
  cbv zeta in H. destruct H as (H1 & _ & H3 & H4 & H5 & _).
  cbv zeta. auto.
Defined.

(** ** What the heartbeat and the visibility handler can start *)

Lemma check_not_connected_untouched (env : RState) (res : PollResult) (w : World) :
  isConnected env = false ->
  attemptsUntouched w (checkBroadcasterStatus env res w).
Proof.
  intros Hc. unfold checkBroadcasterStatus, andThen, when, skip. rewrite Hc.
  destruct res as [m| |data]; open_world w; cbn.
  - destruct (negb (isReconnecting env)); cbn; repeat split; reflexivity.
  - repeat split; reflexivity.
  - rewrite andb_false_r. cbn.
    destruct (bool_decide (host_online data = Some true) && truthy (connectionError env));
      cbn; repeat split; reflexivity.
Qed.





(** X16. Becoming visible never starts a reconnection attempt.  Seen
    connected, the handler only calls [startHeartbeat]; seen disconnected,
    it calls [checkBroadcasterStatus], whose rule requires [isConnected] in
    the same render and so cannot fire.  ([isConnected] is a dependency of
    both callbacks, hence equal in their renders.)  A page that is hidden is
    left as it is. *)
Theorem visibility_never_starts_reconnection
    (env cbEnv : RState) (visible : bool) (res : PollResult) (p : Page) :
  isConnected cbEnv = isConnected env ->
  attemptsUntouched (world p) (world (handleVisibilityChange env cbEnv visible res p)) /\
  handleVisibilityChange env cbEnv false res p = p.
Proof.
  intros Heq. split; [| reflexivity].
  unfold handleVisibilityChange, onWorld.
  destruct visible; [| repeat split; reflexivity].
  destruct (isConnected env) eqn:Hc.
  - destruct (_ && negb (isPlaying env)); destruct p as [w l se sdk hs jr rs];
      cbn [world]; unfold startHeartbeat;
      destruct w as [r mo rt hb ts nx js tr db cf]; destruct hb; cbn;
      repeat split; reflexivity.
  - destruct (_ && negb (isPlaying env)); destruct p as [w l se sdk hs jr rs];
      cbn [world]; apply check_not_connected_untouched; exact Heq.
Qed.

Lemma visibility_never_starts_reconnection_witness :
  let p := MkPage (mountedWorld reconnectingRender) false None (Some 1%nat) true [] [] in
  let online := PollData (MkBroadcastInfo (Some 5%nat) (Some true)) in
  attemptsUntouched (world p)
    (world (handleVisibilityChange reconnectingRender reconnectingRender true online p)) /\
  handleVisibilityChange reconnectingRender reconnectingRender false online p = p.
Proof.
  exact (visibility_never_starts_reconnection reconnectingRender reconnectingRender true
           (PollData (MkBroadcastInfo (Some 5%nat) (Some true)))
           (MkPage (mountedWorld reconnectingRender) false None (Some 1%nat) true [] [])
           eq_refl).
Defined.

(** ** Loading the SDK *)

Lemma loadAgoraSDK_calls_filled
    (hasWindow : bool) (imports : list LoadOutcome) (c : LoadOutcome) :
  loadAgoraSDK_calls hasWindow imports (Some c)
  = (replicate (length imports) (Some c), Some c).
Proof.
  induction imports as [|i imports IH]; cbn [loadAgoraSDK_calls length replicate].
  - reflexivity.
  - unfold loadAgoraSDK. rewrite IH. reflexivity.
Qed.

(** X18. The SDK is imported at most once.  In a browser the first call of
    [loadAgoraSDK] makes the import and every call, the first included,
    returns that import's outcome, a failure as well as a success: a failed
    load is never tried again.  Without [window] no import is made and every
    call returns [null]. *)
Theorem sdk_is_imported_once (first : LoadOutcome) (later imports : list LoadOutcome) :
  loadAgoraSDK_calls true (first :: later) None
  = (replicate (S (length later)) (Some first), Some first) /\
  loadAgoraSDK_calls false imports None = (replicate (length imports) None, None).
Proof.
  split.
  - cbn [loadAgoraSDK_calls]. unfold loadAgoraSDK at 1.
    rewrite loadAgoraSDK_calls_filled. reflexivity.
  - induction imports as [|i imports IH]; cbn [loadAgoraSDK_calls length replicate].
    + reflexivity.
    + unfold loadAgoraSDK. rewrite IH. reflexivity.
Qed.

(** ** Session id *)

Lemma freshSessionId_truthy (draw : string * string) :
  truthy (Some (freshSessionId draw)) = true.
Proof. reflexivity. Qed.

(** X20. With a usable [sessionStorage] the session id is stable: the id
    the effect produces is not empty, it is the stored one when a non-empty
    one is stored and a fresh one, then stored, otherwise; and running the
    effect again on the storage it left, with any other clock and random
    draws, gives the same id and leaves the storage as it is.  When the
    storage is absent or throws, the id comes from the draws alone and
    nothing is stored. *)
Theorem session_id_is_stable
    (items : gmap string string) (draw1 draw2 draw1' draw2' : string * string) :
  let id := fst (generateSessionId (StorageOk items) draw1 draw2) in
  let st := snd (generateSessionId (StorageOk items) draw1 draw2) in
  generateSessionId st draw1' draw2' = (id, st) /\
  id <> "" /\
  (truthy (items !! sessionKey) = true ->
   items !! sessionKey = Some id /\ st = StorageOk items) /\
  (truthy (items !! sessionKey) = false ->
   id = freshSessionId draw1 /\
   st = StorageOk (<[sessionKey := id]> items)) /\
  generateSessionId StorageUndefined draw1 draw2
  = (freshSessionId draw1, StorageUndefined) /\
  generateSessionId StorageThrows draw1 draw2 = (freshSessionId draw2, StorageThrows).
Proof.
  cbv zeta. destruct (truthy (items !! sessionKey)) eqn:Htr.
  - assert (E : generateSessionId (StorageOk items) draw1 draw2
                = (default "" (items !! sessionKey), StorageOk items))
      by (unfold generateSessionId; rewrite Htr; reflexivity).
    rewrite !E. cbn [fst snd].
    replace (generateSessionId (StorageOk items) draw1' draw2')
      with (default "" (items !! sessionKey), StorageOk items)
      by (unfold generateSessionId; rewrite Htr; reflexivity).
    destruct (items !! sessionKey) as [s|] eqn:Hs; [| discriminate Htr].
    cbn [truthy] in Htr. cbn.
    repeat split; try reflexivity; try discriminate.
    intros Es. rewrite Es in Htr. discriminate Htr.
  - assert (E : generateSessionId (StorageOk items) draw1 draw2
                = (freshSessionId draw1,
                   StorageOk (<[sessionKey := freshSessionId draw1]> items)))
      by (unfold generateSessionId; rewrite Htr; reflexivity).
    rewrite !E. cbn [fst snd].
    unfold generateSessionId. rewrite lookup_insert_eq.
    rewrite freshSessionId_truthy. cbn [default].
    repeat split; try reflexivity; try discriminate.
Qed.

(** ** From the first render to a live stream *)

(** X21. The statuses of a start-up that goes well.  The first render shows
    'loading'; once the SDK has loaded and the client is created the page
    shows 'disconnected'; the first successful join starts the heartbeat and
    the page shows 'offline'; the first track attached makes it 'live' and
    offers the play button, whatever renders the join and the publish
    handler close over. *)
Theorem startup_reaches_live
    (sdk agoraClient t : nat) (env hbEnv envP : RState) (playOk : bool) :
  let p0 := startedPage true sdk agoraClient in
  let p1 := joinChannel env hbEnv Joined p0 in
  let p2 := onWorld (user_published envP audio (Subscribed t) playOk) p1 in
  pageView (initialPage true) = Player (MkStreamStatus StLoading "Loading audio system...") /\
  pageView p0 = Player (MkStreamStatus StDisconnected "Connecting to service...") /\
  pageView p1 = Player (MkStreamStatus StOffline "Waiting for broadcaster...") /\
  heartbeatIntervalRef (world p1) = Some hbEnv /\
  client (rstate (world p1)) = Some agoraClient /\
  pageView p2 = Player (MkStreamStatus StLive "Live stream active") /\
  playButtonShown (isSDKLoading p2) (rstate (world p2)) = true /\
  remoteAudioTrack (rstate (world p2)) = Some t.
Proof.
  cbv zeta. unfold playButtonShown, statusIs, pageView.
  destruct (wasPlayingBeforeDisconnect envP) eqn:Hw, playOk;
    cbn; rewrite ?Hw; cbn; repeat split; reflexivity.
Qed.

(** ** The budget as the handlers see it *)

Lemma canAttempt_exhausted (env : RState) (w : World) :
  (maxReconnectAttempts <= reconnectCount env)%nat -> canAttempt env w = false.
Proof.
  intros H. unfold canAttempt.
  replace (reconnectCount env <? maxReconnectAttempts)%nat with false
    by (symmetry; apply Nat.ltb_ge; exact H).
  apply andb_false_r.
Qed.

(** X22. A handler whose render has used up the budget
    ([reconnectCount >= 20]) starts nothing: [attemptReconnection] returns at
    once, a disconnection only marks the component disconnected, and a
    heartbeat check only republishes the presence values. *)
Theorem exhausted_render_starts_nothing
    (env : RState) (w : World) (res : PollResult) :
  (maxReconnectAttempts <= reconnectCount env)%nat ->
  attemptReconnection env w = w /\
  attemptsUntouched w (handleDisconnection env w) /\
  attemptsUntouched w (checkBroadcasterStatus env res w).
Proof.
  intros H.
  assert (Hlt : (reconnectCount env <? maxReconnectAttempts)%nat = false)
    by (apply Nat.ltb_ge; exact H).
  split; [apply attemptReconnection_skips, canAttempt_exhausted, H|].
  split.
  - rewrite handleDisconnection_unfold.
    destruct (isComponentMountedRef w); [| repeat split; reflexivity].
    rewrite Hlt, andb_false_r. cbn [when]. unfold skip.
    destruct (markDisconnected_frame env w) as (_ & _ & F3 & F4 & F5 & _ & _ & F8 & F9).
    repeat split; assumption.
  - destruct (checkBroadcasterStatus_effect env res w) as [Hu | [_ Hs]]; [exact Hu|].
    exfalso. cbv zeta in Hs. destruct Hs as (_ & _ & _ & _ & Hn).
    revert Hn. unfold checkBroadcasterStatus, andThen, when, skip.
    rewrite Hlt, andb_false_r.
    destruct res as [m| |data]; open_world w; cbn;
      repeat break_match; cbn; lia.
Qed.

Lemma exhausted_render_starts_nothing_witness :
  let env := setReconnectCount (fun _ => 20%nat) connectedRender in
  let w := mountedWorld env in
  attemptReconnection env w = w /\
  attemptsUntouched w (handleDisconnection env w) /\
  attemptsUntouched w
    (checkBroadcasterStatus env (PollData (MkBroadcastInfo None (Some true))) w).
Proof.
  pose proof (exhausted_render_starts_nothing
                (setReconnectCount (fun _ => 20%nat) connectedRender)
                (mountedWorld (setReconnectCount (fun _ => 20%nat) connectedRender))
                (PollData (MkBroadcastInfo None (Some true)))
                (Nat.le_refl 20)) as H.
  destruct H as (H1 & H2 & H3). cbv zeta. auto.
Defined.

(** ** Where the backoff reaches its cap *)

Section BackoffThreshold.

Local Open Scope Q_scope.

(** X23. The first delay is 500 ms; up to the tenth attempt (indices 0 to
    9) the delay is [500 * 1.2^i], below the cap; from index 10 on it is the
    cap, 3000 ms. *)
Theorem reconnectDelay_threshold (i : nat) :
  reconnectDelay 0 == 500 /\
  ((i < 10)%nat ->
   reconnectDelay i == 500 * Math_pow (12 # 10) i /\ reconnectDelay i < 3000) /\
  ((10 <= i)%nat -> reconnectDelay i == 3000).
Proof.
  split; [reflexivity | split].
  - intros Hi.
    assert (H9 : Math_pow (12 # 10) 9 < 6) by (vm_compute; reflexivity).
    assert (Hm : Math_pow (12 # 10) i <= Math_pow (12 # 10) 9)
      by (apply Math_pow_mono; lia).
    assert (Heq : reconnectDelay i == 500 * Math_pow (12 # 10) i).
    { unfold reconnectDelay. apply Q.min_l.
      set (a := Math_pow (12 # 10) i) in *. set (b := Math_pow (12 # 10) 9) in *. lra. }
    split; [exact Heq|]. rewrite Heq.
    set (a := Math_pow (12 # 10) i) in *. set (b := Math_pow (12 # 10) 9) in *. lra.
  - apply reconnectDelay_capped_from_10.
Qed.

End BackoffThreshold.

(** * The component under React *)

(** ** Renders, the client effect and the mounted flag *)

Lemma render_page (a : App) : page (render a) = page a.
Proof. unfold render. case_bool_decide; destruct a; reflexivity. Qed.
Lemma render_effect (a : App) : clientEffectEnv (render a) = clientEffectEnv a.
Proof. unfold render. case_bool_decide; destruct a; reflexivity. Qed.
Lemma render_joins (a : App) : joinsPending (render a) = joinsPending a.
Proof. unfold render. case_bool_decide; destruct a; reflexivity. Qed.
Lemma render_unmounted (a : App) : unmounted (render a) = unmounted a.
Proof. unfold render. case_bool_decide; destruct a; reflexivity. Qed.
Lemma render_isIOS (a : App) : isIOS (render a) = isIOS a.
Proof. unfold render. case_bool_decide; destruct a; reflexivity. Qed.
Lemma render_cbEnv (a : App) :
  cbEnv (render a) = cbEnv a \/ cbEnv (render a) = live a.
Proof. unfold render. case_bool_decide; destruct a; cbn; auto. Qed.
Lemma render_live (a : App) : live (render a) = live a.
Proof. unfold live. rewrite render_page. reflexivity. Qed.

Ltac app_open a :=
  let p := fresh "p" in let w := fresh "w" in
  let ef := fresh "ef" in let cb := fresh "cb" in let jp := fresh "jp" in
  let ios := fresh "ios" in let um := fresh "um" in
  let l := fresh "l" in let se := fresh "se" in let sdk := fresh "sdk" in
  let hs := fresh "hs" in let jr := fresh "jr" in let rs := fresh "rs" in
  let r := fresh "r" in let mo := fresh "mo" in let rt := fresh "rt" in
  let hb := fresh "hb" in let ts := fresh "ts" in let nx := fresh "nx" in
  let js := fresh "js" in let tr := fresh "tr" in let db := fresh "db" in
  let cf := fresh "cf" in
  destruct a as [p ef cb jp ios um]; destruct p as [w l se sdk hs jr rs];
  destruct w as [r mo rt hb ts nx js tr db cf].

Lemma world_unmounted_step (e : Event) (w : World) :
  isComponentMountedRef w = false -> isComponentMountedRef (step e w) = false.
Proof. intros H. apply (step_unmounted e w H). Qed.

Lemma joinChannel_ref (env hbEnv : RState) (o : JoinOutcome) (p : Page) :
  isComponentMountedRef (world (joinChannel env hbEnv o p)) = isComponentMountedRef (world p).
Proof.
  unfold joinChannel. destruct p as [w l se sdk hs jr rs].
  destruct w as [r mo rt hb ts nx js tr db cf]; cbn.
  destruct cf, o, mo, hs, hb; reflexivity.
Qed.

Lemma runClientEffect_ref (c : nat) (a : App) :
  mountedRef (runClientEffect c a)
  = match clientEffectEnv a with Some _ => false | None => mountedRef a end.
Proof.
  unfold runClientEffect, mountedRef, joinChannel_call, clientEffect, joinChannel.
  app_open a; cbn. destruct ef as [[env hb']|], sdk, l, cf, mo, hs; cbn;
    try reflexivity; unfold_handlers; cbn; handler_cases; reflexivity.
Qed.

Lemma onPage_page (f : Page -> Page) (a : App) : page (onPage f a) = f (page a).
Proof. destruct a; reflexivity. Qed.

Lemma onWorld_world (f : Act) (p : Page) : world (onWorld f p) = f (world p).
Proof. destruct p; reflexivity. Qed.

Lemma commit_ref (before : App) (c : nat) (a : App) :
  mountedRef a = false -> mountedRef (commit before c a) = false.
Proof.
  intros H. unfold commit. case_bool_decide.
  - unfold mountedRef. rewrite render_page. exact H.
  - unfold mountedRef. rewrite render_page. fold (mountedRef (runClientEffect c (render a))).
    rewrite runClientEffect_ref. destruct (clientEffectEnv (render a)); [reflexivity|].
    unfold mountedRef. rewrite render_page. exact H.
Qed.

Lemma initializeSDK_settled_world (m : bool) (loaded : option LoadOutcome) (p : Page) :
  isComponentMountedRef (world (initializeSDK_settled m loaded p))
  = isComponentMountedRef (world p).
Proof.
  unfold initializeSDK_settled. destruct m, p as [w l se sdk hs jr rs], loaded as [[?|?]|];
    cbn; try reflexivity. destruct w; reflexivity.
Qed.

Lemma subscribe_ref (m : MediaType) (sub : SubscribeOutcome) (w : World) :
  isComponentMountedRef (agoraClient_subscribe m sub w) = isComponentMountedRef w.
Proof.
  unfold agoraClient_subscribe. destruct w; cbn. handler_cases; reflexivity.
Qed.

Lemma simple_ref (f : Act) (a : App) :
  (isComponentMountedRef (world (page a)) = false ->
   isComponentMountedRef (f (world (page a))) = false) ->
  mountedRef a = false -> mountedRef (render (onPage (onWorld f) a)) = false.
Proof.
  unfold mountedRef. intros Hf H. rewrite render_page, onPage_page, onWorld_world. auto.
Qed.

Lemma appStep_ref_mono (ev : AppEvent) (a : App) :
  mountedRef a = false -> mountedRef (appStep ev a) = false.
Proof.
  intros H. destruct ev; cbn [appStep].
  - destruct (_ && _); [| exact H]. apply commit_ref.
    unfold mountedRef in *. rewrite onPage_page, initializeSDK_settled_world. exact H.
  - destruct (joinsPending a !! i) as [[env hb]|]; [| exact H].
    unfold mountedRef in *. rewrite render_page. destruct a as [p ef cb jp ios um]; cbn in *.
    rewrite joinChannel_ref. exact H.
  - destruct (joinRetryTimers (page a)) as [|[env hb] jr] eqn:E; [exact H|].
    unfold mountedRef in H. rewrite H. cbn. unfold mountedRef.
    app_open a; exact H.
  - destruct (clientEffectEnv a) as [[env hb]|]; [| exact H].
    apply simple_ref; [| exact H]. intros H'. unfold andThen.
    apply (world_unmounted_step (EvUserPublished env mediaType sub playOk)).
    rewrite subscribe_ref. exact H'.
  - destruct (clientEffectEnv a) as [[env hb]|]; [| exact H].
    apply simple_ref; [| exact H].
    apply (world_unmounted_step (EvUserUnpublished mediaType)).
  - destruct (clientEffectEnv a) as [[env hb]|]; [| exact H].
    apply simple_ref; [| exact H].
    apply (world_unmounted_step (EvConnectionStateChanged env curState reason)).
  - destruct (clientEffectEnv a) as [[env hb]|]; [| exact H].
    apply simple_ref; [| exact H].
    apply (world_unmounted_step (EvException env code msg)).
  - apply simple_ref; [| exact H]. apply (world_unmounted_step (EvHeartbeatTick res)).
  - apply simple_ref; [| exact H]. apply (world_unmounted_step (EvReconnectTimer id)).
  - apply simple_ref; [| exact H]. apply (world_unmounted_step (EvReconnectSettled id o)).
  - destruct (canMoveSlider a); [| exact H]. apply commit_ref.
    unfold mountedRef in *. rewrite onPage_page, onWorld_world.
    apply (world_unmounted_step (EvVolumeChange (live a) newVolume)). exact H.
  - apply simple_ref; [| exact H]. apply (world_unmounted_step (EvVolumeFlush ok)).
  - destruct (canToggleMute a); [| exact H]. apply commit_ref.
    unfold mountedRef in *. rewrite onPage_page, onWorld_world.
    apply (world_unmounted_step (EvToggleMute (live a) err)). exact H.
  - destruct (canPressPlay a); [| exact H].
    apply simple_ref; [| exact H]. apply (world_unmounted_step (EvPlayPause (live a) err)).
  - destruct (unmounted a); [exact H|]. unfold mountedRef in *. rewrite render_page, onPage_page.
    unfold handleVisibilityChange. destruct visible; [| exact H].
    set (env := live a). set (cbe := cbEnv a). clearbody env cbe.
    app_open a; cbn in *. subst.
    destruct (isLive env && _ && _ && _), (isConnected env); cbn.
    all: try (apply (world_unmounted_step (EvStartHeartbeat cbe)); reflexivity).
    all: apply (world_unmounted_step (EvCheckBroadcasterStatus cbe res)); reflexivity.
  - unfold mountedRef in *. rewrite render_page, onPage_page. unfold resumeTimerFired.
    app_open a; cbn in *. destruct rs as [|env rs']; [exact H|]. cbn.
    apply (world_unmounted_step (EvPlayPause env err)). exact H.
  - destruct (unmounted a); [exact H|]. unfold mountedRef in *.
    app_open a; cbn in *. subst. destruct ef as [[env hb']|]; unfold_handlers; cbn;
      handler_cases; reflexivity.
Qed.

Lemma onPage_effect (f : Page -> Page) (a : App) :
  clientEffectEnv (onPage f a) = clientEffectEnv a.
Proof. destruct a; reflexivity. Qed.
Lemma onPage_unmounted (f : Page -> Page) (a : App) : unmounted (onPage f a) = unmounted a.
Proof. destruct a; reflexivity. Qed.
Lemma onPage_joins (f : Page -> Page) (a : App) : joinsPending (onPage f a) = joinsPending a.
Proof. destruct a; reflexivity. Qed.
Lemma onPage_cbEnv (f : Page -> Page) (a : App) : cbEnv (onPage f a) = cbEnv a.
Proof. destruct a; reflexivity. Qed.
Lemma setJoinsPending_effect (v : list (RState * RState)) (a : App) :
  clientEffectEnv (setJoinsPending v a) = clientEffectEnv a.
Proof. destruct a; reflexivity. Qed.
Lemma setJoinsPending_unmounted (v : list (RState * RState)) (a : App) :
  unmounted (setJoinsPending v a) = unmounted a.
Proof. destruct a; reflexivity. Qed.
Lemma setJoinsPending_page (v : list (RState * RState)) (a : App) :
  page (setJoinsPending v a) = page a.
Proof. destruct a; reflexivity. Qed.
Lemma setJoinsPending_cbEnv (v : list (RState * RState)) (a : App) :
  cbEnv (setJoinsPending v a) = cbEnv a.
Proof. destruct a; reflexivity. Qed.
Lemma joinChannel_call_effect (env hbEnv : RState) (a : App) :
  clientEffectEnv (joinChannel_call env hbEnv a) = clientEffectEnv a.
Proof. unfold joinChannel_call. destruct (configured _); destruct a; reflexivity. Qed.
Lemma joinChannel_call_unmounted (env hbEnv : RState) (a : App) :
  unmounted (joinChannel_call env hbEnv a) = unmounted a.
Proof. unfold joinChannel_call. destruct (configured _); destruct a; reflexivity. Qed.
Lemma joinChannel_call_cbEnv (env hbEnv : RState) (a : App) :
  cbEnv (joinChannel_call env hbEnv a) = cbEnv a.
Proof. unfold joinChannel_call. destruct (configured _); destruct a; reflexivity. Qed.
Lemma runClientEffect_unmounted (c : nat) (a : App) :
  unmounted (runClientEffect c a) = unmounted a.
Proof.
  unfold runClientEffect.
  destruct (clientEffectEnv a) as [[env hb]|]; destruct (negb _ || _);
    rewrite ?joinChannel_call_unmounted; destruct a; reflexivity.
Qed.
Lemma commit_unmounted (before : App) (c : nat) (a : App) :
  unmounted (commit before c a) = unmounted a.
Proof.
  unfold commit. case_bool_decide;
    rewrite ?render_unmounted, ?runClientEffect_unmounted, ?render_unmounted; reflexivity.
Qed.

Create Rewrite HintDb app.
#[local] Hint Rewrite render_page render_effect render_joins render_unmounted render_isIOS
  render_live onPage_page onWorld_world onPage_effect onPage_unmounted onPage_joins
  onPage_cbEnv setJoinsPending_effect setJoinsPending_unmounted setJoinsPending_page
  setJoinsPending_cbEnv joinChannel_call_effect joinChannel_call_unmounted
  joinChannel_call_cbEnv runClientEffect_unmounted commit_unmounted : app.

(** React never remounts the component. *)
Lemma appStep_unmounted_mono (ev : AppEvent) (a : App) :
  unmounted a = true -> unmounted (appStep ev a) = true.
Proof.
  intros H. destruct ev; cbn [appStep]; unfold canMoveSlider, canToggleMute, canPressPlay;
    rewrite ?H, ?andb_false_r; cbn [negb andb]; try exact H; repeat break_match;
    autorewrite with app; try exact H.
  all: destruct a; cbn in *; try exact H; try reflexivity.
Qed.

Lemma appStep_effect_gone (ev : AppEvent) (a : App) :
  unmounted a = true -> clientEffectEnv a = None -> clientEffectEnv (appStep ev a) = None.
Proof.
  intros H E. destruct ev; cbn [appStep]; unfold canMoveSlider, canToggleMute, canPressPlay;
    rewrite ?H, ?E, ?andb_false_r; cbn [negb andb]; try exact E; repeat break_match;
    autorewrite with app; try exact E.
  all: destruct a; cbn in *; try exact E; try reflexivity; try congruence.
Qed.

Lemma appStep_unmounts (ev : AppEvent) (a : App) :
  unmounted a = false -> unmounted (appStep ev a) = true ->
  clientEffectEnv (appStep ev a) = None.
Proof.
  intros H. destruct ev; cbn [appStep]; repeat break_match; autorewrite with app;
    try congruence.
  all: try (destruct a; cbn in *; congruence).
Qed.

Lemma runClientEffect_installed (c : nat) (a : App) (x : RState * RState) :
  clientEffectEnv a = Some x -> mountedRef (runClientEffect c a) = false.
Proof. intros E. rewrite runClientEffect_ref, E. reflexivity. Qed.

Lemma commit_effect_kept (before : App) (c : nat) (a : App) (x : RState * RState) :
  clientEffectEnv a = Some x -> mountedRef (commit before c a) = true ->
  clientEffectEnv (commit before c a) = Some x.
Proof.
  unfold commit. intros E. case_bool_decide.
  - intros _. rewrite render_effect. exact E.
  - unfold mountedRef. rewrite render_page.
    fold (mountedRef (runClientEffect c (render a))).
    rewrite (runClientEffect_installed c (render a) x) by (rewrite render_effect; exact E).
    discriminate.
Qed.

(** While the ref is true the client effect in place stays in place. *)
Lemma appStep_effect_kept (ev : AppEvent) (a : App) (x : RState * RState) :
  clientEffectEnv a = Some x -> mountedRef (appStep ev a) = true ->
  clientEffectEnv (appStep ev a) = Some x.
Proof.
  intros E. destruct ev; cbn [appStep]; rewrite ?E.
  all: try (destruct x as [env hb]; intros _; autorewrite with app; exact E).
  all: try (intros _; autorewrite with app; exact E).
  - destruct (_ && _); [| intros _; exact E].
    apply commit_effect_kept. autorewrite with app. exact E.
  - destruct (joinsPending a !! i) as [[env hb]|]; intros _; autorewrite with app; exact E.
  - destruct (joinRetryTimers (page a)) as [|[env hb] jr]; [intros _; exact E|].
    destruct (_ && _); intros _; autorewrite with app; exact E.
  - destruct (canMoveSlider a); [| intros _; exact E].
    apply commit_effect_kept. autorewrite with app. exact E.
  - destruct (canToggleMute a); [| intros _; exact E].
    apply commit_effect_kept. autorewrite with app. exact E.
  - destruct (canPressPlay a); intros _; autorewrite with app; exact E.
  - destruct (unmounted a); intros _; autorewrite with app; exact E.
  - destruct (unmounted a); [intros _; exact E|].
    destruct x as [env hb]. unfold mountedRef.
    app_open a; cbn in *. subst. unfold andThen. unfold cleanupComponent, andThen.
    intros H. exfalso. revert H. unfold_handlers. cbn. handler_cases; discriminate.
Qed.

(** ** The handlers in place *)

Lemma onWorld_id (f : Act) (p : Page) : f (world p) = world p -> onWorld f p = p.
Proof. destruct p; cbn. intros ->. reflexivity. Qed.

Lemma onPage_id (f : Page -> Page) (a : App) : f (page a) = page a -> onPage f a = a.
Proof. destruct a; cbn. intros ->. reflexivity. Qed.

Lemma heartbeatTick_idle (res : PollResult) (w : World) :
  heartbeatIntervalRef w = None -> heartbeatTick res w = w.
Proof. unfold heartbeatTick. intros ->. reflexivity. Qed.

Lemma reconnectTimerFired_idle (id : nat) (w : World) :
  timers w = [] -> reconnectTimerFired id w = w.
Proof. unfold reconnectTimerFired. intros ->. reflexivity. Qed.

Lemma reconnectSettled_idle (id : nat) (o : JoinOutcome) (w : World) :
  joining w = [] -> reconnectSettled id o w = w.
Proof. unfold reconnectSettled. intros ->. reflexivity. Qed.

Lemma resumeTimerFired_idle (err : option string) (p : Page) :
  resumeTimers p = [] -> resumeTimerFired err p = p.
Proof. destruct p; cbn. intros ->. reflexivity. Qed.

Lemma status_live (l : bool) (r : RState) :
  statusIs StLive l r = true -> isLive r = true /\ isConnected r = true /\ l = false.
Proof.
  unfold statusIs, getStreamStatus. intros H. apply bool_decide_eq_true_1 in H. revert H.
  destruct l, (truthy (connectionError r)), (isReconnecting r), (isConnected r),
    (broadcasterOnline r), (isLive r); cbn; intros H; try discriminate H; auto.
Qed.

Lemma canMoveSlider_connected (a : App) :
  canMoveSlider a = true ->
  unmounted a = false /\ isConnected (live a) = true /\ isMuted (live a) = false /\
  isSDKLoading (page a) = false.
Proof.
  unfold canMoveSlider, volumeSliderDisabled. intros H.
  destruct (unmounted a), (isConnected (live a)), (isMuted (live a)), (isSDKLoading (page a));
    cbn in H; rewrite ?andb_false_r, ?orb_true_r in H; cbn in H;
    rewrite ?andb_false_r in H; try discriminate H; auto.
Qed.

Lemma canToggleMute_connected (a : App) :
  canToggleMute a = true ->
  unmounted a = false /\ isConnected (live a) = true /\ isSDKLoading (page a) = false.
Proof.
  unfold canToggleMute, muteButtonDisabled. intros H.
  destruct (unmounted a), (isConnected (live a)), (isSDKLoading (page a));
    cbn in H; rewrite ?andb_false_r, ?orb_true_r in H; cbn in H;
    rewrite ?andb_false_r in H; try discriminate H; auto.
Qed.

Lemma canPressPlay_live (a : App) :
  canPressPlay a = true ->
  unmounted a = false /\ isLive (live a) = true /\ isConnected (live a) = true.
Proof.
  unfold canPressPlay, playButtonShown. intros H.
  destruct (unmounted a); cbn in H; [discriminate H|].
  destruct (statusIs StLive _ _) eqn:S; [| rewrite andb_false_r in H; discriminate H].
  apply status_live in S as (S1 & S2 & _). auto.
Qed.

Lemma Pristine_poll (lc : nat) (bo : bool) (ce : option string) (r : RState) :
  Pristine r -> Pristine (setConnectionError ce (setBroadcasterOnline bo (setListenerCount lc r))).
Proof. destruct r; unfold Pristine; cbn. auto. Qed.

Lemma Pristine_error (ce : option string) (r : RState) :
  Pristine r -> Pristine (setConnectionError ce r).
Proof. destruct r; unfold Pristine; cbn. auto. Qed.

(** What a poll does when its handler sees the component not connected:
    it can only replace the listener count, the online flag and the error. *)
Lemma checkBroadcasterStatus_blind (env : RState) (res : PollResult) (w : World) :
  isConnected env = false ->
  exists lc bo ce,
    checkBroadcasterStatus env res w
    = set (fun r => setConnectionError ce (setBroadcasterOnline bo (setListenerCount lc r))) w.
Proof.
  intros Hc. unfold checkBroadcasterStatus, andThen, when, skip. rewrite Hc.
  destruct res as [m| |data].
  - destruct (negb (isReconnecting env)); open_world w; cbn;
      eexists _, _, _; reflexivity.
  - open_world w; eexists _, _, _; reflexivity.
  - rewrite andb_false_r. cbn.
    destruct (bool_decide (host_online data = Some true) && truthy (connectionError env));
      open_world w; cbn; eexists _, _, _; reflexivity.
Qed.

Lemma NotStarted_render (a : App) : NotStarted a -> NotStarted (render a).
Proof.
  unfold NotStarted. rewrite render_live, render_page, render_joins.
  intros (P1 & P2 & H). split; [exact P1|]. split; [| exact H].
  destruct (render_cbEnv a) as [-> | ->]; assumption.
Qed.

Lemma NotStarted_onWorld (f : Act) (a : App) :
  NotStarted a ->
  Pristine (rstate (f (world (page a)))) ->
  heartbeatIntervalRef (f (world (page a))) = None ->
  timers (f (world (page a))) = [] ->
  joining (f (world (page a))) = [] ->
  NotStarted (onPage (onWorld f) a).
Proof.
  unfold NotStarted, live. intros (P1 & P2 & Hsdk & Hhb & Hts & Hjs & Hjp & Hjr & Hrs) Q1 Q2 Q3 Q4.
  rewrite onPage_page, onWorld_world, onPage_cbEnv, onPage_joins.
  destruct a as [p ef cb jp ios um]; destruct p; cbn in *.
  exact (conj Q1 (conj P2 (conj Hsdk (conj Q2 (conj Q3 (conj Q4 (conj Hjp (conj Hjr Hrs)))))))).
Qed.

Lemma flush_frame (ok : bool) (w : World) :
  let w' := debouncedVolumeChange_flush ok w in
  rstate w' = rstate w /\ heartbeatIntervalRef w' = heartbeatIntervalRef w /\
  timers w' = timers w /\ joining w' = joining w /\
  isComponentMountedRef w' = isComponentMountedRef w.
Proof.
  cbv zeta. unfold debouncedVolumeChange_flush, track_setVolume.
  destruct w as [r mo rt hb ts nx js tr db cf]; cbn.
  destruct db as [c|]; cbn; [| auto].
  destruct (vcTrack c), (negb (vcMuted c) && ok); cbn; auto.
Qed.

Lemma NotStarted_sdk (loaded : option LoadOutcome) (c : nat) (a : App) :
  unmounted a = false -> clientEffectEnv a = None -> NotStarted a ->
  match clientEffectEnv (appStep (ASdkSettled loaded c) a) with
  | Some (env, hbEnv) => Pristine env /\ Pristine hbEnv
  | None => NotStarted (appStep (ASdkSettled loaded c) a)
  end.
Proof.
  intros Hu He N. cbn [appStep]. rewrite Hu. cbn [negb]. rewrite andb_true_r.
  destruct (isSDKLoading (page a)) eqn:Hl; [| rewrite He; exact N].
  unfold commit.
  assert (Hd : clientEffect_deps (page (render (onPage (initializeSDK_settled true loaded) a)))
               <> clientEffect_deps (page a)).
  { rewrite render_page, onPage_page. unfold clientEffect_deps. rewrite Hl.
    destruct (page a) as [w l se sdk hs jr rs], loaded as [[s|m]|]; cbn; congruence. }
  rewrite bool_decide_eq_false_2 by exact Hd. clear Hd.
  rewrite render_effect.
  set (a1 := render (onPage (initializeSDK_settled true loaded) a)).
  assert (N1 : NotStarted a1 \/
               (exists sdk, AgoraRTC (page a1) = Some sdk) /\ Pristine (live a1) /\
               Pristine (cbEnv a1)).
  { subst a1. destruct N as (P1 & P2 & Hsdk & Hhb & Hts & Hjs & Hjp & Hjr & Hrs).
    unfold NotStarted. rewrite render_live, render_page, render_joins.
    unfold live in *. rewrite onPage_page, onPage_joins.
    assert (P2' : Pristine (cbEnv (render (onPage (initializeSDK_settled true loaded) a)))).
    { destruct (render_cbEnv (onPage (initializeSDK_settled true loaded) a)) as [-> | ->].
      - rewrite onPage_cbEnv. exact P2.
      - unfold live. rewrite onPage_page.
        destruct (page a) as [w l se sdk hs jr rs], loaded as [[s|m]|]; cbn in *; try exact P1.
        destruct w; cbn in *. apply Pristine_error. exact P1. }
    destruct (page a) as [w l se sdk hs jr rs], loaded as [[s|m]|]; cbn in *.
    - right. split; [eexists; reflexivity|]. split; assumption.
    - left. destruct w; cbn in *.
      exact (conj (Pristine_error _ _ P1)
               (conj P2' (conj Hsdk (conj Hhb (conj Hts (conj Hjs (conj Hjp (conj Hjr Hrs)))))))).
    - left.
      exact (conj P1
               (conj P2' (conj eq_refl (conj Hhb (conj Hts (conj Hjs (conj Hjp (conj Hjr Hrs)))))))). }
  assert (E1 : clientEffectEnv a1 = None)
    by (subst a1; rewrite render_effect, onPage_effect; exact He).
  assert (Hl1 : isSDKLoading (page a1) = false).
  { subst a1. rewrite render_page, onPage_page.
    destruct (page a) as [w l se sdk hs jr rs], loaded as [[s|m]|]; reflexivity. }
  clearbody a1. unfold runClientEffect. rewrite E1, Hl1, orb_false_r.
  destruct N1 as [N1 | ([sdk Hs] & Q1 & Q2)].
  - assert (Hs : AgoraRTC (page a1) = None) by apply N1.
    rewrite Hs. cbn [isSome negb].
    replace (setClientEffectEnv None a1) with a1 by (destruct a1; cbn in *; congruence).
    rewrite E1. apply NotStarted_render. exact N1.
  - rewrite Hs. cbn [isSome negb].
    rewrite joinChannel_call_effect. destruct a1; cbn. split; assumption.
Qed.

Lemma NotStarted_step (ev : AppEvent) (a : App) :
  unmounted a = false -> clientEffectEnv a = None -> NotStarted a ->
  match clientEffectEnv (appStep ev a) with
  | Some (env, hbEnv) => Pristine env /\ Pristine hbEnv
  | None => unmounted (appStep ev a) = false -> NotStarted (appStep ev a)
  end.
Proof.
  intros Hu He N.
  assert (Same : forall a', a' = a ->
            match clientEffectEnv a' with
            | Some (env, hbEnv) => Pristine env /\ Pristine hbEnv
            | None => unmounted a' = false -> NotStarted a'
            end) by (intros a' ->; rewrite He; intros _; exact N).
  assert (Rendered : forall a', a' = a ->
            match clientEffectEnv (render a') with
            | Some (env, hbEnv) => Pristine env /\ Pristine hbEnv
            | None => unmounted (render a') = false -> NotStarted (render a')
            end)
    by (intros a' ->; rewrite render_effect, He; intros _; apply NotStarted_render; exact N).
  pose proof N as (P1 & P2 & Hsdk & Hhb & Hts & Hjs & Hjp & Hjr & Hrs).
  assert (Hconn : isConnected (live a) = false) by apply P1.
  assert (Hlive : isLive (live a) = false) by apply P1.
  destruct ev.
  - pose proof (NotStarted_sdk loaded agoraClient a Hu He N) as H.
    destruct (clientEffectEnv (appStep _ a)) as [[env hb]|]; [exact H | intros _; exact H].
  - cbn [appStep]. rewrite Hjp. cbn. apply Same. reflexivity.
  - cbn [appStep]. rewrite Hjr. apply Same. reflexivity.
  - cbn [appStep]. rewrite He. apply Same. reflexivity.
  - cbn [appStep]. rewrite He. apply Same. reflexivity.
  - cbn [appStep]. rewrite He. apply Same. reflexivity.
  - cbn [appStep]. rewrite He. apply Same. reflexivity.
  - cbn [appStep]. apply Rendered. apply onPage_id, onWorld_id, heartbeatTick_idle, Hhb.
  - cbn [appStep]. apply Rendered. apply onPage_id, onWorld_id, reconnectTimerFired_idle, Hts.
  - cbn [appStep]. apply Rendered. apply onPage_id, onWorld_id, reconnectSettled_idle, Hjs.
  - cbn [appStep]. destruct (canMoveSlider a) eqn:G; [| apply Same; reflexivity].
    apply canMoveSlider_connected in G as (_ & G & _). congruence.
  - cbn [appStep]. rewrite render_effect, onPage_effect, He, render_unmounted. intros _.
    apply NotStarted_render.
    destruct (flush_frame ok (world (page a))) as (F1 & F2 & F3 & F4 & _).
    apply NotStarted_onWorld; [exact N | rewrite F1; exact P1 | congruence ..].
  - cbn [appStep]. destruct (canToggleMute a) eqn:G; [| apply Same; reflexivity].
    apply canToggleMute_connected in G as (_ & G & _). congruence.
  - cbn [appStep]. destruct (canPressPlay a) eqn:G; [| apply Same; reflexivity].
    apply canPressPlay_live in G as (_ & G & _). congruence.
  - cbn [appStep]. rewrite Hu. rewrite render_effect, onPage_effect, He, render_unmounted.
    intros _. apply NotStarted_render.
    unfold handleVisibilityChange. rewrite Hlive, Hconn. cbn [andb].
    destruct visible; [| rewrite (onPage_id (fun p => p)) by reflexivity; exact N].
    destruct (checkBroadcasterStatus_blind (cbEnv a) res (world (page a)))
      as (lc & bo & ce & Hcb); [apply P2|].
    unfold live in P1.
    apply NotStarted_onWorld; [exact N | rewrite Hcb ..].
    + destruct (world (page a)); cbn in *. apply Pristine_poll. exact P1.
    + destruct (world (page a)); cbn in *. exact Hhb.
    + destruct (world (page a)); cbn in *. exact Hts.
    + destruct (world (page a)); cbn in *. exact Hjs.
  - cbn [appStep]. apply Rendered. apply onPage_id, resumeTimerFired_idle, Hrs.
  - cbn [appStep]. rewrite Hu. destruct a; cbn. discriminate.
Qed.

Lemma AppInv_init (configured ios : bool) : AppInv (appInit configured ios).
Proof.
  split; [discriminate|]. intros _. cbn. intros _.
  unfold NotStarted, Pristine; cbn. repeat split; reflexivity.
Qed.

Lemma AppInv_step (ev : AppEvent) (a : App) : AppInv a -> AppInv (appStep ev a).
Proof.
  intros [I1 I2]. split.
  - intros Hu'. destruct (unmounted a) eqn:Hu.
    + apply appStep_effect_gone; auto.
    + apply appStep_unmounts; assumption.
  - intros Hm'. destruct (mountedRef a) eqn:Hm;
      [| rewrite appStep_ref_mono in Hm' by exact Hm; discriminate].
    specialize (I2 eq_refl).
    destruct (clientEffectEnv a) as [[env hb]|] eqn:E.
    + rewrite (appStep_effect_kept ev a (env, hb) E Hm'). exact I2.
    + destruct (unmounted a) eqn:Hu.
      * rewrite appStep_effect_gone by assumption. intros Hu'.
        rewrite appStep_unmounted_mono in Hu' by exact Hu. discriminate.
      * apply NotStarted_step; auto.
Qed.

Lemma AppInv_run (es : list AppEvent) : forall a, AppInv a -> AppInv (appRun es a).
Proof.
  induction es as [|e es IH]; intros a I; cbn [appRun]; [exact I|].
  apply IH, AppInv_step, I.
Qed.

Lemma Reachable_inv (a : App) : Reachable a -> AppInv a.
Proof. intros (cf & ios & es & ->). apply AppInv_run, AppInv_init. Qed.

(** While the ref is true the handlers of the transport are those of a
    pristine render. *)
Lemma Reachable_handlers (a : App) (env hbEnv : RState) :
  Reachable a -> mountedRef a = true -> clientEffectEnv a = Some (env, hbEnv) ->
  Pristine env /\ Pristine hbEnv.
Proof.
  intros R Hm E. destruct (Reachable_inv a R) as [_ I]. specialize (I Hm).
  rewrite E in I. exact I.
Qed.

(** ** Start-up and the heartbeat interval *)

Lemma appRun_app (es es' : list AppEvent) (a : App) :
  appRun (es ++ es') a = appRun es' (appRun es a).
Proof. revert a. induction es as [|e es IH]; intros a; cbn; [reflexivity | apply IH]. Qed.

Lemma startup_state (ios : bool) (sdk c : nat) :
  appRun (startup sdk c) (appInit true ios)
  = let r1 := MkRState true false 0 75 false false None (Some c) None None false 0 false false in
    MkApp (MkPage (MkWorld r1 true None (Some initialRState) [] 1 [] ∅ None true)
             false None (Some sdk) true [] [])
      (Some (initialRState, initialRState)) r1 [] ios false.
Proof. reflexivity. Qed.

Lemma waiting_tick (ios : bool) (sdk c l n : nat) (b : bool) (cb : RState) :
  checkBroadcasterStatus_deps cb = (true, false, None, false, 0%nat, None) ->
  appStep (ATick (online n))
    (MkApp (MkPage (MkWorld (MkRState true false l 75 false false None (Some c) None None
                               false 0 false b)
                      true None (Some initialRState) [] 1 [] ∅ None true)
              false None (Some sdk) true [] [])
       (Some (initialRState, initialRState)) cb [] ios false)
  = MkApp (MkPage (MkWorld (MkRState true false n 75 false false None (Some c) None None
                              false 0 false true)
                     true None (Some initialRState) [] 1 [] ∅ None true)
             false None (Some sdk) true [] [])
      (Some (initialRState, initialRState)) cb [] ios false.
Proof.
  intros Hcb. cbn [appStep]. unfold render, live. cbn. rewrite Hcb.
  rewrite bool_decide_eq_true_2 by reflexivity. reflexivity.
Qed.

Lemma waiting_ticks (ios : bool) (sdk c : nat) (cb : RState) (counts : list nat) :
  checkBroadcasterStatus_deps cb = (true, false, None, false, 0%nat, None) ->
  forall (l : nat) (b : bool) (n : nat),
  appRun (map (fun n => ATick (online n)) (counts ++ [n]))
    (MkApp (MkPage (MkWorld (MkRState true false l 75 false false None (Some c) None None
                               false 0 false b)
                      true None (Some initialRState) [] 1 [] ∅ None true)
              false None (Some sdk) true [] [])
       (Some (initialRState, initialRState)) cb [] ios false)
  = MkApp (MkPage (MkWorld (MkRState true false n 75 false false None (Some c) None None
                              false 0 false true)
                     true None (Some initialRState) [] 1 [] ∅ None true)
             false None (Some sdk) true [] [])
      (Some (initialRState, initialRState)) cb [] ios false.
Proof.
  intros Hcb. induction counts as [|k counts IH]; intros l b n; cbn [app map appRun].
  - apply waiting_tick, Hcb.
  - rewrite waiting_tick by exact Hcb. apply IH.
Qed.

(** C1 (what the code does at the failing input).  After a start-up in
    which the SDK loads and the first join succeeds, the heartbeat interval
    runs the [checkBroadcasterStatus] of the render in which the client
    effect ran, and in that render [isConnected] is false.  So when every
    tick finds the broadcaster online while the component is connected, not
    live and holds no track, with no attempt under way and none used, no
    reconnection is started, however many ticks pass: the component is not
    reconnecting, the counter is 0, nothing is scheduled and the page stays
    on 'waiting'. *)
Theorem stuck_state_is_never_detected
    (ios : bool) (sdk agoraClient : nat) (counts : list nat) (listeners : nat) :
  let ticks := map (fun n => ATick (online n)) (counts ++ [listeners]) in
  let a := appRun (startup sdk agoraClient ++ ticks) (appInit true ios) in
  mountedRef a = true /\
  client (live a) = Some agoraClient /\
  isConnected (live a) = true /\
  isLive (live a) = false /\
  remoteAudioTrack (live a) = None /\
  broadcasterOnline (live a) = true /\
  isReconnecting (live a) = false /\
  reconnectCount (live a) = 0%nat /\
  pendingAttempts (world (page a)) = 0%nat /\
  pageView (page a)
  = Player (MkStreamStatus StWaiting "Broadcaster online, establishing audio...").
Proof.
  cbv zeta. rewrite appRun_app, startup_state. cbv zeta.
  rewrite waiting_ticks by reflexivity. cbn. repeat split; reflexivity.
Qed.

(** The render the interval of [startupSeen] closes over. *)
Lemma startupSeen_state (ios : bool) (sdk c : nat) :
  appRun (startupSeen sdk c) (appInit true ios)
  = let r1 := MkRState true false 0 75 false false None (Some c) None None false 0 false false in
    MkApp (MkPage (MkWorld r1 true None (Some r1) [] 1 [] ∅ None true)
             false None (Some sdk) true [] [])
      (Some (initialRState, initialRState)) r1 [] ios false.
Proof. reflexivity. Qed.

Lemma app_tick_world (res : PollResult) (a : App) :
  world (page (appStep (ATick res) a)) = step (EvHeartbeatTick res) (world (page a)).
Proof. cbn [appStep step]. rewrite render_page, onPage_page, onWorld_world. reflexivity. Qed.

Lemma app_ticks_world (res : PollResult) (n : nat) :
  forall a,
  world (page (appRun (replicate n (ATick res)) a))
  = run (replicate n (EvHeartbeatTick res)) (world (page a)).
Proof.
  induction n as [|n IH]; intros a; cbn [replicate appRun run]; [reflexivity|].
  rewrite IH, app_tick_world. reflexivity.
Qed.

Lemma stuck_ticks_run (env : RState) (res : PollResult) (n : nat) :
  stuckView env = true ->
  reportsOnline res = true ->
  forall w,
  heartbeatIntervalRef w = Some env ->
  isComponentMountedRef w = true ->
  let w' := run (replicate n (EvHeartbeatTick res)) w in
  length (timers w') = (length (timers w) + n)%nat /\
  joining w' = joining w /\
  reconnectCount (rstate w') = (reconnectCount (rstate w) + n)%nat /\
  isComponentMountedRef w' = true /\
  (isReconnecting (rstate w') = true \/ n = 0%nat).
Proof.
  intros Hs Hres. induction n as [|n IH]; intros w Hhb Hm; cbn [replicate run].
  - cbv zeta. repeat split; auto; lia.
  - destruct (stuck_tick_schedules w env res Hhb Hs Hres Hm) as (Hsch & Hhb' & Hm').
    cbv zeta in *. destruct (IH _ Hhb' Hm') as (I1 & I2 & I3 & I4 & I5).
    destruct Hsch as ([tm S1] & S2 & S3 & S4 & S5).
    rewrite I1, I2, I3, S1, S2, S4, length_app. cbn.
    repeat split; try lia; try assumption.
    left. destruct I5 as [I5 | ->]; [exact I5 | exact S3].
Qed.

(** C2 (what the code does at the failing input).  When the transport
    reports CONNECTED and the page becomes visible before the awaited join
    returns, the visibility handler starts the interval with the
    [checkBroadcasterStatus] of a connected render.  That closure goes on
    seeing [isReconnecting = false]: each of [n] ticks that find the
    broadcaster online schedules one more attempt, so [n] attempts are
    pending at once and the counter is [n]. *)
Theorem stale_interval_breaks_single_flight
    (ios : bool) (sdk agoraClient listeners n : nat) :
  let a := appRun (startupSeen sdk agoraClient ++ replicate n (ATick (online listeners)))
             (appInit true ios) in
  mountedRef a = true /\
  length (timers (world (page a))) = n /\
  pendingAttempts (world (page a)) = n /\
  reconnectCount (live a) = n /\
  ((1 <= n)%nat -> isReconnecting (live a) = true).
Proof.
  cbv zeta. rewrite appRun_app, startupSeen_state. cbv zeta.
  unfold mountedRef, live, pendingAttempts. rewrite app_ticks_world.
  match goal with
  | |- context [run _ ?w] =>
      destruct (stuck_ticks_run
                  (MkRState true false 0 75 false false None (Some agoraClient) None None
                     false 0 false false)
                  (online listeners) n eq_refl eq_refl w eq_refl eq_refl)
        as (H1 & H2 & H3 & H4 & H5)
  end.
  cbv zeta in *. rewrite H1, H2, H3. cbn.
  repeat split; try lia; try assumption.
  intros Hn. destruct H5 as [H5 | ->]; [exact H5 | lia].
Qed.

Lemma app_failOnce_world (message : string) (a : App) :
  world (page (appFailOnce message a)) = failOnce message (world (page a)).
Proof.
  unfold appFailOnce, failOnce.
  destruct (reconnectTimeoutRef (world (page a))) as [id|]; [| reflexivity].
  cbn [appStep]. unfold andThen.
  rewrite !render_page, !onPage_page, !onWorld_world, render_page, onPage_page, onWorld_world.
  reflexivity.
Qed.

Lemma app_failOnce_iter (message : string) (n : nat) (a : App) :
  world (page (Nat.iter n (appFailOnce message) a))
  = Nat.iter n (failOnce message) (world (page a)).
Proof.
  induction n as [|n IH]; [reflexivity|].
  change (Nat.iter (S n) (appFailOnce message) a)
    with (appFailOnce message (Nat.iter n (appFailOnce message) a)).
  change (Nat.iter (S n) (failOnce message) (world (page a)))
    with (failOnce message (Nat.iter n (failOnce message) (world (page a)))).
  rewrite app_failOnce_world, IH. reflexivity.
Qed.

(** A tick whose poll returns no data changes nothing on the page. *)
Lemma tick_without_data (a : App) : page (appStep (ATick PollNoData) a) = page a.
Proof.
  cbn [appStep]. rewrite render_page, onPage_page. apply onWorld_id.
  unfold heartbeatTick. destruct (heartbeatIntervalRef (world (page a))); reflexivity.
Qed.

(** The world of [staleChain], in full. *)
Lemma staleChain_world (ios : bool) (sdk c listeners : nat) (message : string) (n : nat) :
  world (page (staleChain ios sdk c listeners message n))
  = let r1 := MkRState true false 0 75 false false None (Some c) None None false 0 false false in
    MkWorld
      (withAttempt (S n)
         (MkRState true false listeners 75 false false
            (Some "Broadcaster detected but audio not received - reconnecting...")
            (Some c) None None false 0 false true))
      true (Some (1 + n)%nat) (Some r1)
      [((1 + n)%nat, MkTimer (reconnectDelay 0) r1)] (S (1 + n)) [] ∅ None true.
Proof.
  unfold staleChain. rewrite app_failOnce_iter, appRun_app, startupSeen_state. cbv zeta.
  cbn [appRun]. rewrite app_tick_world.
  set (r1 := MkRState true false 0 75 false false None (Some c) None None false 0 false false).
  set (wS := MkWorld
               (MkRState true false listeners 75 false false
                  (Some "Broadcaster detected but audio not received - reconnecting...")
                  (Some c) None None false 0 false true)
               true None (Some r1) [] 1 [] ∅ None true).
  change (step (EvHeartbeatTick (online listeners)) _) with (attemptReconnection r1 wS).
  rewrite (chain_closed_form r1 message wS n eq_refl). reflexivity.
Qed.

(** C3 (what the code does at the failing input).  In the chain started
    by the first such tick, every failed rejoin calls the
    [attemptReconnection] of the same render again, and the
    [reconnectCount] of that render is 0 for good.  After [n] failures in a
    row, for every [n] and for 20 in particular, the component is still
    reconnecting, the counter is [n + 1] and one more attempt is scheduled:
    the terminal branch is never reached. *)
Theorem retry_chain_never_gives_up
    (ios : bool) (sdk agoraClient listeners : nat) (message : string) (n : nat) :
  let a := staleChain ios sdk agoraClient listeners message n in
  mountedRef a = true /\
  isReconnecting (live a) = true /\
  reconnectCount (live a) = S n /\
  pendingAttempts (world (page a)) = 1%nat /\
  connectionError (live a) = None.
Proof.
  cbv zeta. unfold mountedRef, live. rewrite staleChain_world. cbv zeta.
  cbn. repeat split; reflexivity.
Qed.

Section BackoffOfAChain.

Local Open Scope Q_scope.

Lemma Math_pow_Qpower (n : nat) : Math_pow (12 # 10) n == (12 # 10) ^ Z.of_nat n.
Proof.
  induction n as [|n IH]; [reflexivity|].
  cbn [Math_pow]. rewrite Nat2Z.inj_succ, <- Z.add_1_l.
  rewrite Qpower_plus by discriminate. rewrite IH. reflexivity.
Qed.

Lemma reconnectDelay_Qpower (i : nat) :
  reconnectDelay i == Qmin (500 * (12 # 10) ^ Z.of_nat i) 3000.
Proof. unfold reconnectDelay. rewrite Math_pow_Qpower. reflexivity. Qed.

Lemma reconnectDelay_grows_at_first (n : nat) :
  (1 <= n)%nat -> reconnectDelay 0 < reconnectDelay n.
Proof.
  intros Hn. apply Qlt_le_trans with (reconnectDelay 1).
  - vm_compute. reflexivity.
  - apply (reconnectDelay_monotone_capped 1 n Hn).
Qed.

(** C4 (what the code does at the failing input).  The delay is computed
    from the [reconnectCount] of the closure by the formula of the claim:
    [reconnectDelay i] is [min(500 * 1.2^i, 3000)] (as exact rationals; the
    code rounds to doubles).  But every attempt of a chain is scheduled by
    the same closure: after [n] failures the counter shows [n + 1] attempts
    and the pending timer still waits [reconnectDelay 0], which is 500 ms,
    less than the [min(500 * 1.2^n, 3000)] of the attempt's index as soon
    as [n >= 1]. *)
Theorem retry_delay_does_not_grow
    (ios : bool) (sdk agoraClient listeners : nat) (message : string) (n : nat) :
  let a := staleChain ios sdk agoraClient listeners message n in
  reconnectCount (live a) = S n /\
  map (fun t => timerDelay (snd t)) (timers (world (page a))) = [reconnectDelay 0] /\
  reconnectDelay 0 == 500 /\
  (forall i : nat, reconnectDelay i == Qmin (500 * (12 # 10) ^ Z.of_nat i) 3000) /\
  ((1 <= n)%nat -> reconnectDelay 0 < Qmin (500 * (12 # 10) ^ Z.of_nat n) 3000).
Proof.
  cbv zeta. unfold live. rewrite staleChain_world. cbv zeta.
  split; [reflexivity|]. split; [reflexivity|]. split; [reflexivity|].
  split; [exact reconnectDelay_Qpower|].
  intros Hn. rewrite <- reconnectDelay_Qpower. apply reconnectDelay_grows_at_first, Hn.
Qed.

End BackoffOfAChain.

(** ** The publish handler *)

Lemma setVolume_keeps_playing (m : gmap nat Track) (t0 t : nat) (v : Z) (tr' : Track) :
  alter (fun tr => MkTrack v (trackPlaying tr)) t0 m !! t = Some tr' ->
  exists tr, m !! t = Some tr /\ trackPlaying tr = trackPlaying tr'.
Proof.
  destruct (decide (t0 = t)) as [->|Hne].
  - rewrite lookup_alter_eq. destruct (m !! t) as [tr|]; cbn; [| discriminate].
    intros [= <-]. eauto.
  - rewrite lookup_alter_ne by exact Hne. eauto.
Qed.

Lemma subscribed_not_playing (m : gmap nat Track) (t0 t : nat) (tr' : Track) :
  m !! t0 = None ->
  <[t0 := MkTrack 100 false]> m !! t = Some tr' -> trackPlaying tr' = true ->
  m !! t = Some tr'.
Proof.
  intros Hnew. destruct (decide (t0 = t)) as [->|Hne].
  - rewrite lookup_insert_eq. intros [= <-]. discriminate.
  - rewrite lookup_insert_ne by exact Hne. auto.
Qed.

Lemma published_unmounted
    (env : RState) (m : MediaType) (sub : SubscribeOutcome) (playOk : bool) (w : World) :
  isComponentMountedRef w = false ->
  (agoraClient_subscribe m sub >>> user_published env m sub playOk) w = w.
Proof.
  intros H. unfold andThen, agoraClient_subscribe, user_published.
  rewrite H, andb_false_r. rewrite H, andb_false_r. reflexivity.
Qed.

Lemma published_no_resume
    (env : RState) (m : MediaType) (sub : SubscribeOutcome) (playOk : bool) (w : World) :
  wasPlayingBeforeDisconnect env = false ->
  let w' := (agoraClient_subscribe m sub >>> user_published env m sub playOk) w in
  isPlaying (rstate w') = isPlaying (rstate w) /\
  wasPlayingBeforeDisconnect (rstate w') = wasPlayingBeforeDisconnect (rstate w) /\
  forall t tr', tracks w' !! t = Some tr' -> trackPlaying tr' = true ->
    exists tr, tracks w !! t = Some tr /\ trackPlaying tr = true.
Proof.
  intros Hflag. cbv zeta.
  destruct (isComponentMountedRef w) eqn:Hm;
    [| rewrite published_unmounted by exact Hm; eauto].
  unfold andThen, agoraClient_subscribe, user_published. rewrite Hm, Hflag.
  destruct m; cbn [isAudio andb]; [| eauto].
  destruct sub as [t0|msg].
  - unfold when, skip, andThen, track_setVolume.
    destruct (tracks w !! t0) as [tr0|] eqn:Ht0.
    + rewrite Hm. cbn [andb]. open_world w; cbn in *.
      split; [reflexivity|]. split; [reflexivity|].
      intros t tr' H1 H2. apply setVolume_keeps_playing in H1 as (tr & H1 & H3).
      exists tr. split; [exact H1 | congruence].
    + open_world w; cbn in *. subst. cbn.
      split; [reflexivity|]. split; [reflexivity|].
      intros t tr' H1 H2. apply setVolume_keeps_playing in H1 as (tr & H1 & H3).
      exists tr. split; [| congruence].
      eapply subscribed_not_playing; [exact Ht0 | exact H1 | congruence].
  - rewrite Hm. cbn [andb]. open_world w; cbn. eauto.
Qed.

(** C6 (what the code does).  In every state the component can reach, a
    publish event leaves [isPlaying] and [wasPlayingBeforeDisconnect] as
    they are and starts no track.  The handler in place belongs to the
    first run of the client effect, whose render has
    [wasPlayingBeforeDisconnect = false], or else the mounted flag has been
    dropped and the handler returns at once.  So a flag that is set is
    neither acted upon nor cleared. *)
Theorem publish_never_resumes
    (configured ios : bool) (es : list AppEvent)
    (mediaType : MediaType) (sub : SubscribeOutcome) (playOk : bool) :
  let a := appRun es (appInit configured ios) in
  let a' := appStep (APublished mediaType sub playOk) a in
  isPlaying (live a') = isPlaying (live a) /\
  wasPlayingBeforeDisconnect (live a') = wasPlayingBeforeDisconnect (live a) /\
  forall t tr', tracks (world (page a')) !! t = Some tr' -> trackPlaying tr' = true ->
    exists tr, tracks (world (page a)) !! t = Some tr /\ trackPlaying tr = true.
Proof.
  cbv zeta. set (a := appRun es (appInit configured ios)).
  assert (R : Reachable a) by (exists configured, ios, es; reflexivity).
  clearbody a. cbn [appStep].
  destruct (clientEffectEnv a) as [[env hb]|] eqn:E; [| eauto].
  unfold live. rewrite render_page, onPage_page, onWorld_world.
  destruct (mountedRef a) eqn:Hm.
  - destruct (Reachable_handlers a env hb R Hm E) as [P _].
    apply published_no_resume. apply P.
  - unfold mountedRef in Hm. rewrite published_unmounted by exact Hm. eauto.
Qed.

Lemma republish_finds_flag_set :
  let a := appRun republishTrace (appInit true false) in
  let a' := appStep (APublished audio (Subscribed 8) true) a in
  mountedRef a = true /\
  wasPlayingBeforeDisconnect (live a) = true /\
  isLive (live a') = true /\
  remoteAudioTrack (live a') = Some 8%nat /\
  tracks (world (page a')) !! 8%nat = Some (MkTrack 75 false) /\
  isPlaying (live a') = false /\
  wasPlayingBeforeDisconnect (live a') = true.
Proof. cbv zeta. repeat split; reflexivity. Qed.

(** ** Transport reports *)

Lemma handleDisconnection_pristine (env : RState) (w : World) :
  Pristine env ->
  handleDisconnection env w
  = if isComponentMountedRef w
    then set (fun r =>
                setRemoteMediaStreamTrack None
                  (setConnectionError (Some "Connection lost - attempting to reconnect...")
                     (setIsPlaying false
                        (setIsLive false
                           (setIsConnected false
                              (setWasPlayingBeforeDisconnect false r)))))) w
    else w.
Proof.
  intros (_ & _ & Hp & _ & Ht & _ & _ & Hc & _).
  rewrite handleDisconnection_unfold.
  destruct (isComponentMountedRef w) eqn:Hm; [| reflexivity].
  unfold when. destruct (_ && _).
  - rewrite attemptReconnection_skips
      by (unfold canAttempt; rewrite Hc; reflexivity).
    unfold markDisconnected, andThen, skip. rewrite Hp, Ht. destruct w; reflexivity.
  - unfold markDisconnected, andThen, skip. rewrite Hp, Ht. destruct w; reflexivity.
Qed.

Lemma connection_state_changed_pristine
    (env : RState) (curState : ConnectionStateName) (reason : string) (w : World) :
  Pristine env ->
  connection_state_changed env curState reason w
  = match curState with
    | CONNECTED => set (fun r => setIsConnected true (setConnectionError None r)) w
    | FAILED =>
        handleDisconnection env
          (set (setConnectionError (Some ("Connection failed: " ++ reason))) w)
    | RECONNECTING =>
        set (setConnectionError (Some "Connection unstable, reconnecting...")) w
    | _ => w
    end.
Proof.
  intros (Hc & _). unfold connection_state_changed, andThen, when, skip. rewrite Hc.
  destruct curState, w; reflexivity.
Qed.

Lemma exception_pristine (env : RState) (code : string) (msg : option string) (w : World) :
  Pristine env ->
  exception env code msg w
  = set (setConnectionError
           (Some ("Stream error: " ++ code ++ " - " ++ orString msg "Unknown error"))) w.
Proof.
  intros (Hc & _). unfold exception, andThen, when, skip. rewrite Hc, andb_false_r.
  reflexivity.
Qed.

Lemma untouched_refl (w : World) : attemptsUntouched w w.
Proof. repeat split; reflexivity. Qed.

Lemma untouched_set (f : RState -> RState) (w : World) :
  isReconnecting (f (rstate w)) = isReconnecting (rstate w) ->
  reconnectCount (f (rstate w)) = reconnectCount (rstate w) ->
  attemptsUntouched w (set f w).
Proof. destruct w; cbn. intros H1 H2. repeat split; assumption. Qed.

Lemma transport_pristine_untouched (env : RState) (w : World) :
  Pristine env ->
  (forall curState reason,
     attemptsUntouched w (connection_state_changed env curState reason w)) /\
  (forall code msg, attemptsUntouched w (exception env code msg w)).
Proof.
  intros P. split.
  - intros curState reason. rewrite connection_state_changed_pristine by exact P.
    destruct curState; try apply untouched_refl.
    + apply untouched_set; destruct (rstate w); reflexivity.
    + rewrite handleDisconnection_pristine by exact P.
      destruct w as [r mo rt hb ts nx js tr db cf]; destruct r, mo; cbn;
        repeat split; reflexivity.
    + apply untouched_set; destruct (rstate w); reflexivity.
  - intros code msg. rewrite exception_pristine by exact P.
    apply untouched_set; destruct (rstate w); reflexivity.
Qed.

Lemma transport_unmounted_untouched (env : RState) (w : World) :
  isComponentMountedRef w = false ->
  (forall curState reason,
     attemptsUntouched w (connection_state_changed env curState reason w)) /\
  (forall code msg, attemptsUntouched w (exception env code msg w)).
Proof.
  intros Hm. split.
  - intros curState reason. unfold connection_state_changed, andThen, when, skip.
    destruct curState; try apply untouched_refl.
    + destruct w as [r mo rt hb ts nx js tr db cf]; destruct r; repeat split; reflexivity.
    + destruct (_ && _); [| apply untouched_refl].
      rewrite handleDisconnection_unmounted by exact Hm. apply untouched_refl.
    + rewrite handleDisconnection_unmounted
        by (destruct w; exact Hm).
      apply untouched_set; destruct (rstate w); reflexivity.
    + apply untouched_set; destruct (rstate w); reflexivity.
  - intros code msg. unfold exception, andThen, when, skip.
    destruct (_ && _).
    + rewrite handleDisconnection_unmounted by (destruct w; exact Hm).
      apply untouched_set; destruct (rstate w); reflexivity.
    + apply untouched_set; destruct (rstate w); reflexivity.
Qed.

(** X4. No event of the transport ever starts a reconnection attempt.
    While the mounted flag is set, the transport handlers in place are those
    of the first run of the client effect, whose render has [client = null],
    so their [attemptReconnection] returns at once; once the flag is
    dropped, [handleDisconnection] returns at once.  In every state the
    component can reach, a publish, unpublish, connection-state or exception
    event leaves the timers, the suspended rejoins, [isReconnecting] and
    [reconnectCount] as they are. *)
Theorem transport_never_reconnects
    (configured ios : bool) (es : list AppEvent)
    (mediaType : MediaType) (sub : SubscribeOutcome) (playOk : bool)
    (curState : ConnectionStateName) (reason code : string) (msg : option string) :
  let a := appRun es (appInit configured ios) in
  let after ev := world (page (appStep ev a)) in
  attemptsUntouched (world (page a)) (after (APublished mediaType sub playOk)) /\
  attemptsUntouched (world (page a)) (after (AUnpublished mediaType)) /\
  attemptsUntouched (world (page a)) (after (AConnectionState curState reason)) /\
  attemptsUntouched (world (page a)) (after (AException code msg)).
Proof.
  cbv zeta. set (a := appRun es (appInit configured ios)).
  assert (R : Reachable a) by (exists configured, ios, es; reflexivity).
  clearbody a. cbn [appStep].
  destruct (clientEffectEnv a) as [[env hb]|] eqn:E;
    [| repeat split; reflexivity].
  rewrite !render_page, !onPage_page, !onWorld_world.
  assert (T : (forall curState reason,
                 attemptsUntouched (world (page a))
                   (connection_state_changed env curState reason (world (page a)))) /\
              (forall code msg,
                 attemptsUntouched (world (page a)) (exception env code msg (world (page a))))).
  { destruct (mountedRef a) eqn:Hm.
    - apply transport_pristine_untouched. apply (Reachable_handlers a env hb R Hm E).
    - apply transport_unmounted_untouched. exact Hm. }
  destruct T as [T1 T2].
  split; [| split; [| split]].
  - unfold andThen.
    eapply untouched_trans;
      [| apply (quiet_step (EvUserPublished env mediaType sub playOk)); reflexivity].
    unfold agoraClient_subscribe.
    destruct (world (page a)) as [r mo rt hb' ts nx js tr db cf].
    destruct (isAudio mediaType && _), sub as [t|m]; cbn; try destruct (tr !! t);
      repeat split; reflexivity.
  - apply (quiet_step (EvUserUnpublished mediaType)). reflexivity.
  - apply T1.
  - apply T2.
Qed.

(** X12. A FAILED report on a mounted component with its client effect in
    place marks the component disconnected, not live and not playing with
    the text "Connection lost - attempting to reconnect...", and records
    [wasPlayingBeforeDisconnect = false] whatever the listener was doing:
    the handler reads the [isPlaying] and the [remoteAudioTrack] of the
    first effect render.  The handle is kept, no track is stopped, no
    attempt is started and the interval is left alone.  A DISCONNECTED
    report changes nothing on the page. *)
Theorem failed_report_keeps_track
    (configured ios : bool) (es : list AppEvent) (reason : string) :
  let a := appRun es (appInit configured ios) in
  let a' := appStep (AConnectionState FAILED reason) a in
  mountedRef a = true ->
  isSome (clientEffectEnv a) = true ->
  (isConnected (live a') = false /\
   isLive (live a') = false /\
   isPlaying (live a') = false /\
   wasPlayingBeforeDisconnect (live a') = false /\
   connectionError (live a') = Some "Connection lost - attempting to reconnect...") /\
  (remoteAudioTrack (live a') = remoteAudioTrack (live a) /\
   tracks (world (page a')) = tracks (world (page a))) /\
  (attemptsUntouched (world (page a)) (world (page a')) /\
   heartbeatIntervalRef (world (page a')) = heartbeatIntervalRef (world (page a)) /\
   mountedRef a' = true) /\
  page (appStep (AConnectionState DISCONNECTED reason) a) = page a.
Proof.
  cbv zeta. set (a := appRun es (appInit configured ios)).
  assert (R : Reachable a) by (exists configured, ios, es; reflexivity).
  clearbody a. intros Hm He. cbn [appStep].
  destruct (clientEffectEnv a) as [[env hb]|] eqn:E; [| discriminate He].
  destruct (Reachable_handlers a env hb R Hm E) as [P _].
  unfold live, mountedRef in *. rewrite !render_page, !onPage_page, !onWorld_world.
  rewrite !connection_state_changed_pristine by exact P.
  rewrite handleDisconnection_pristine by exact P.
  split; [| split; [| split]].
  - destruct (world (page a)) as [r mo rt hb' ts nx js tr db cf]; destruct r; cbn in *.
    subst mo. cbn. repeat split; reflexivity.
  - destruct (world (page a)) as [r mo rt hb' ts nx js tr db cf]; destruct r; cbn in *.
    subst mo. cbn. split; reflexivity.
  - destruct (world (page a)) as [r mo rt hb' ts nx js tr db cf]; destruct r; cbn in *.
    subst mo. cbn. repeat split; reflexivity.
  - rewrite onWorld_id; [reflexivity|].
    rewrite connection_state_changed_pristine by exact P. reflexivity.
Qed.

Lemma failed_report_keeps_track_witness :
  let a := appRun playingTrace (appInit true false) in
  let a' := appStep (AConnectionState FAILED "NETWORK_ERROR") a in
  (isPlaying (live a) = true /\
   tracks (world (page a)) !! 7%nat = Some (MkTrack 75 true)) /\
  (wasPlayingBeforeDisconnect (live a') = false /\
   isPlaying (live a') = false /\
   remoteAudioTrack (live a') = Some 7%nat /\
   tracks (world (page a')) !! 7%nat = Some (MkTrack 75 true) /\
   pendingAttempts (world (page a')) = 0%nat).
Proof.
  pose proof (failed_report_keeps_track true false playingTrace "NETWORK_ERROR"
                eq_refl eq_refl) as H.
  cbv zeta in H. destruct H as ((_ & _ & H3 & H4 & _) & (H6 & H7) & _ & _).
  cbv zeta. split; [split; reflexivity|].
  split; [exact H4|]. split; [exact H3|].
  split; [rewrite H6; reflexivity|]. split; [rewrite H7; reflexivity | reflexivity].
Defined.

(** ** What a re-run of the client effect leaves alone *)

Lemma gatesKept_trans (a a1 a2 : App) : gatesKept a a1 -> gatesKept a1 a2 -> gatesKept a a2.
Proof.
  intros (H1 & H2 & H3 & H4 & H5 & H6 & H7) (K1 & K2 & K3 & K4 & K5 & K6 & K7).
  unfold gatesKept. rewrite K1, K2, K4, K5, K6, K7.
  repeat split; try assumption.
  destruct K3 as [K3 | K3]; [rewrite K3; exact H3 | right; exact K3].
Qed.

Lemma settingsKept_trans (a a1 a2 : App) :
  settingsKept a a1 -> settingsKept a1 a2 -> settingsKept a a2.
Proof.
  intros (H1 & H2 & H3 & H4 & H5) (K1 & K2 & K3 & K4 & K5).
  unfold settingsKept. rewrite K1, K2, K3, K4.
  repeat split; try assumption. intros t. rewrite K5. apply H5.
Qed.

Lemma kept_render (a : App) : gatesKept a (render a) /\ settingsKept a (render a).
Proof.
  unfold gatesKept, settingsKept.
  rewrite render_live, render_page, render_isIOS, render_unmounted.
  repeat split; auto.
Qed.

Lemma stop_keeps_volume (m : gmap nat Track) (t0 t : nat) :
  trackVolume <$> alter (fun tr => MkTrack (trackVolume tr) false) t0 m !! t
  = trackVolume <$> m !! t.
Proof.
  destruct (decide (t0 = t)) as [->|Hne].
  - rewrite lookup_alter_eq. destruct (m !! t); reflexivity.
  - rewrite lookup_alter_ne by exact Hne. reflexivity.
Qed.

Lemma cleanupClient_frame (env : RState) (w : World) :
  let w' := cleanupClient env w in
  rstate w' = rstate w /\
  configured w' = configured w /\
  debouncedVolumeChange w' = debouncedVolumeChange w /\
  isComponentMountedRef w' = false /\
  heartbeatIntervalRef w' = None /\
  (forall t, trackVolume <$> tracks w' !! t = trackVolume <$> tracks w !! t) /\
  (forall t, remoteAudioTrack env = Some t ->
     trackPlaying <$> tracks w' !! t = (fun _ => false) <$> tracks w !! t).
Proof.
  cbv zeta. unfold cleanupClient, andThen, clearTimeout, stopHeartbeat, track_stop, skip.
  destruct w as [r mo rt hb ts nx js tr db cf]; cbn.
  destruct rt as [id|], hb as [h|], (remoteAudioTrack env) as [t0|]; cbn;
    repeat split; try reflexivity; try discriminate;
    try (intros t; apply stop_keeps_volume);
    intros t [= ->]; rewrite lookup_alter_eq; destruct (tr !! t); reflexivity.
Qed.

Lemma kept_runClientEffect (c : nat) (a : App) :
  gatesKept a (runClientEffect c a) /\ settingsKept a (runClientEffect c a).
Proof.
  unfold runClientEffect.
  set (a1 := match clientEffectEnv a with
             | Some (env, _) => onPage (onWorld (cleanupClient env)) a
             | None => a
             end).
  assert (K1 : gatesKept a a1 /\ settingsKept a a1).
  { subst a1. destruct (clientEffectEnv a) as [[env hb]|].
    - destruct (cleanupClient_frame env (world (page a))) as (F1 & F2 & F3 & F4 & F5 & F6 & _).
      unfold gatesKept, settingsKept, live.
      rewrite onPage_page, onWorld_world, F1, F3.
      destruct a as [p ef cb jp ios um]; destruct p; cbn in *.
      repeat split; auto.
    - unfold gatesKept, settingsKept. repeat split; auto. }
  clearbody a1. destruct K1 as [G1 S1].
  assert (K2 : gatesKept a1
                 (if negb (isSome (AgoraRTC (page a1))) || isSDKLoading (page a1)
                  then setClientEffectEnv None a1
                  else joinChannel_call (live a1) (cbEnv a1)
                         (setClientEffectEnv (Some (live a1, cbEnv a1))
                            (onPage (clientEffect c) a1))) /\
               settingsKept a1
                 (if negb (isSome (AgoraRTC (page a1))) || isSDKLoading (page a1)
                  then setClientEffectEnv None a1
                  else joinChannel_call (live a1) (cbEnv a1)
                         (setClientEffectEnv (Some (live a1, cbEnv a1))
                            (onPage (clientEffect c) a1)))).
  { unfold gatesKept, settingsKept, joinChannel_call, clientEffect, joinChannel, live.
    destruct a1 as [p ef cb jp ios um]; destruct p as [w l se sdk hs jr rs];
      destruct w as [r mo rt hb ts nx js tr db cf]; destruct r; cbn.
    destruct sdk, l, cf, mo; cbn; repeat split; auto. }
  destruct K2 as [G2 S2].
  split; [eapply gatesKept_trans | eapply settingsKept_trans]; eassumption.
Qed.

Lemma kept_commit (before : App) (c : nat) (a : App) :
  gatesKept a (commit before c a) /\ settingsKept a (commit before c a).
Proof.
  unfold commit. destruct (kept_render a) as [G1 S1].
  case_bool_decide; [split; assumption|].
  destruct (kept_runClientEffect c (render a)) as [G2 S2].
  destruct (kept_render (runClientEffect c (render a))) as [G3 S3].
  split.
  - eapply gatesKept_trans; [| exact G3]. eapply gatesKept_trans; eassumption.
  - eapply settingsKept_trans; [| exact S3]. eapply settingsKept_trans; eassumption.
Qed.

Lemma statusIs_reconnecting (l : bool) (r : RState) :
  statusIs StReconnecting l r
  = negb l && negb (truthy (connectionError r)) && isReconnecting r.
Proof.
  unfold statusIs, getStreamStatus.
  destruct l, (truthy (connectionError r)), (isReconnecting r), (isConnected r),
    (broadcasterOnline r), (isLive r); reflexivity.
Qed.

Lemma canToggleMute_spec (a : App) :
  canToggleMute a
  = negb (unmounted a) && negb (truthy (sdkError (page a)))
    && (isConnected (live a)
        && negb (negb (isSDKLoading (page a)) && negb (truthy (connectionError (live a)))
                 && isReconnecting (live a))
        && negb (isSDKLoading (page a))).
Proof.
  unfold canToggleMute, muteButtonDisabled, playerShown. rewrite statusIs_reconnecting.
  destruct (unmounted a), (truthy (sdkError (page a))), (isConnected (live a)),
    (isSDKLoading (page a)), (truthy (connectionError (live a))), (isReconnecting (live a));
    reflexivity.
Qed.

Lemma canMoveSlider_spec (a : App) :
  canMoveSlider a = canToggleMute a && negb (isIOS a) && negb (isMuted (live a)).
Proof.
  rewrite canToggleMute_spec.
  unfold canMoveSlider, volumeSliderDisabled, playerShown. rewrite statusIs_reconnecting.
  destruct (unmounted a), (truthy (sdkError (page a))), (isConnected (live a)),
    (isSDKLoading (page a)), (truthy (connectionError (live a))), (isReconnecting (live a)),
    (isIOS a), (isMuted (live a)); reflexivity.
Qed.

Lemma canToggleMute_kept (a a' : App) :
  gatesKept a a' -> canToggleMute a = true -> canToggleMute a' = true.
Proof.
  intros (H1 & H2 & H3 & H4 & H5 & H6 & H7). rewrite !canToggleMute_spec.
  rewrite H1, H2, H4, H5, H7.
  destruct H3 as [-> | ->]; [auto|].
  destruct (unmounted a), (truthy (sdkError (page a))), (isConnected (live a)),
    (isSDKLoading (page a)), (truthy (connectionError (live a))), (isReconnecting (live a));
    cbn; auto.
Qed.

Lemma canMoveSlider_kept (a a' : App) :
  gatesKept a a' -> isMuted (live a') = isMuted (live a) ->
  canMoveSlider a = true -> canMoveSlider a' = true.
Proof.
  intros G Hmu. rewrite !canMoveSlider_spec, Hmu.
  destruct G as (H1 & H2 & H3 & H4 & H5 & H6 & H7) eqn:EG. rewrite H6.
  intros H. apply andb_true_iff in H as [H Hx]. apply andb_true_iff in H as [H Hy].
  rewrite (canToggleMute_kept a a') by (try exact H; repeat split; assumption).
  rewrite Hx, Hy. reflexivity.
Qed.

(** ** Mute and volume at the controls *)

Lemma setVolume_volume (m : gmap nat Track) (t : nat) (v x : Z) :
  trackVolume <$> m !! t = Some x ->
  trackVolume <$> alter (fun tr => MkTrack v (trackPlaying tr)) t m !! t = Some v.
Proof.
  rewrite lookup_alter_eq. destruct (m !! t); cbn; [reflexivity | discriminate].
Qed.

Lemma toggle_step (a : App) (t : nat) (x : Z) (c : nat) :
  canToggleMute a = true ->
  remoteAudioTrack (live a) = Some t ->
  trackVolume <$> tracks (world (page a)) !! t = Some x ->
  let a' := appStep (AToggleMute None c) a in
  gatesKept a a' /\
  isMuted (live a') = negb (isMuted (live a)) /\
  volume (live a') = volume (live a) /\
  remoteAudioTrack (live a') = Some t /\
  debouncedVolumeChange (world (page a')) = debouncedVolumeChange (world (page a)) /\
  trackVolume <$> tracks (world (page a')) !! t
  = Some (if isMuted (live a) then volume (live a) else 0%Z) /\
  canToggleMute a' = true.
Proof.
  intros Hg He Ht. cbv zeta. cbn [appStep]. rewrite Hg.
  set (a1 := onPage (onWorld (toggleMute (live a) None)) a).
  assert (H1 : gatesKept a a1 /\
               isMuted (live a1) = negb (isMuted (live a)) /\
               volume (live a1) = volume (live a) /\
               remoteAudioTrack (live a1) = Some t /\
               debouncedVolumeChange (world (page a1)) = debouncedVolumeChange (world (page a)) /\
               trackVolume <$> tracks (world (page a1)) !! t
               = Some (if isMuted (live a) then volume (live a) else 0%Z)).
  { subst a1. unfold gatesKept, live in *. rewrite onPage_page, onWorld_world.
    unfold toggleMute. rewrite He. unfold andThen, track_setVolume.
    destruct a as [p ef cb jp ios um]; destruct p as [w l se sdk hs jr rs];
      destruct w as [r mo rt hb ts nx js tr db cf];
      destruct r as [ic il lc vo mu pl ce cl ra rm ir rc wp bo]; cbn in *.
    subst. destruct mu; cbn; rewrite (setVolume_volume _ _ _ x Ht);
      repeat split; auto. }
  clearbody a1. destruct H1 as (G1 & M1 & V1 & T1 & D1 & K1).
  destruct (kept_commit a c a1) as [G2 (M2 & V2 & T2 & D2 & K2)].
  assert (G : gatesKept a (commit a c a1)) by (eapply gatesKept_trans; eassumption).
  split; [exact G|].
  rewrite M2, V2, T2, D2, K2.
  repeat split; try assumption. eapply canToggleMute_kept; eassumption.
Qed.

Lemma volume_step (a : App) (v : Z) (c : nat) :
  canMoveSlider a = true ->
  let a' := appStep (AVolumeChange v c) a in
  gatesKept a a' /\
  isMuted (live a') = false /\
  volume (live a') = v /\
  remoteAudioTrack (live a') = remoteAudioTrack (live a) /\
  debouncedVolumeChange (world (page a'))
  = Some (MkVolumeCall v (remoteAudioTrack (live a)) false) /\
  (forall t, trackVolume <$> tracks (world (page a')) !! t
             = trackVolume <$> tracks (world (page a)) !! t) /\
  canMoveSlider a' = true.
Proof.
  intros Hg. cbv zeta. cbn [appStep]. rewrite Hg.
  pose proof (canMoveSlider_connected a Hg) as (_ & _ & Hmu & _).
  set (a1 := onPage (onWorld (handleVolumeChange (live a) v)) a).
  assert (H1 : gatesKept a a1 /\
               isMuted (live a1) = false /\
               volume (live a1) = v /\
               remoteAudioTrack (live a1) = remoteAudioTrack (live a) /\
               debouncedVolumeChange (world (page a1))
               = Some (MkVolumeCall v (remoteAudioTrack (live a)) false) /\
               tracks (world (page a1)) = tracks (world (page a))).
  { subst a1. unfold gatesKept, live in *. rewrite onPage_page, onWorld_world.
    unfold handleVolumeChange, debouncedVolumeChange_call, andThen, when. rewrite Hmu.
    destruct a as [p ef cb jp ios um]; destruct p as [w l se sdk hs jr rs];
      destruct w as [r mo rt hb ts nx js tr db cf]; destruct r; cbn in *.
    subst. repeat split; auto. }
  clearbody a1. destruct H1 as (G1 & M1 & V1 & T1 & D1 & K1).
  destruct (kept_commit a c a1) as [G2 (M2 & V2 & T2 & D2 & K2)].
  assert (G : gatesKept a (commit a c a1)) by (eapply gatesKept_trans; eassumption).
  split; [exact G|].
  rewrite M2, V2, T2, D2.
  repeat split; try assumption.
  - intros t. rewrite K2, K1. reflexivity.
  - eapply canMoveSlider_kept; [exact G | congruence | exact Hg].
Qed.

Lemma flush_step (a : App) (t : nat) (v x : Z) :
  debouncedVolumeChange (world (page a)) = Some (MkVolumeCall v (Some t) false) ->
  trackVolume <$> tracks (world (page a)) !! t = Some x ->
  let a' := appStep (AVolumeFlush true) a in
  trackVolume <$> tracks (world (page a')) !! t = Some v /\
  debouncedVolumeChange (world (page a')) = None /\
  live a' = live a.
Proof.
  intros Hd Ht. cbv zeta. cbn [appStep]. unfold live.
  rewrite render_page, onPage_page, onWorld_world.
  unfold debouncedVolumeChange_flush. rewrite Hd. cbn. unfold track_setVolume.
  destruct (world (page a)) as [r mo rt hb ts nx js tr db cf]; cbn in *.
  rewrite (setVolume_volume _ _ _ x Ht). auto.
Qed.

(** C9 (as amended).  At the controls.  A click on the enabled mute button
    of a component holding track [t] flips [isMuted], keeps the stored
    volume and sets the volume of [t] to 0 when muting and to the stored
    volume when unmuting; with no handle the click changes nothing on the
    page.  A move of the enabled slider stores the new volume at once and
    leaves the volume of every track alone until the debounced call runs;
    that call sets the volume of [t] when a handle was held and touches no
    track when none was. *)
Theorem volume_and_mute_requests
    (a : App) (t : nat) (x : Z) (newVolume : Z) (agoraClient : nat) (err : option string) :
  trackVolume <$> tracks (world (page a)) !! t = Some x ->
  (canToggleMute a = true -> remoteAudioTrack (live a) = Some t ->
   let a' := appStep (AToggleMute None agoraClient) a in
   isMuted (live a') = negb (isMuted (live a)) /\
   volume (live a') = volume (live a) /\
   trackVolume <$> tracks (world (page a')) !! t
   = Some (if isMuted (live a) then volume (live a) else 0%Z)) /\
  (remoteAudioTrack (live a) = None ->
   page (appStep (AToggleMute err agoraClient) a) = page a) /\
  (canMoveSlider a = true ->
   let a1 := appStep (AVolumeChange newVolume agoraClient) a in
   let a2 := appStep (AVolumeFlush true) a1 in
   volume (live a1) = newVolume /\
   isMuted (live a1) = false /\
   (forall t', trackVolume <$> tracks (world (page a1)) !! t'
               = trackVolume <$> tracks (world (page a)) !! t') /\
   volume (live a2) = newVolume /\
   (remoteAudioTrack (live a) = Some t ->
    trackVolume <$> tracks (world (page a2)) !! t = Some newVolume) /\
   (remoteAudioTrack (live a) = None ->
    tracks (world (page a2)) = tracks (world (page a1)))).
Proof.
  intros Ht. split; [| split].
  - intros Hg He. cbv zeta.
    destruct (toggle_step a t x agoraClient Hg He Ht) as (_ & H1 & H2 & _ & _ & H3 & _).
    auto.
  - intros He. cbn [appStep]. destruct (canToggleMute a); [| reflexivity].
    assert (Hid : onPage (onWorld (toggleMute (live a) err)) a = a).
    { apply onPage_id, onWorld_id. unfold toggleMute. rewrite He. reflexivity. }
    rewrite Hid. unfold commit. rewrite bool_decide_eq_true_2 by (rewrite render_page; reflexivity).
    apply render_page.
  - intros Hg. cbv zeta.
    destruct (volume_step a newVolume agoraClient Hg) as (_ & H1 & H2 & H3 & H4 & H5 & _).
    split; [exact H2|]. split; [exact H1|]. split; [exact H5|].
    set (a1 := appStep (AVolumeChange newVolume agoraClient) a) in *. clearbody a1.
    split; [| split].
    + cbn [appStep]. unfold live in *. rewrite render_page, onPage_page, onWorld_world.
      destruct (flush_frame true (world (page a1))) as (F1 & _). cbv zeta in F1.
      rewrite F1. exact H2.
    + intros He. rewrite He in H4.
      apply (flush_step a1 t newVolume x H4). rewrite H5. exact Ht.
    + intros He. rewrite He in H4. cbn [appStep].
      rewrite render_page, onPage_page, onWorld_world.
      unfold debouncedVolumeChange_flush. rewrite H4. cbn.
      destruct (world (page a1)); reflexivity.
Qed.

Lemma volume_and_mute_requests_witness :
  let a := appRun attachedTrace (appInit true false) in
  let a' := appStep (AToggleMute None 2) a in
  let a1 := appStep (AVolumeChange 30 2) a in
  let a2 := appStep (AVolumeFlush true) a1 in
  (isMuted (live a') = true /\
   trackVolume <$> tracks (world (page a')) !! 7%nat = Some 0%Z) /\
  (volume (live a1) = 30%Z /\
   trackVolume <$> tracks (world (page a2)) !! 7%nat = Some 30%Z).
Proof.
  pose proof (volume_and_mute_requests (appRun attachedTrace (appInit true false))
                7 75 30 2 None eq_refl) as (H1 & _ & H3).
  specialize (H1 eq_refl eq_refl). specialize (H3 eq_refl). cbv zeta in *.
  destruct H1 as (H1 & _ & H2). destruct H3 as (H3 & _ & _ & _ & H4 & _).
  split; [split; [exact H1 | exact H2] | split; [exact H3 | exact (H4 eq_refl)]].
Defined.



Lemma moves_run (t : nat) (x : Z) (moves : list (Z * nat)) :
  forall a,
  canMoveSlider a = true ->
  remoteAudioTrack (live a) = Some t ->
  trackVolume <$> tracks (world (page a)) !! t = Some x ->
  let a' := appRun (map (fun m => AVolumeChange (fst m) (snd m)) moves) a in
  canMoveSlider a' = true /\
  remoteAudioTrack (live a') = Some t /\
  trackVolume <$> tracks (world (page a')) !! t = Some x.
Proof.
  induction moves as [|[v c] moves IH]; intros a Hg He Ht; cbn [map appRun fst snd].
  - auto.
  - destruct (volume_step a v c Hg) as (_ & _ & _ & H3 & _ & H5 & H6).
    apply IH; [exact H6 | congruence | rewrite H5; exact Ht].
Qed.

(** X10. Moves of the enabled slider coalesce: through a run of moves the
    stored volume follows the slider while the volume of the held track is
    left alone, the debounced setter keeps the arguments of the last move
    only, and when its wait elapses the track is given the last volume,
    once. *)
Theorem volume_changes_coalesce
    (a : App) (t : nat) (x : Z) (moves : list (Z * nat)) (v : Z) (c : nat) :
  canMoveSlider a = true ->
  remoteAudioTrack (live a) = Some t ->
  trackVolume <$> tracks (world (page a)) !! t = Some x ->
  let a1 := appRun (map (fun m => AVolumeChange (fst m) (snd m)) (moves ++ [(v, c)])) a in
  let a2 := appStep (AVolumeFlush true) a1 in
  (volume (live a1) = v /\
   trackVolume <$> tracks (world (page a1)) !! t = Some x /\
   debouncedVolumeChange (world (page a1)) = Some (MkVolumeCall v (Some t) false)) /\
  (volume (live a2) = v /\
   trackVolume <$> tracks (world (page a2)) !! t = Some v /\
   debouncedVolumeChange (world (page a2)) = None).
Proof.
  intros Hg He Ht. cbv zeta. rewrite map_app, appRun_app. cbn [map appRun fst snd].
  destruct (moves_run t x moves a Hg He Ht) as (G & E & T). cbv zeta in *.
  set (a0 := appRun _ a) in *. clearbody a0.
  destruct (volume_step a0 v c G) as (_ & _ & H2 & H3 & H4 & H5 & _).
  rewrite E in H4.
  assert (T1 : trackVolume <$> tracks (world (page (appStep (AVolumeChange v c) a0))) !! t
               = Some x) by (rewrite H5; exact T).
  split; [auto|].
  destruct (flush_step _ t v x H4 T1) as (F1 & F2 & F3). cbv zeta in *.
  rewrite F3. auto.
Qed.

Lemma volume_changes_coalesce_witness :
  let a := appRun playingTrace (appInit true false) in
  let a1 := appRun [AVolumeChange 10 2; AVolumeChange 20 3; AVolumeChange 30 4;
                    AVolumeChange 40 5] a in
  let a2 := appStep (AVolumeFlush true) a1 in
  (volume (live a1) = 40%Z /\
   trackVolume <$> tracks (world (page a1)) !! 7%nat = Some 75%Z) /\
  (trackVolume <$> tracks (world (page a2)) !! 7%nat = Some 40%Z /\
   tracks (world (page a2)) !! 7%nat = Some (MkTrack 40 false)).
Proof.
  pose proof (volume_changes_coalesce (appRun playingTrace (appInit true false))
                7 75 [(10%Z, 2%nat); (20%Z, 3%nat); (30%Z, 4%nat)] 40 5
                eq_refl eq_refl eq_refl) as H.
  cbv zeta in H. destruct H as ((H1 & H2 & _) & (_ & H3 & _)).
  cbv zeta. split; [split; [exact H1 | exact H2] | split; [exact H3 | reflexivity]].
Defined.

(** X11. A mute click made while a volume change is waiting in the
    debounced setter is overridden by it: the click sets the volume of the
    held track to 0 and the component shows muted (the slider shows 0), and
    when the wait elapses the setter, which recorded [muted = false], gives
    the track the new volume. *)
Theorem pending_volume_change_overrides_mute
    (a : App) (t : nat) (x : Z) (v : Z) (c1 c2 : nat) :
  canMoveSlider a = true ->
  remoteAudioTrack (live a) = Some t ->
  trackVolume <$> tracks (world (page a)) !! t = Some x ->
  let a1 := appStep (AVolumeChange v c1) a in
  let a2 := appStep (AToggleMute None c2) a1 in
  let a3 := appStep (AVolumeFlush true) a2 in
  (isMuted (live a2) = true /\
   trackVolume <$> tracks (world (page a2)) !! t = Some 0%Z) /\
  (isMuted (live a3) = true /\
   volumeSliderValue (live a3) = 0%Z /\
   volume (live a3) = v /\
   trackVolume <$> tracks (world (page a3)) !! t = Some v).
Proof.
  intros Hg He Ht. cbv zeta.
  destruct (volume_step a v c1 Hg) as (_ & M1 & V1 & T1 & D1 & K1 & G1).
  rewrite He in T1, D1.
  set (a1 := appStep (AVolumeChange v c1) a) in *. clearbody a1.
  assert (Gm : canToggleMute a1 = true).
  { rewrite canMoveSlider_spec in G1. apply andb_true_iff in G1 as [G1 _].
    apply andb_true_iff in G1 as [G1 _]. exact G1. }
  assert (Ht1 : trackVolume <$> tracks (world (page a1)) !! t = Some x)
    by (rewrite K1; exact Ht).
  destruct (toggle_step a1 t x c2 Gm T1 Ht1) as (_ & M2 & V2 & T2 & D2 & K2 & _).
  rewrite M1 in M2, K2. cbn [negb] in M2.
  set (a2 := appStep (AToggleMute None c2) a1) in *. clearbody a2.
  rewrite D1 in D2.
  destruct (flush_step a2 t v 0 D2 K2) as (F1 & _ & F3). cbv zeta in *.
  rewrite F3. unfold volumeSliderValue. rewrite M2. split; [auto|].
  repeat split; try assumption. congruence.
Qed.

Lemma pending_volume_change_overrides_mute_witness :
  let a := appRun playingTrace (appInit true false) in
  let a3 := appRun [AVolumeChange 30 2; AToggleMute None 3; AVolumeFlush true] a in
  isMuted (live a3) = true /\
  volumeSliderValue (live a3) = 0%Z /\
  trackVolume <$> tracks (world (page a3)) !! 7%nat = Some 30%Z /\
  tracks (world (page a3)) !! 7%nat = Some (MkTrack 30 false).
Proof.
  pose proof (pending_volume_change_overrides_mute
                (appRun playingTrace (appInit true false)) 7 75 30 2 3
                eq_refl eq_refl eq_refl) as H.
  cbv zeta in H. destruct H as (_ & H1 & H2 & _ & H3).
  cbv zeta. split; [exact H1 | split; [exact H2 | split; [exact H3 | reflexivity]]].
Defined.

(** ** After a change of volume or mute *)

Lemma commit_unmounts (before : App) (c : nat) (a : App) :
  clientEffect_deps (page a) <> clientEffect_deps (page before) ->
  (mountedRef a = true -> isSome (clientEffectEnv a) = true) ->
  mountedRef (commit before c a) = false.
Proof.
  intros Hd Hi. unfold commit.
  rewrite bool_decide_eq_false_2 by (rewrite render_page; exact Hd).
  unfold mountedRef. rewrite render_page.
  fold (mountedRef (runClientEffect c (render a))).
  rewrite runClientEffect_ref, render_effect.
  destruct (clientEffectEnv a) as [x|]; [reflexivity|].
  unfold mountedRef. rewrite render_page. fold (mountedRef a).
  destruct (mountedRef a); [specialize (Hi eq_refl); discriminate | reflexivity].
Qed.

(** A connected component has its client effect in place. *)
Lemma connected_has_effect (a : App) :
  Reachable a -> unmounted a = false -> isConnected (live a) = true ->
  mountedRef a = true -> isSome (clientEffectEnv a) = true.
Proof.
  intros R Hu Hc Hm. destruct (Reachable_inv a R) as [_ I]. specialize (I Hm).
  destruct (clientEffectEnv a) as [x|]; [reflexivity|].
  specialize (I Hu). destruct I as ((Hc' & _) & _). congruence.
Qed.

Lemma appRun_ref_mono (es : list AppEvent) :
  forall a, mountedRef a = false -> mountedRef (appRun es a) = false.
Proof.
  induction es as [|e es IH]; intros a H; cbn [appRun]; [exact H|].
  apply IH, appStep_ref_mono, H.
Qed.

Lemma publish_ignored
    (a : App) (mediaType : MediaType) (sub : SubscribeOutcome) (playOk : bool) :
  mountedRef a = false ->
  page (appStep (APublished mediaType sub playOk) a) = page a /\
  page (appStep (AUnpublished mediaType) a) = page a.
Proof.
  intros Hm. cbn [appStep]. destruct (clientEffectEnv a) as [[env hb]|]; [| auto].
  rewrite !render_page, !onPage_page. split.
  - apply onWorld_id. apply published_unmounted. exact Hm.
  - apply onWorld_id. unfold user_unpublished. unfold mountedRef in Hm.
    rewrite Hm, andb_false_r. reflexivity.
Qed.

(** X24. A change of volume or of mute drops the mounted flag for good.
    The change is a dependency of the client effect: the effect runs again,
    its cleanup sets [isComponentMountedRef.current = false], and nothing
    sets it back.  In every state the component can reach, after a move of
    the enabled slider to another value, or a click on the enabled mute
    button of a component holding a track, the flag is false, it is still
    false after any further events, and every later publish or unpublish
    event leaves the page as it is. *)
Theorem settings_change_unmounts
    (configured ios : bool) (es es' : list AppEvent) (t : nat)
    (newVolume : Z) (c1 c2 : nat)
    (mediaType : MediaType) (sub : SubscribeOutcome) (playOk : bool) :
  let a := appRun es (appInit configured ios) in
  let av := appStep (AVolumeChange newVolume c1) a in
  let am := appStep (AToggleMute None c2) a in
  (canMoveSlider a = true -> newVolume <> volume (live a) ->
   mountedRef av = false /\
   mountedRef (appRun es' av) = false /\
   page (appStep (APublished mediaType sub playOk) (appRun es' av)) = page (appRun es' av) /\
   page (appStep (AUnpublished mediaType) (appRun es' av)) = page (appRun es' av)) /\
  (canToggleMute a = true -> remoteAudioTrack (live a) = Some t ->
   mountedRef am = false /\
   mountedRef (appRun es' am) = false /\
   page (appStep (APublished mediaType sub playOk) (appRun es' am)) = page (appRun es' am) /\
   page (appStep (AUnpublished mediaType) (appRun es' am)) = page (appRun es' am)).
Proof.
  cbv zeta. set (a := appRun es (appInit configured ios)).
  assert (R : Reachable a) by (exists configured, ios, es; reflexivity).
  clearbody a.
  assert (Fin : forall a1, mountedRef a1 = false ->
            mountedRef a1 = false /\
            mountedRef (appRun es' a1) = false /\
            page (appStep (APublished mediaType sub playOk) (appRun es' a1))
            = page (appRun es' a1) /\
            page (appStep (AUnpublished mediaType) (appRun es' a1)) = page (appRun es' a1)).
  { intros a1 H1. pose proof (appRun_ref_mono es' a1 H1) as H2.
    destruct (publish_ignored (appRun es' a1) mediaType sub playOk H2) as [P1 P2].
    auto. }
  split.
  - intros Hg Hv. apply Fin. cbn [appStep]. rewrite Hg.
    destruct (canMoveSlider_connected a Hg) as (Hu & Hc & Hmu & _).
    apply commit_unmounts.
    + unfold clientEffect_deps. rewrite onPage_page, onWorld_world.
      unfold handleVolumeChange, debouncedVolumeChange_call, andThen, when, live in *.
      rewrite Hmu. destruct (page a) as [w l se sdk hs jr rs];
        destruct w as [r mo rt hb ts nx js tr db cf]; destruct r; cbn in *. congruence.
    + unfold mountedRef. rewrite onPage_page, onWorld_world, onPage_effect.
      intros Hm. apply (connected_has_effect a R Hu Hc).
      unfold mountedRef. revert Hm.
      unfold handleVolumeChange, debouncedVolumeChange_call, andThen, when.
      destruct (negb _); destruct (world (page a)); cbn; auto.
  - intros Hg He. apply Fin. cbn [appStep]. rewrite Hg.
    destruct (canToggleMute_connected a Hg) as (Hu & Hc & _).
    apply commit_unmounts.
    + unfold clientEffect_deps. rewrite onPage_page, onWorld_world.
      unfold toggleMute, andThen, track_setVolume, live in *. rewrite He.
      destruct (page a) as [w l se sdk hs jr rs];
        destruct w as [r mo rt hb ts nx js tr db cf];
        destruct r as [ic il lc vo mu pl ce cl ra rm ir rc wp bo]; cbn in *.
      destruct mu; cbn; congruence.
    + unfold mountedRef. rewrite onPage_page, onWorld_world, onPage_effect.
      intros Hm. apply (connected_has_effect a R Hu Hc).
      unfold mountedRef. revert Hm.
      unfold toggleMute, andThen, track_setVolume. rewrite He.
      destruct (negb _); destruct (world (page a)); cbn; auto.
Qed.

Lemma settings_change_unmounts_witness :
  let a := appRun playingTrace (appInit true false) in
  let av := appStep (AVolumeChange 30 2) a in
  let a2 := appRun [AUnpublished audio] av in
  mountedRef a = true /\
  mountedRef av = false /\
  (isLive (live a2) = true /\ isPlaying (live a2) = true) /\
  page (appStep (APublished audio (Subscribed 8) true) a2) = page a2.
Proof.
  pose proof (settings_change_unmounts true false playingTrace [AUnpublished audio] 7
                30 2 3 audio (Subscribed 8) true) as [H _].
  specialize (H ltac:(vm_compute; reflexivity) ltac:(vm_compute; discriminate)).
  cbv zeta in H. destruct H as (H1 & _ & H3 & _).
  cbv zeta. split; [reflexivity|]. split; [exact H1|]. split; [split; reflexivity|].
  exact H3.
Defined.

(** ** Unpublish and attach *)

Lemma published_other_tracks
    (env : RState) (m : MediaType) (t' : nat) (playOk : bool) (w : World) (t : nat) :
  t <> t' ->
  tracks ((agoraClient_subscribe m (Subscribed t') >>>
           user_published env m (Subscribed t') playOk) w) !! t
  = tracks w !! t.
Proof.
  intros Hne. unfold andThen, agoraClient_subscribe, user_published, when, skip,
    track_setVolume, track_play.
  destruct w as [r mo rt hb ts nx js tr db cf]; cbn.
  destruct (isAudio m && mo) eqn:G; cbn; [| rewrite ?G; reflexivity].
  destruct (tr !! t') eqn:Ht'; cbn; rewrite G;
    destruct (wasPlayingBeforeDisconnect env), playOk; cbn;
    rewrite ?lookup_alter_ne, ?lookup_insert_ne by congruence; reflexivity.
Qed.

Lemma published_attaches
    (env : RState) (t' : nat) (playOk : bool) (w : World) :
  isComponentMountedRef w = true ->
  let w' := (agoraClient_subscribe audio (Subscribed t') >>>
             user_published env audio (Subscribed t') playOk) w in
  remoteAudioTrack (rstate w') = Some t' /\ isLive (rstate w') = true.
Proof.
  intros Hm. cbv zeta. unfold andThen, agoraClient_subscribe, user_published, when, skip,
    track_setVolume, track_play.
  destruct (wasPlayingBeforeDisconnect env), playOk;
    destruct w as [r mo rt hb ts nx js tr db cf]; destruct r; cbn in *; subst mo; cbn;
    destruct (tr !! t'); cbn; auto.
Qed.

(** C7 (as amended).  In every state the component can reach, an
    unpublish event leaves the track objects, the handle and the media
    stream track cell as they are; for audio on a mounted component it
    clears [isLive] and [isPlaying] and nothing else.  A publish event
    touches no track but the one it attaches, so a track held before is not
    stopped; on a mounted component the attached track becomes the handle
    and the component becomes live. *)
Theorem unpublish_and_attach_keep_tracks
    (configured ios : bool) (es : list AppEvent)
    (mediaType : MediaType) (t' : nat) (playOk : bool) :
  let a := appRun es (appInit configured ios) in
  let au := appStep (AUnpublished mediaType) a in
  let ap := appStep (APublished audio (Subscribed t') playOk) a in
  (tracks (world (page au)) = tracks (world (page a)) /\
   remoteAudioTrack (live au) = remoteAudioTrack (live a) /\
   remoteMediaStreamTrack (live au) = remoteMediaStreamTrack (live a) /\
   (mediaType = audio -> mountedRef a = true -> isSome (clientEffectEnv a) = true ->
    isLive (live au) = false /\ isPlaying (live au) = false)) /\
  ((forall t, t <> t' -> tracks (world (page ap)) !! t = tracks (world (page a)) !! t) /\
   (mountedRef a = true -> isSome (clientEffectEnv a) = true ->
    remoteAudioTrack (live ap) = Some t' /\ isLive (live ap) = true)).
Proof.
  cbv zeta. set (a := appRun es (appInit configured ios)). clearbody a.
  cbn [appStep]. unfold live, mountedRef.
  destruct (clientEffectEnv a) as [[env hb]|] eqn:E.
  - rewrite !render_page, !onPage_page, !onWorld_world. split.
    + unfold user_unpublished, andThen.
      destruct (world (page a)) as [r mo rt hb' ts nx js tr db cf]; destruct r; cbn.
      destruct mediaType, mo; cbn; repeat split; auto; discriminate.
    + split.
      * intros t Hne. apply published_other_tracks. exact Hne.
      * intros Hm _. apply published_attaches. exact Hm.
  - split; [repeat split; auto; discriminate|].
    split; [reflexivity | discriminate].
Qed.

(** ** The visibility handler resumes playback *)

Lemma visible_world_frame (env : RState) (res : PollResult) (w : World) :
  (tracks (startHeartbeat env w) = tracks w /\
   isPlaying (rstate (startHeartbeat env w)) = isPlaying (rstate w)) /\
  (tracks (checkBroadcasterStatus env res w) = tracks w /\
   isPlaying (rstate (checkBroadcasterStatus env res w)) = isPlaying (rstate w)).
Proof.
  split.
  - unfold startHeartbeat. destruct w as [r mo rt hb ts nx js tr db cf]; cbn.
    destruct hb; auto.
  - unfold checkBroadcasterStatus, andThen, when, skip.
    destruct res as [m| |data]; [| auto |].
    + destruct (negb (isReconnecting env)); open_world w; auto.
    + destruct (bool_decide _ && isConnected env && _ && _);
        [destruct (negb (isReconnecting env) && _); [attempt_cases |] |];
        destruct (_ && truthy _); open_world w; cbn; auto.
Qed.

(** X17. Playback is resumed by the visibility handler.  When the page
    becomes visible on a component that is live, holds track [t], has
    [wasPlayingBeforeDisconnect] set and is not playing, the handler queues
    one call of [handlePlayPauseStream]; when that timer fires and [play]
    succeeds, [t] plays, [isPlaying] is set, the flag stays set and the
    error is cleared.  When the page becomes hidden nothing happens. *)
Theorem visibility_resumes_playback
    (a : App) (t : nat) (tr : Track) (res : PollResult) :
  unmounted a = false ->
  isLive (live a) = true ->
  remoteAudioTrack (live a) = Some t ->
  wasPlayingBeforeDisconnect (live a) = true ->
  isPlaying (live a) = false ->
  resumeTimers (page a) = [] ->
  tracks (world (page a)) !! t = Some tr ->
  let a1 := appStep (AVisibility true res) a in
  let a2 := appStep (AResumeTimer None) a1 in
  (resumeTimers (page a1) = [live a] /\
   isPlaying (live a1) = false /\
   tracks (world (page a1)) = tracks (world (page a))) /\
  (isPlaying (live a2) = true /\
   wasPlayingBeforeDisconnect (live a2) = true /\
   connectionError (live a2) = None /\
   tracks (world (page a2)) !! t = Some (MkTrack (trackVolume tr) true) /\
   resumeTimers (page a2) = []) /\
  appStep (AVisibility false res) a = render a.
Proof.
  intros Hu Hl He Hw Hp Hr Ht. cbv zeta.
  assert (H1 : resumeTimers (page (appStep (AVisibility true res) a)) = [live a] /\
               isPlaying (live (appStep (AVisibility true res) a)) = false /\
               tracks (world (page (appStep (AVisibility true res) a)))
               = tracks (world (page a))).
  { cbn [appStep]. rewrite Hu. unfold live in *.
    rewrite render_page, onPage_page. unfold handleVisibilityChange.
    rewrite Hl, He, Hw, Hp. cbn [isSome andb negb].
    destruct (visible_world_frame (cbEnv a) res (world (page a))) as [(S1 & S2) (C1 & C2)].
    destruct (page a) as [w l se sdk hs jr rs]; cbn in *. subst rs.
    destruct (isConnected (rstate w)); cbn; rewrite ?S1, ?S2, ?C1, ?C2; auto. }
  destruct H1 as (R1 & P1 & T1). split; [auto|]. split.
  - set (a1 := appStep (AVisibility true res) a) in *. clearbody a1.
    cbn [appStep]. unfold live in *. rewrite render_page, onPage_page.
    rewrite <- T1 in Ht.
    destruct (page a1) as [w l se sdk hs jr rs]; cbn in *. subst rs. cbn.
    unfold handlePlayPauseStream. rewrite He, Hp. unfold andThen, track_play.
    destruct w as [r mo rt hb ts nx js trk db cf]; destruct r; cbn in *.
    rewrite lookup_alter_eq, Ht. auto.
  - cbn [appStep]. rewrite Hu. unfold handleVisibilityChange.
    rewrite (onPage_id (fun p => p)) by reflexivity. reflexivity.
Qed.

Lemma visibility_resumes_playback_witness :
  let a := appRun (republishTrace ++ [APublished audio (Subscribed 8) true])
             (appInit true false) in
  let a2 := appRun [AVisibility true PollNoData; AResumeTimer None] a in
  (isLive (live a) = true /\ isPlaying (live a) = false) /\
  isPlaying (live a2) = true /\
  tracks (world (page a2)) !! 8%nat = Some (MkTrack 75 true).
Proof.
  pose proof (visibility_resumes_playback
                (appRun (republishTrace ++ [APublished audio (Subscribed 8) true])
                   (appInit true false))
                8 (MkTrack 75 false) PollNoData
                eq_refl eq_refl eq_refl eq_refl eq_refl eq_refl eq_refl) as H.
  cbv zeta in H. destruct H as (_ & (H1 & _ & _ & H2 & _) & _).
  cbv zeta. split; [split; reflexivity|]. split; [exact H1 | exact H2].
Defined.

(** ** The outcomes of the load *)

(** X19. The two outcomes of the load.  When it fails, the page stops
    loading and keeps the error message; with a non-empty message the
    component shows the "Service Unavailable" screen with that message, and
    with an empty one the player with the status 'error' and the text
    "Failed to load streaming system".  The client effect runs but creates
    no client and makes no join, and the load is not settled twice.  When it
    succeeds, the client effect creates the client and closes over the
    first render; with the configuration present its join is under way and
    the page shows 'disconnected', and without it the join has failed at
    once, its retry is scheduled and the page shows the error. *)
Theorem sdk_load_outcomes (configured ios : bool) (m : string) (sdk agoraClient c' : nat)
    (again : option LoadOutcome) :
  let af := appStep (ASdkSettled (Some (SdkFailed m)) agoraClient) (appInit configured ios) in
  let al := appStep (ASdkSettled (Some (SdkLoaded sdk)) agoraClient) (appInit configured ios) in
  (isSDKLoading (page af) = false /\
   sdkError (page af) = Some m /\
   pageView (page af)
   = (if String.eqb m ""
      then Player (MkStreamStatus StError "Failed to load streaming system")
      else ServiceUnavailable m) /\
   clientEffectEnv af = None /\
   client (live af) = None /\
   joinsPending af = [] /\
   appStep (ASdkSettled again c') af = af) /\
  (isSDKLoading (page al) = false /\
   AgoraRTC (page al) = Some sdk /\
   pageView (page al)
   = Player (if configured
             then MkStreamStatus StDisconnected "Connecting to service..."
             else MkStreamStatus StError
                    "Failed to join: Missing required Agora configuration (APP_ID or CHANNEL_NAME)") /\
   client (live al) = Some agoraClient /\
   clientEffectEnv al = Some (initialRState, initialRState) /\
   joinsPending al = (if configured then [(initialRState, initialRState)] else []) /\
   joinRetryTimers (page al) = (if configured then [] else [(initialRState, initialRState)])).
Proof.
  cbv zeta. split.
  - assert (E : appStep (ASdkSettled (Some (SdkFailed m)) agoraClient)
                  (appInit configured ios)
                = let r := setConnectionError (Some "Failed to load streaming system")
                             initialRState in
                  MkApp (MkPage (MkWorld r true None None [] 1 [] ∅ None configured)
                           false (Some m) None false [] [])
                    None r [] ios false) by reflexivity.
    rewrite E. cbv zeta. unfold pageView. cbn.
    destruct (String.eqb m ""); cbn; repeat split; reflexivity.
  - destruct configured; repeat split; reflexivity.
Qed.

(** ** Teardown of a mounted component *)

(** X25. Unmounting a component whose mounted flag is still set stops no
    track and keeps the handle: the cleanup in place belongs to the first
    run of the client effect, whose render holds no track, so its
    [remoteAudioTrack.stop()] is skipped.  The mounted flag is cleared, the
    interval is stopped and the pending volume change is cancelled. *)
Theorem unmount_keeps_tracks (configured ios : bool) (es : list AppEvent) :
  let a := appRun es (appInit configured ios) in
  let a' := appStep AUnmount a in
  mountedRef a = true ->
  unmounted a = false ->
  tracks (world (page a')) = tracks (world (page a)) /\
  live a' = live a /\
  heartbeatIntervalRef (world (page a')) = None /\
  debouncedVolumeChange (world (page a')) = None /\
  unmounted a' = true /\
  (isSome (clientEffectEnv a) = true -> mountedRef a' = false).
Proof.
  cbv zeta. set (a := appRun es (appInit configured ios)).
  assert (R : Reachable a) by (exists configured, ios, es; reflexivity).
  clearbody a. intros Hm Hu. cbn [appStep]. rewrite Hu.
  destruct (clientEffectEnv a) as [[env hb]|] eqn:E.
  - destruct (Reachable_handlers a env hb R Hm E) as [(_ & _ & _ & _ & Ht & _) _].
    unfold live, mountedRef, cleanupClient, cleanupComponent, andThen, clearTimeout,
      stopHeartbeat, skip.
    rewrite Ht.
    destruct a as [p ef cb jp ios' um]; destruct p as [w l se sdk hs jr rs];
      destruct w as [r mo rt hb' ts nx js tr db cf]; cbn.
    destruct rt, hb'; cbn; repeat split; reflexivity.
  - unfold live, mountedRef, cleanupComponent, andThen, stopHeartbeat, skip.
    destruct a as [p ef cb jp ios' um]; destruct p as [w l se sdk hs jr rs];
      destruct w as [r mo rt hb' ts nx js tr db cf]; cbn.
    destruct hb'; cbn; repeat split; try reflexivity; discriminate.
Qed.

Lemma unmount_keeps_tracks_witness :
  let a := appRun playingTrace (appInit true false) in
  let a' := appStep AUnmount a in
  tracks (world (page a)) !! 7%nat = Some (MkTrack 75 true) /\
  tracks (world (page a')) !! 7%nat = Some (MkTrack 75 true) /\
  remoteAudioTrack (live a') = Some 7%nat /\
  mountedRef a' = false.
Proof.
  pose proof (unmount_keeps_tracks true false playingTrace eq_refl eq_refl) as H.
  cbv zeta in H. destruct H as (H1 & H2 & _ & _ & _ & H6).
  cbv zeta. split; [reflexivity|]. split; [rewrite H1; reflexivity|].
  split; [rewrite H2; reflexivity | exact (H6 eq_refl)].
Defined.
